(** * Sprint Planner: the schedule builder and the taper advisor

    A shallow embedding of [app_streamlit_all_in_one.py]: the core
    routine [build_schedule] with its nested helpers [phase_for],
    [_time_prefix_manual] and [_time_prefix_auto], the static tables
    [DEFAULT_PHASES] and [ROTATIONS], the race-calendar helper
    [taper_protocol], the rows that [calendar_to_excel] writes, and the
    configuration that the plan generator of the first tab builds from
    its widgets.  The workbook writers, the download buttons and the
    Google Sheets helpers act on the outside world only and are not
    part of the embedding.

    Conventions of the embedding.
    - A [datetime] at midnight is its proleptic Gregorian day ordinal
      ([date.toordinal]), an integer; 0001-01-01 is day 1 and a Monday.
      [timedelta(days=k)] is the integer [k]; leaving the representable
      range 0001-01-01 .. 9999-12-31 raises [OverflowError].
    - Python strings are byte strings in UTF-8; equality, concatenation
      and the substring test agree with the code-point view.
    - Python floats are binary64 numbers ([PrimFloat.float]).
    - A [dict] read with [.get] is a finite map or, for the
      configuration, a record whose optional keys have option type.
    - Exceptions are values of [exn]; a computation that may raise
      returns [result].
    - A pandas frame is its set of columns with, for each row, the
      values that the row has; the cell of a row in a column for which
      it has no value is NaN.
    - [pd.date_range] is taken on the whole calendar: the range limits
      of the pandas timestamp type are outside this development.  The
      further properties that state that the builder returns rows ask
      for a season inside these limits ([timestamp_day]). *)

From Stdlib Require Import ZArith String Ascii List Floats Lia.
From stdpp Require Import base option list gmap strings pretty.

Set Warnings "-inexact-float".
Local Open Scope Z_scope.

(** ** Exceptions *)

Inductive exn : Type :=
  | ValueError
  | IndexError
  | KeyError
  | OverflowError.

Inductive result (A : Type) : Type :=
  | Ok (a : A)
  | Raise (e : exn).

Arguments Ok {A} a.
Arguments Raise {A} e.

#[global] Instance result_ret : MRet result := fun _ a => Ok a.

#[global] Instance result_bind : MBind result := fun _ _ f m =>
  match m with
  | Ok a => f a
  | Raise e => Raise e
  end.

#[global] Instance result_fmap : FMap result := fun _ _ f m =>
  match m with
  | Ok a => Ok (f a)
  | Raise e => Raise e
  end.

(** [d[k]] on an optional value: the exception [e] when it is absent. *)
Definition or_raise {A : Type} (e : exn) (o : option A) : result A :=
  match o with
  | Some a => Ok a
  | None => Raise e
  end.

(** ** The calendar of Python's [datetime] module *)

Module Calendar.

Abbreviation datetime := Z.

Definition MINORD : Z := 1.
Definition MAXORD : Z := 3652059.

Definition is_leap (year : Z) : bool :=
  (year mod 4 =? 0) && (negb (year mod 100 =? 0) || (year mod 400 =? 0)).

Definition days_before_year (year : Z) : Z :=
  let y := year - 1 in
  y * 365 + y / 4 - y / 100 + y / 400.

Definition DAYS_IN_MONTH : list Z :=
  [-1; 31; 28; 31; 30; 31; 30; 31; 31; 30; 31; 30; 31].

Definition DAYS_BEFORE_MONTH : list Z :=
  [-1; 0; 31; 59; 90; 120; 151; 181; 212; 243; 273; 304; 334].

Definition table (t : list Z) (month : Z) : Z :=
  default 0 (t !! Z.to_nat month).

Definition days_in_month (year month : Z) : Z :=
  if (month =? 2) && is_leap year then 29 else table DAYS_IN_MONTH month.

Definition days_before_month (year month : Z) : Z :=
  table DAYS_BEFORE_MONTH month
  + (if (2 <? month) && is_leap year then 1 else 0).

Definition ymd2ord (year month day : Z) : Z :=
  days_before_year year + days_before_month year month + day.

Definition DI400Y : Z := 146097.
Definition DI100Y : Z := 36524.
Definition DI4Y : Z := 1461.

Definition ord2ymd (n : Z) : Z * Z * Z :=
  let n := n - 1 in
  let n400 := n / DI400Y in
  let n := n mod DI400Y in
  let year := n400 * 400 + 1 in
  let n100 := n / DI100Y in
  let n := n mod DI100Y in
  let n4 := n / DI4Y in
  let n := n mod DI4Y in
  let n1 := n / 365 in
  let n := n mod 365 in
  let year := year + n100 * 100 + n4 * 4 + n1 in
  if (n1 =? 4) || (n100 =? 4) then (year - 1, 12, 31)
  else
    let leapyear := (n1 =? 3) && (negb (n4 =? 24) || (n100 =? 3)) in
    let month := Z.shiftr (n + 50) 5 in
    let preceding :=
      table DAYS_BEFORE_MONTH month
      + (if (2 <? month) && leapyear then 1 else 0) in
    if n <? preceding then
      let month := month - 1 in
      let preceding :=
        preceding
        - (table DAYS_IN_MONTH month
           + (if (month =? 2) && leapyear then 1 else 0)) in
      (year, month, n - preceding + 1)
    else (year, month, n - preceding + 1).

(** [datetime.weekday()]: Monday is 0, Sunday is 6. *)
Definition weekday (d : datetime) : Z := (d + 6) mod 7.

(** [d + timedelta(days=k)] *)
Definition add_days (d : datetime) (k : Z) : result datetime :=
  let r := d + k in
  if (MINORD <=? r) && (r <=? MAXORD) then Ok r else Raise OverflowError.

(** [d - timedelta(days=k)] *)
Definition sub_days (d : datetime) (k : Z) : result datetime :=
  add_days d (- k).

(** *** [datetime.strptime(s, "%Y-%m-%d")]

    The format compiles to the regular expression
    [(\d\d\d\d)-(1[0-2]|0[1-9]|[1-9])-(3[01]|[12]\d|0[1-9]|[1-9]| [1-9])],
    matched at the start of the string; alternatives are tried from the
    left, text left over after the match is an error, and so is a day
    the month does not have or the year 0.  The digit class is taken as
    the ASCII digits. *)

Definition is_digit (c : ascii) : bool :=
  let n := Z.of_nat (nat_of_ascii c) in (48 <=? n) && (n <=? 57).

Definition digit_val (c : ascii) : Z := Z.of_nat (nat_of_ascii c) - 48.

Definition in_range (lo hi : Z) (c : ascii) : bool :=
  is_digit c && (lo <=? digit_val c) && (digit_val c <=? hi).

Definition is_char (x c : ascii) : bool := bool_decide (x = c).

(** The group [%m]: the month and the rest of the input. *)
Definition match_m (s : list ascii) : option (Z * list ascii) :=
  match s with
  | a :: b :: r =>
      if is_char "1" a && in_range 0 2 b then Some (10 + digit_val b, r)
      else if is_char "0" a && in_range 1 9 b then Some (digit_val b, r)
      else if in_range 1 9 a then Some (digit_val a, b :: r)
      else None
  | [a] => if in_range 1 9 a then Some (digit_val a, []) else None
  | [] => None
  end.

(** The group [%d]: the day and the rest of the input. *)
Definition match_d (s : list ascii) : option (Z * list ascii) :=
  match s with
  | a :: b :: r =>
      if is_char "3" a && in_range 0 1 b then Some (30 + digit_val b, r)
      else if in_range 1 2 a && is_digit b
      then Some (10 * digit_val a + digit_val b, r)
      else if is_char "0" a && in_range 1 9 b then Some (digit_val b, r)
      else if in_range 1 9 a then Some (digit_val a, b :: r)
      else if is_char " " a && in_range 1 9 b then Some (digit_val b, r)
      else None
  | [a] => if in_range 1 9 a then Some (digit_val a, []) else None
  | [] => None
  end.

Definition match_Y (s : list ascii) : option (Z * list ascii) :=
  match s with
  | a :: b :: c :: d :: r =>
      if is_digit a && is_digit b && is_digit c && is_digit d
      then Some (1000 * digit_val a + 100 * digit_val b
                 + 10 * digit_val c + digit_val d, r)
      else None
  | _ => None
  end.

Definition match_dash (s : list ascii) : option (list ascii) :=
  match s with
  | a :: r => if is_char "-" a then Some r else None
  | [] => None
  end.

Definition parse_ymd (s : string) : option (Z * Z * Z) :=
  '(y, r) ← match_Y (list_ascii_of_string s);
  r ← match_dash r;
  '(m, r) ← match_m r;
  r ← match_dash r;
  '(d, r) ← match_d r;
  match r with
  | [] => Some (y, m, d)
  | _ :: _ => None
  end.

Definition strptime (s : string) : result datetime :=
  match parse_ymd s with
  | Some (y, m, d) =>
      if (1 <=? y) && (d <=? days_in_month y m)
      then Ok (ymd2ord y m d)
      else Raise ValueError
  | None => Raise ValueError
  end.

(** *** [strftime("%Y-%m-%d")]: the year on four digits, month and day
    on two. *)

Definition digit_char (d : Z) : ascii := ascii_of_nat (Z.to_nat (48 + d)).

Definition two_digits (n : Z) : string :=
  String (digit_char (n / 10 mod 10))
    (String (digit_char (n mod 10)) EmptyString).

Definition four_digits (n : Z) : string :=
  String (digit_char (n / 1000 mod 10))
    (String (digit_char (n / 100 mod 10)) (two_digits n)).

Definition strftime (d : datetime) : string :=
  let '(y, m, dd) := ord2ymd d in
  four_digits y +:+ "-" +:+ two_digits m +:+ "-" +:+ two_digits dd.

(** *** [pd.date_range(start=start, end=end, freq="W-MON")]: the
    Mondays from [start] to [end], both included, in increasing
    order. *)

Definition first_monday (start : datetime) : datetime :=
  start + (- weekday start) mod 7.

Definition date_range (start end_ : datetime) : list datetime :=
  let first := first_monday start in
  if first <=? end_
  then (fun k => first + 7 * k) <$> seqZ 0 ((end_ - first) / 7 + 1)
  else [].

End Calendar.

Import Calendar.

(** ** Numbers *)

Module PyFloat.

Local Open Scope float_scope.

(** An exactly representable integer as a float. *)
Definition of_Z (n : Z) : float := PrimFloat.of_uint63 (Uint63.of_Z n).

(** The integer nearest to [num / den] for [0 < den], ties to even. *)
Definition round_half_even (num den : Z) : Z :=
  let q := (num / den)%Z in
  let r := (num mod den)%Z in
  if (2 * r <? den)%Z then q
  else if (den <? 2 * r)%Z then (q + 1)%Z
  else if Z.even q then q else (q + 1)%Z.

(** [round(x, ndigits)] on a float, for [0 <= ndigits]: the exact
    value of [x] is rounded to [ndigits] decimals, ties to even, and
    the decimal is read back as the nearest float.  The scaled integer
    [n] is exactly a float below 2^53, where the correctly rounded
    quotient [n / 10^ndigits] is that nearest float; the builder rounds
    products of two factors that are at most 1. *)
Definition round (x : float) (ndigits : Z) : float :=
  match Prim2SF x with
  | S754_finite s m e =>
      if (0 <=? e)%Z then x
      else
        let scale := (10 ^ ndigits)%Z in
        let n := round_half_even (Z.pos m * scale) (2 ^ (- e)) in
        let q := of_Z n / of_Z scale in
        if s then - q else q
  | _ => x
  end.

End PyFloat.

(** A JSON number: [int] or [float]. *)
Inductive number : Type :=
  | Int (z : Z)
  | Float (f : float).

(** [x >= k] for an integer literal [k]. *)
Definition number_ge (x : number) (k : Z) : bool :=
  match x with
  | Int z => k <=? z
  | Float f => PrimFloat.leb (PyFloat.of_Z k) f
  end.

(** ** Strings *)

(** [sub in s] *)
Fixpoint str_in (sub s : string) : bool :=
  String.prefix sub s
  || match s with
     | EmptyString => false
     | String _ s' => str_in sub s'
     end.

(** [sep.join(parts)] *)
Fixpoint join (sep : string) (parts : list string) : string :=
  match parts with
  | [] => EmptyString
  | [p] => p
  | p :: ps => p +:+ sep +:+ join sep ps
  end.

(** The truth value of a string: it is not empty. *)
Definition nonempty (s : string) : bool :=
  match s with
  | EmptyString => false
  | String _ _ => true
  end.

(** ** Core schedule logic *)

Definition DEFAULT_PHASES : list (string * string) := [
    ("Phase 1 - General Prep", "Build foundation: sprint drills, general strength");
    ("Phase 2 - Specific Prep", "Acceleration, max velocity, introduce 150m runs");
    ("Phase 3 - Pre-Competition (Indoor)", "Sharpening, block starts, race sim (60/200)");
    ("Phase 4 - Taper & Peak 1", "Taper into indoor peak");
    ("Phase 5 - Transition/Recovery", "Active recovery, variation");
    ("Phase 6 - Outdoor Build", "100/200m base, special endurance, bends");
    ("Phase 7 - Pre-Competition Outdoor", "Race-specific prep (100/200)");
    ("Phase 8 - Taper & Peak 2", "Taper into outdoor peak");
    ("Phase 9 - Post-season Reset", "Active recovery & reset")
  ].

Definition ROTATIONS : gmap string (list string) :=
  list_to_map [
    ("Mon", [
        "Warm-up + drills; Starts/accelerations; Core";
        "Warm-up + drills; Accel 30–40m; Relaxed 60m; Core";
        "Warm-up + drills; Accel 30m x8; Med ball; Core";
        "Warm-up + drills; Blocks; Accel; Short 50–60m; Core"
    ]);
    ("Tue", [
        "Drills; Flying 20–30m; Light plyo";
        "Drills; Relaxed strides; Bounding; Core";
        "Drills; Accel 30m; Hurdle hops; Med ball";
        "Drills; Flying 20–30m; Plyo circuit"
    ]);
    ("Wed", [
        "Bodyweight circuit (legs + push + core)";
        "Bands (rows, pull-aparts) + glutes + core";
        "Single-leg / balance strength + core";
        "Split squats + pull-aparts + stability core"
    ]);
    ("Thu", [
        "Key session: special endurance / race sim";
        "Key session: bend runs / race rhythm";
        "Key session: 150–200m @90–95% + starts";
        "Key session: race pace mix (100/200)"
    ]);
    ("Fri", [
        "Flying 20–30m; Blocks; Explosive circuit";
        "Accel 20–40m; Jump squats; Core";
        "Accel 20–30m; Bounding; Med ball";
        "Relaxed 40–60m; Blocks; Explosive lunges; Core"
    ]);
    ("Sat", [
        "Optional sprint (if fresh) or active recovery";
        "Optional: relaxed 150–200m + stretch";
        "Optional: accel + light plyo";
        "Optional: short race sim; or rest"
    ]);
    ("Sun", [
        "Rest / Competition";
        "Rest / Mobility";
        "Rest / Easy bike";
        "Rest"
    ])
  ].

(** The weekdays, in the order the builder walks them. *)
Definition DAYS : list string :=
  ["Mon"; "Tue"; "Wed"; "Thu"; "Fri"; "Sat"; "Sun"].

(** *** The configuration

    [cfg] is a JSON object.  Keys read with [cfg[k]] are fields; keys
    read with [.get(k, default)] are optional fields. *)

Record Slot : Type := {
  slot_start : option string;
  slot_end : option string;
  slot_location : option string
}.

Record Schedule : Type := {
  mode : option string;
  include_time_prefix : option bool;
  sessions_per_week : option Z;
  slots : option (gmap string (list Slot))
}.

Record Peaks : Type := {
  indoor_peak_dates : list string;
  outdoor_peak_date : string
}.

Record Config : Type := {
  season_start : string;
  season_end : string;
  athlete_name : string;
  age : option number;
  sex : string;
  pbs : gmap string float;
  bike_km_per_day : option number;
  peaks : Peaks;
  events : list string;
  schedule : option Schedule
}.

(** [cfg.get("schedule", {})] when the key is absent. *)
Definition empty_schedule : Schedule :=
  {| mode := None; include_time_prefix := None;
     sessions_per_week := None; slots := None |}.

(** One row of the returned data frame. *)
Record Row : Type := {
  Week_of : string;
  Phase : string;
  Focus : string;
  Mon : string;
  Tue : string;
  Wed : string;
  Thu : string;
  Fri : string;
  Sat : string;
  Sun : string;
  Volume_modifier : float
}.

(** *** Phases *)

Definition phases_cfg (start end_ peak1 peak2 : datetime)
  : result (list (string * datetime * datetime)) :=
  e1 ← sub_days peak1 84;
  s2 ← sub_days peak1 83;
  e2 ← sub_days peak1 35;
  s3 ← sub_days peak1 34;
  e3 ← sub_days peak1 7;
  s4 ← sub_days peak1 6;
  s5 ← add_days peak1 1;
  e5 ← add_days peak1 14;
  s6 ← add_days peak1 15;
  e6 ← sub_days peak2 49;
  s7 ← sub_days peak2 48;
  e7 ← sub_days peak2 14;
  s8 ← sub_days peak2 13;
  s9 ← add_days peak2 1;
  mret [
    ("Phase 1 - General Prep", start, e1);
    ("Phase 2 - Specific Prep", s2, e2);
    ("Phase 3 - Pre-Competition (Indoor)", s3, e3);
    ("Phase 4 - Taper & Peak 1", s4, peak1);
    ("Phase 5 - Transition/Recovery", s5, e5);
    ("Phase 6 - Outdoor Build", s6, e6);
    ("Phase 7 - Pre-Competition Outdoor", s7, e7);
    ("Phase 8 - Taper & Peak 2", s8, peak2);
    ("Phase 9 - Post-season Reset", s9, end_)
  ].

(** [phase_for(date)]: the name of the first phase whose range holds
    the date, the empty string when there is none. *)
Fixpoint phase_for (phases : list (string * datetime * datetime))
  (date : datetime) : string :=
  match phases with
  | [] => EmptyString
  | (name, s, e) :: rest =>
      if (s <=? date) && (date <=? e) then name else phase_for rest date
  end.

(** [next((d for n,d in DEFAULT_PHASES if n == phase), default)] with
    the empty string as default. *)
Fixpoint focus_of (table : list (string * string)) (phase : string)
  : string :=
  match table with
  | [] => EmptyString
  | (n, d) :: rest => if String.eqb n phase then d else focus_of rest phase
  end.

(** *** The volume modifier *)

Definition commute_factor (cfg : Config) : float :=
  let bike_km_per_day := default (Int 0) (bike_km_per_day cfg) in
  if number_ge bike_km_per_day 30 then 0.9%float else 1.0%float.

Definition age_factor (cfg : Config) : float :=
  let age := default (Int 15) (age cfg) in
  if number_ge age 16 then 1.0%float else 0.95%float.

Definition vol_mod_of (cfg : Config) (phase : string) : float :=
  let vol_mod := PyFloat.round (commute_factor cfg * age_factor cfg)%float 2 in
  let vol_mod := if str_in "Taper" phase then 0.5%float else vol_mod in
  let vol_mod :=
    if str_in "Transition" phase || str_in "Post-season" phase
    then 0.4%float else vol_mod in
  vol_mod.

(** *** Time and location prefixes *)

Definition _time_prefix_manual (slots : list Slot) : string :=
  let parts :=
    (fun s =>
       default EmptyString (slot_start s) +:+ "-"
       +:+ default EmptyString (slot_end s) +:+ " @ "
       +:+ default EmptyString (slot_location s)) <$> slots in
  join " + " parts.

Record Template : Type := {
  location : string;
  minutes : Z
}.

Definition templates : gmap Z (gmap string Template) :=
  list_to_map [
    (5, list_to_map [
          ("Mon", {| location := "Statina/Club"; minutes := 75 |});
          ("Tue", {| location := "Track"; minutes := 60 |});
          ("Wed", {| location := "Home (core)"; minutes := 60 |});
          ("Thu", {| location := "Papendal/Track"; minutes := 105 |});
          ("Fri", {| location := "Track"; minutes := 60 |})
        ]);
    (4, list_to_map [
          ("Mon", {| location := "Club/Track"; minutes := 75 |});
          ("Wed", {| location := "Home (core)"; minutes := 45 |});
          ("Thu", {| location := "Track"; minutes := 90 |});
          ("Fri", {| location := "Track"; minutes := 60 |})
        ]);
    (6, list_to_map [
          ("Mon", {| location := "Track"; minutes := 75 |});
          ("Tue", {| location := "Track"; minutes := 60 |});
          ("Wed", {| location := "Home (core)"; minutes := 60 |});
          ("Thu", {| location := "Track"; minutes := 105 |});
          ("Fri", {| location := "Track"; minutes := 60 |});
          ("Sat", {| location := "Track (optional)"; minutes := 90 |})
        ])
  ].

Definition _time_prefix_auto (day : string) (sessions_per_week : Z)
  : string :=
  let t :=
    default (templates !!! 5) (templates !! sessions_per_week) !! day in
  match t with
  | None => EmptyString
  | Some t =>
      if minutes t =? 0 then EmptyString
      else "(@ " +:+ location t +:+ ", ~" +:+ pretty (minutes t)
           +:+ " min) — "
  end.

(** *** The builder *)

(** [ROTATIONS[day][rot_idx]] *)
Definition rotation (day : string) (rot_idx : nat) : result string :=
  texts ← or_raise KeyError (ROTATIONS !! day);
  or_raise IndexError (texts !! rot_idx).

(** The prefix chosen inside the loop over the weekdays. *)
Definition cell_prefix (schedule_cfg : Schedule) (day : string) : string :=
  let schedule_mode := default "none" (mode schedule_cfg) in
  let sessions_per_week := default 5 (sessions_per_week schedule_cfg) in
  let include_time_prefix :=
    default true (include_time_prefix schedule_cfg) in
  let manual_slots := default ∅ (slots schedule_cfg) in
  if include_time_prefix then
    if String.eqb schedule_mode "manual" then
      let slots := default [] (manual_slots !! day) in
      match slots with
      | [] => EmptyString
      | _ :: _ => _time_prefix_manual slots +:+ " — "
      end
    else if String.eqb schedule_mode "auto" then
      _time_prefix_auto day sessions_per_week
    else EmptyString
  else EmptyString.

(** [f"{prefix}{base_text}" if prefix else base_text] *)
Definition with_prefix (prefix base_text : string) : string :=
  if nonempty prefix then prefix +:+ base_text else base_text.

(** One pass of the loop over the weekdays: the text of the cell. *)
Definition day_cell (schedule_cfg : Schedule) (rot_idx : nat) (day : string)
  : result string :=
  base_text ← rotation day rot_idx;
  let prefix := cell_prefix schedule_cfg day in
  mret (with_prefix prefix base_text).

(** The loop over the weekdays, filling the dictionary [day_cells]. *)
Fixpoint fill_day_cells (schedule_cfg : Schedule) (rot_idx : nat)
  (days : list string) (day_cells : gmap string string)
  : result (gmap string string) :=
  match days with
  | [] => mret day_cells
  | day :: rest =>
      cell ← day_cell schedule_cfg rot_idx day;
      fill_day_cells schedule_cfg rot_idx rest (<[day := cell]> day_cells)
  end.

(** The body of the loop over the weeks for an anchor with a phase. *)
Definition make_row (cfg : Config) (i : nat) (w : datetime) (phase : string)
  : result Row :=
  let schedule_cfg := default empty_schedule (schedule cfg) in
  let rot_idx := (i mod 4)%nat in
  let focus := focus_of DEFAULT_PHASES phase in
  let vol_mod := vol_mod_of cfg phase in
  day_cells ← fill_day_cells schedule_cfg rot_idx DAYS ∅;
  mon ← or_raise KeyError (day_cells !! "Mon");
  tue ← or_raise KeyError (day_cells !! "Tue");
  wed ← or_raise KeyError (day_cells !! "Wed");
  thu ← or_raise KeyError (day_cells !! "Thu");
  fri ← or_raise KeyError (day_cells !! "Fri");
  sat ← or_raise KeyError (day_cells !! "Sat");
  sun ← or_raise KeyError (day_cells !! "Sun");
  mret {| Week_of := strftime w; Phase := phase; Focus := focus;
          Mon := mon; Tue := tue; Wed := wed; Thu := thu; Fri := fri;
          Sat := sat; Sun := sun; Volume_modifier := vol_mod |}.

(** The loop [for i, w in enumerate(weeks)], from index [i] on. *)
Fixpoint rows_from (cfg : Config)
  (phases : list (string * datetime * datetime)) (i : nat)
  (weeks : list datetime) : result (list Row) :=
  match weeks with
  | [] => mret []
  | w :: rest =>
      let phase := phase_for phases w in
      if nonempty phase then
        row ← make_row cfg i w phase;
        rows ← rows_from cfg phases (S i) rest;
        mret (row :: rows)
      else rows_from cfg phases (S i) rest
  end.

Definition build_schedule (cfg : Config) : result (list Row) :=
  start ← strptime (season_start cfg);
  end_ ← strptime (season_end cfg);
  let weeks := date_range start end_ in
  peak1_str ← or_raise IndexError (indoor_peak_dates (peaks cfg) !! 0%nat);
  peak1 ← strptime peak1_str;
  peak2 ← strptime (outdoor_peak_date (peaks cfg));
  phases ← phases_cfg start end_ peak1 peak2;
  rows_from cfg phases 0 weeks.

(** ** Race calendar helpers *)

Record TaperProtocol : Type := {
  Volume_change : string;
  Intensity : string;
  Key_sessions : string;
  Strength : string;
  Rest_days : string;
  Notes : string
}.

Definition taper_protocol (priority peak_type : string) : TaperProtocol :=
  if String.eqb priority "A" then
    {| Volume_change := "-40% to -60%";
       Intensity := "High (short & sharp)";
       Key_sessions := "Mon: starts/accel; Tue: flying 20–30m; Thu: race-pace touches; Fri: micro-priming";
       Strength := "Explosive only (bodyweight/bands)";
       Rest_days := "≥1 full rest day before race";
       Notes := "A-peak (" +:+ peak_type +:+ "): keep CNS fresh; no fatigue-dense work last 72h" |}
  else if String.eqb priority "B" then
    {| Volume_change := "-20% to -30%";
       Intensity := "Moderate-high";
       Key_sessions := "Short starts + 1 race-pace rep";
       Strength := "Light explosive set";
       Rest_days := "Optional rest day before race";
       Notes := "Rehearsal race; do not over-taper" |}
  else
    {| Volume_change := "No change or -10%";
       Intensity := "Normal training";
       Key_sessions := "Keep routine; short starts";
       Strength := "Normal";
       Rest_days := "None required";
       Notes := "Training race; prioritize learning" |}.

(** The rotation selector: the text for a weekday and a week index. *)
Definition select (day_of_week : string) (week_index : nat) : result string :=
  rotation day_of_week (week_index mod 4).

(** The configuration of the scenario of the specification: the dates,
    the age and the commute distance are the scenario's, the other
    fields are those of the form's defaults. *)
Definition scenario_cfg : Config := {|
  season_start := "2025-09-01"; season_end := "2026-07-01";
  athlete_name := "Kylie"; age := Some (Int 15); sex := "F";
  pbs := list_to_map [("60m", 8.58%float); ("100m", 13.48%float);
                      ("200m", 29.09%float)];
  bike_km_per_day := Some (Int 32);
  peaks := {| indoor_peak_dates := ["2026-02-21"; "2026-02-22"];
              outdoor_peak_date := "2026-06-28" |};
  events := ["60m"; "100m"; "200m"];
  schedule := Some {| mode := Some "auto"; include_time_prefix := Some true;
                      sessions_per_week := Some 5; slots := Some ∅ |}
|}.

(** The table of section 4.1 of the specification, with day offsets
    as integers. *)
Definition phase_table (start end_ peak1 peak2 : datetime)
  : list (string * datetime * datetime) := [
    ("Phase 1 - General Prep", start, peak1 - 84);
    ("Phase 2 - Specific Prep", peak1 - 83, peak1 - 35);
    ("Phase 3 - Pre-Competition (Indoor)", peak1 - 34, peak1 - 7);
    ("Phase 4 - Taper & Peak 1", peak1 - 6, peak1);
    ("Phase 5 - Transition/Recovery", peak1 + 1, peak1 + 14);
    ("Phase 6 - Outdoor Build", peak1 + 15, peak2 - 49);
    ("Phase 7 - Pre-Competition Outdoor", peak2 - 48, peak2 - 14);
    ("Phase 8 - Taper & Peak 2", peak2 - 13, peak2);
    ("Phase 9 - Post-season Reset", peak2 + 1, end_)
  ].

(** The weekday columns of a row, by name. *)
Definition row_cells (row : Row) : gmap string string :=
  list_to_map [("Mon", Mon row); ("Tue", Tue row); ("Wed", Wed row);
               ("Thu", Thu row); ("Fri", Fri row); ("Sat", Sat row);
               ("Sun", Sun row)].

(** The names of the nine phases. *)
Definition phase_names : list string := (λ p, p.1.1) <$> phase_table 0 0 0 0.

(** A season of one week, the week of the indoor peak, with the
    prefixes switched off. *)
Definition one_week_cfg : Config := {|
  season_start := "2026-02-16"; season_end := "2026-02-22";
  athlete_name := "Kylie"; age := Some (Int 17); sex := "F";
  pbs := ∅; bike_km_per_day := Some (Int 10);
  peaks := {| indoor_peak_dates := ["2026-02-21"];
              outdoor_peak_date := "2026-06-28" |};
  events := [];
  schedule := Some {| mode := Some "manual";
                      include_time_prefix := Some false;
                      sessions_per_week := None; slots := None |}
|}.

Definition one_week_row : Row := {|
  Week_of := "2026-02-16";
  Phase := "Phase 4 - Taper & Peak 1";
  Focus := "Taper into indoor peak";
  Mon := "Warm-up + drills; Starts/accelerations; Core";
  Tue := "Drills; Flying 20–30m; Light plyo";
  Wed := "Bodyweight circuit (legs + push + core)";
  Thu := "Key session: special endurance / race sim";
  Fri := "Flying 20–30m; Blocks; Explosive circuit";
  Sat := "Optional sprint (if fresh) or active recovery";
  Sun := "Rest / Competition";
  Volume_modifier := 0.5
|}.

(** Two configurations agree on every key the builder reads. *)
Definition reads_agree (c1 c2 : Config) : Prop :=
  season_start c1 = season_start c2 ∧
  season_end c1 = season_end c2 ∧
  indoor_peak_dates (peaks c1) !! 0%nat = indoor_peak_dates (peaks c2) !! 0%nat ∧
  outdoor_peak_date (peaks c1) = outdoor_peak_date (peaks c2) ∧
  bike_km_per_day c1 = bike_km_per_day c2 ∧
  age c1 = age c2 ∧
  schedule c1 = schedule c2.

(** The scenario for another athlete: name, sex, personal bests, events
    and the second indoor peak date differ. *)
Definition other_athlete_cfg : Config := {|
  season_start := "2025-09-01"; season_end := "2026-07-01";
  athlete_name := "Robin"; age := Some (Int 15); sex := "M";
  pbs := list_to_map [("60m", 7.9%float)];
  bike_km_per_day := Some (Int 32);
  peaks := {| indoor_peak_dates := ["2026-02-21"; "2026-03-01"];
              outdoor_peak_date := "2026-06-28" |};
  events := ["400m"];
  schedule := Some {| mode := Some "auto"; include_time_prefix := Some true;
                      sessions_per_week := Some 5; slots := Some ∅ |}
|}.



(** ** Further code: the date conversion, the race calendar and the
    plan generator *)

(** *** The last step of [_ord2ymd]

    The month and the day of month of day [n], counted from 0, of a
    year: the estimate [(n + 50) >> 5] of the month and its
    correction. *)

Definition ord2md (leapyear : bool) (n : Z) : Z * Z :=
  let month := Z.shiftr (n + 50) 5 in
  let preceding :=
    table DAYS_BEFORE_MONTH month
    + (if (2 <? month) && leapyear then 1 else 0) in
  if n <? preceding then
    let month := month - 1 in
    let preceding :=
      preceding
      - (table DAYS_IN_MONTH month
         + (if (month =? 2) && leapyear then 1 else 0)) in
    (month, n - preceding + 1)
  else (month, n - preceding + 1).

(** [ord2md] gives a month, a day of this month, and the day [n] of the
    year again when the days before the month are added. *)
Definition md_ok (leap : bool) (n : Z) : bool :=
  let '(m, d) := ord2md leap n in
  (1 <=? m) && (m <=? 12) && (1 <=? d)
  && (d <=? table DAYS_IN_MONTH m + (if (m =? 2) && leap then 1 else 0))
  && (table DAYS_BEFORE_MONTH m + (if (2 <? m) && leap then 1 else 0) + d
      =? n + 1).

(** The season of one week again, for a configuration without the
    optional keys. *)
Definition no_schedule_cfg : Config := {|
  season_start := "2026-02-16"; season_end := "2026-02-22";
  athlete_name := "Kylie"; age := None; sex := "F";
  pbs := ∅; bike_km_per_day := None;
  peaks := {| indoor_peak_dates := ["2026-02-21"];
              outdoor_peak_date := "2026-06-28" |};
  events := [];
  schedule := None
|}.

(** The text of one manual slot, as [_time_prefix_manual] formats it. *)
Definition slot_text (s : Slot) : string :=
  default EmptyString (slot_start s) +:+ "-"
  +:+ default EmptyString (slot_end s) +:+ " @ "
  +:+ default EmptyString (slot_location s).

(** The days from 1678-01-01 to 2261-12-31: the midnights of these
    days, and of the days a week around them, are in the range of the
    nanosecond timestamps of pandas. *)
Definition timestamp_day (d : datetime) : Prop :=
  ymd2ord 1678 1 1 ≤ d ≤ ymd2ord 2261 12 31.

(** The season of one week with two manual slots on Thursday. *)
Definition manual_cfg : Config := {|
  season_start := "2026-02-16"; season_end := "2026-02-22";
  athlete_name := "Kylie"; age := Some (Int 17); sex := "F";
  pbs := ∅; bike_km_per_day := Some (Int 10);
  peaks := {| indoor_peak_dates := ["2026-02-21"];
              outdoor_peak_date := "2026-06-28" |};
  events := [];
  schedule := Some {|
    mode := Some "manual"; include_time_prefix := None;
    sessions_per_week := None;
    slots := Some (list_to_map [
      ("Thu", [ {| slot_start := Some "16:30"; slot_end := Some "18:15";
                   slot_location := Some "Papendal" |};
                {| slot_start := Some "20:00"; slot_end := None;
                   slot_location := None |} ]);
      ("Sun", []) ])
  |}
|}.

(** The offsets of the phase list are dates of the calendar. *)
Definition peaks_in_range (peak1 peak2 : datetime) : bool :=
  (MINORD + 84 <=? peak1) && (peak1 <=? MAXORD - 15)
  && (MINORD + 49 <=? peak2) && (peak2 <=? MAXORD - 1).

(** The season of one week without an indoor peak date. *)
Definition no_peak_cfg : Config := {|
  season_start := "2026-02-16"; season_end := "2026-02-22";
  athlete_name := "Kylie"; age := None; sex := "F";
  pbs := ∅; bike_km_per_day := None;
  peaks := {| indoor_peak_dates := []; outdoor_peak_date := "2026-06-28" |};
  events := [];
  schedule := None
|}.

(** *** The race calendar with its taper columns

    [calendar_to_excel] walks the rows of the calendar frame, adds the
    columns of the taper protocol to each and writes the new frame to a
    workbook.  A frame has one set of columns for all of its rows: a
    row that has no value for a column of the frame holds NaN there,
    [r[c]] raises [KeyError] only for a label that is no column of the
    frame, and [r.get(c, d)] gives [d] only then.
    [calendar_to_excel_rows] is the list [rows] that the workbook is
    written from. *)

(** A cell of the calendar frame, a frame of text columns: a string,
    [None] for a cell that the editor left empty, or NaN, which pandas
    puts where a record has no value for a column. *)
Inductive Cell : Type :=
  | Str (s : string)
  | NaN
  | PyNone.

(** [x == s] for a cell and a string: [None] and NaN are equal to no
    string. *)
Definition cell_eq_str (x : Cell) (s : string) : bool :=
  match x with
  | Str t => String.eqb t s
  | NaN | PyNone => false
  end.

(** The text of a cell in an f-string. *)
Definition format_cell (x : Cell) : string :=
  match x with
  | Str s => s
  | NaN => "nan"
  | PyNone => "None"
  end.

(** [taper_protocol] on the cells of a frame; on two strings it is
    [taper_protocol]. *)
Definition taper_protocol_cells (priority peak_type : Cell)
  : TaperProtocol :=
  if cell_eq_str priority "A" then
    {| Volume_change := "-40% to -60%";
       Intensity := "High (short & sharp)";
       Key_sessions := "Mon: starts/accel; Tue: flying 20–30m; Thu: race-pace touches; Fri: micro-priming";
       Strength := "Explosive only (bodyweight/bands)";
       Rest_days := "≥1 full rest day before race";
       Notes := "A-peak (" +:+ format_cell peak_type +:+ "): keep CNS fresh; no fatigue-dense work last 72h" |}
  else if cell_eq_str priority "B" then
    {| Volume_change := "-20% to -30%";
       Intensity := "Moderate-high";
       Key_sessions := "Short starts + 1 race-pace rep";
       Strength := "Light explosive set";
       Rest_days := "Optional rest day before race";
       Notes := "Rehearsal race; do not over-taper" |}
  else
    {| Volume_change := "No change or -10%";
       Intensity := "Normal training";
       Key_sessions := "Keep routine; short starts";
       Strength := "Normal";
       Rest_days := "None required";
       Notes := "Training race; prioritize learning" |}.

(** A frame: its columns, and for each row the values that it has. *)
Record DataFrame : Type := {
  columns : gset string;
  records : list (gmap string Cell)
}.

(** [pd.DataFrame(rows)] for a list of dictionaries: the columns are
    the keys of all of them. *)
Definition pd_DataFrame (rows : list (gmap string Cell)) : DataFrame :=
  {| columns := ⋃ (dom <$> rows); records := rows |}.

(** The cell of a row in a column of its frame. *)
Definition cell_of (r : gmap string Cell) (c : string) : Cell :=
  default NaN (r !! c).

(** [r[c]] for a row [r] of the frame. *)
Definition getitem (df : DataFrame) (r : gmap string Cell) (c : string)
  : result Cell :=
  if bool_decide (c ∈ columns df) then Ok (cell_of r c) else Raise KeyError.

(** [r.get(c, d)] for a row [r] of the frame. *)
Definition series_get (df : DataFrame) (r : gmap string Cell) (c : string)
    (d : Cell) : Cell :=
  if bool_decide (c ∈ columns df) then cell_of r c else d.

Record CalendarRow : Type := {
  Date : Cell;
  Meet : Cell;
  Priority : Cell;
  Events : Cell;
  Taper_Volume : string;
  Taper_Intensity : string;
  Taper_Key_sessions : string;
  Taper_Strength : string;
  Taper_Rest_days : string;
  Calendar_Notes : string
}.

(** The body of the loop [for _, r in df_cal.iterrows()]. *)
Definition calendar_row (df_cal : DataFrame) (r : gmap string Cell)
  : result CalendarRow :=
  priority ← getitem df_cal r "Priority (A/B/C)";
  let p := taper_protocol_cells priority
             (series_get df_cal r "Peak type" (Str EmptyString)) in
  date ← getitem df_cal r "Date";
  meet ← getitem df_cal r "Meet";
  priority ← getitem df_cal r "Priority (A/B/C)";
  events ← getitem df_cal r "Events";
  mret {| Date := date; Meet := meet; Priority := priority;
          Events := events;
          Taper_Volume := Volume_change p;
          Taper_Intensity := Intensity p;
          Taper_Key_sessions := Key_sessions p;
          Taper_Strength := Strength p;
          Taper_Rest_days := Rest_days p;
          Calendar_Notes := Notes p |}.

(** The loop over the rows [rs] of the frame. *)
Fixpoint calendar_loop (df_cal : DataFrame) (rs : list (gmap string Cell))
  : result (list CalendarRow) :=
  match rs with
  | [] => mret []
  | r :: rest =>
      row ← calendar_row df_cal r;
      rows ← calendar_loop df_cal rest;
      mret (row :: rows)
  end.

Definition calendar_to_excel_rows (df_cal : DataFrame)
  : result (list CalendarRow) :=
  calendar_loop df_cal (records df_cal).

(** The columns that the loop reads with [r[...]]. *)
Definition required_columns : list string :=
  ["Priority (A/B/C)"; "Date"; "Meet"; "Events"].

(** The frame of the first and the fourth row of the default calendar,
    the second of them without its peak type. *)
Definition two_meets : DataFrame := pd_DataFrame [
  list_to_map [("Date", Str "2026-01-31"); ("Meet", Str "Indoor Open #1");
               ("Events", Str "60m,200m"); ("Priority (A/B/C)", Str "B");
               ("Peak type", Str "Indoor 60/200")];
  list_to_map [("Date", Str "2026-02-21"); ("Meet", Str "Indoor Peak Day 1");
               ("Events", Str "60m,200m"); ("Priority (A/B/C)", Str "A")]
].

(** A frame without the column of the events. *)
Definition meet_without_events : DataFrame := pd_DataFrame [
  list_to_map [("Date", Str "2026-05-10"); ("Meet", Str "Outdoor Open #1");
               ("Priority (A/B/C)", Str "B");
               ("Peak type", Str "Outdoor 100/200")]
].

(** A frame with the column of the events, and a row that the editor
    added and that has a date only. *)
Definition meet_with_gaps : DataFrame := pd_DataFrame [
  list_to_map [("Date", Str "2026-05-10"); ("Meet", Str "Outdoor Open #1");
               ("Events", Str "100m,200m"); ("Priority (A/B/C)", Str "B");
               ("Peak type", Str "Outdoor 100/200")];
  list_to_map [("Date", Str "2026-05-24"); ("Meet", PyNone);
               ("Priority (A/B/C)", PyNone)]
].

(** *** The plan generator (tab 1)

    The script of the tab reads its widgets, builds the configuration
    and hands it to [build_schedule] when the button is pressed.  The
    values that the widgets return are the input here: a date widget
    returns a date, a time widget a time of day, a number widget with
    integer bounds an integer, a check box a boolean, the radio button
    one of its options. *)

(** A [datetime.time], to the minute. *)
Record pytime : Type := {
  hour : Z;
  minute : Z
}.

(** [t.strftime("%H:%M")] *)
Definition time_strftime (t : pytime) : string :=
  two_digits (hour t) +:+ ":" +:+ two_digits (minute t).

(** The widgets of one weekday in the manual schedule. *)
Record DayWidgets : Type := {
  w_loc : string;
  w_t1 : pytime;
  w_t2 : pytime;
  w_add : bool
}.

Record PlanForm : Type := {
  form_athlete_name : string;
  form_age : Z;
  form_sex : string;
  form_season_start : datetime;
  form_season_end : datetime;
  form_bike_km : Z;
  form_pb60 : float;
  form_pb100 : float;
  form_pb200 : float;
  form_indoor_peak_1 : datetime;
  form_indoor_peak_2 : datetime;
  form_outdoor_peak : datetime;
  form_schedule_mode : string;
  form_include_prefix : bool;
  form_day : string → DayWidgets;
  form_sessions_per_week : Z
}.

Definition loc_defaults : gmap string string :=
  list_to_map [
    ("Mon", "Statina"); ("Tue", "Track"); ("Wed", "Home (online)");
    ("Thu", "Papendal"); ("Fri", "Track"); ("Sat", "Track (optional)");
    ("Sun", EmptyString)
  ].

Definition time_defaults : gmap string (option pytime * option pytime) :=
  list_to_map [
    ("Mon", (Some {| hour := 20; minute := 0 |},
             Some {| hour := 21; minute := 15 |}));
    ("Tue", (Some {| hour := 19; minute := 0 |},
             Some {| hour := 20; minute := 0 |}));
    ("Wed", (Some {| hour := 17; minute := 0 |},
             Some {| hour := 18; minute := 0 |}));
    ("Thu", (Some {| hour := 16; minute := 30 |},
             Some {| hour := 18; minute := 15 |}));
    ("Fri", (Some {| hour := 19; minute := 30 |},
             Some {| hour := 20; minute := 30 |}));
    ("Sat", (Some {| hour := 9; minute := 30 |},
             Some {| hour := 11; minute := 30 |}));
    ("Sun", (None, None))
  ].

(** One pass of the loop [for i, d in enumerate(days)] of the manual
    schedule. *)
Definition manual_slots_step (form : PlanForm) (d : string)
  (manual_slots : gmap string (list Slot))
  : result (gmap string (list Slot)) :=
  _ ← or_raise KeyError (loc_defaults !! d);
  let w := form_day form d in
  '(start_default, end_default) ← or_raise KeyError (time_defaults !! d);
  match start_default, end_default with
  | Some _, Some _ =>
      if w_add w then
        mret (<[d := [ {| slot_start := Some (time_strftime (w_t1 w));
                          slot_end := Some (time_strftime (w_t2 w));
                          slot_location := Some (w_loc w) |} ]]> manual_slots)
      else mret manual_slots
  | _, _ =>
      if w_add w then mret (<[d := []]> manual_slots) else mret manual_slots
  end.

Fixpoint fill_manual_slots (form : PlanForm) (days : list string)
  (manual_slots : gmap string (list Slot))
  : result (gmap string (list Slot)) :=
  match days with
  | [] => mret manual_slots
  | d :: rest =>
      manual_slots ← manual_slots_step form d manual_slots;
      fill_manual_slots form rest manual_slots
  end.

(** The dictionary [cfg] that the button "Generate plan" builds from
    the widgets and from the two variables of the schedule. *)
Definition make_cfg (form : PlanForm)
  (manual_slots : gmap string (list Slot)) (sessions_per_week : Z)
  : Config := {|
  season_start := strftime (form_season_start form);
  season_end := strftime (form_season_end form);
  athlete_name := form_athlete_name form;
  age := Some (Int (form_age form));
  sex := form_sex form;
  pbs := list_to_map [("60m", form_pb60 form); ("100m", form_pb100 form);
                      ("200m", form_pb200 form)];
  bike_km_per_day := Some (Int (form_bike_km form));
  peaks := {|
    indoor_peak_dates := [strftime (form_indoor_peak_1 form);
                          strftime (form_indoor_peak_2 form)];
    outdoor_peak_date := strftime (form_outdoor_peak form) |};
  events := ["60m"; "100m"; "200m"];
  schedule := Some {|
    mode := Some (form_schedule_mode form);
    include_time_prefix := Some (form_include_prefix form);
    sessions_per_week := Some sessions_per_week;
    slots := Some manual_slots |}
|}.

(** The schedule variables, [manual_slots] and [sessions_per_week],
    then the configuration. *)
Definition plan_cfg (form : PlanForm) : result Config :=
  '(manual_slots, sessions_per_week) ←
    (if String.eqb (form_schedule_mode form) "manual" then
       manual_slots ← fill_manual_slots form DAYS ∅;
       mret (manual_slots, 5)
     else mret (∅, form_sessions_per_week form));
  mret (make_cfg form manual_slots sessions_per_week).

(** [df = build_schedule(cfg)] for the configuration of the form. *)
Definition generate_plan (form : PlanForm) : result (list Row) :=
  cfg ← plan_cfg form;
  build_schedule cfg.

(** The form with the widgets of the weekday [d] set to [w]. *)
Definition set_day (form : PlanForm) (d : string) (w : DayWidgets)
  : PlanForm := {|
  form_athlete_name := form_athlete_name form;
  form_age := form_age form;
  form_sex := form_sex form;
  form_season_start := form_season_start form;
  form_season_end := form_season_end form;
  form_bike_km := form_bike_km form;
  form_pb60 := form_pb60 form;
  form_pb100 := form_pb100 form;
  form_pb200 := form_pb200 form;
  form_indoor_peak_1 := form_indoor_peak_1 form;
  form_indoor_peak_2 := form_indoor_peak_2 form;
  form_outdoor_peak := form_outdoor_peak form;
  form_schedule_mode := form_schedule_mode form;
  form_include_prefix := form_include_prefix form;
  form_day := λ d', if String.eqb d' d then w else form_day form d';
  form_sessions_per_week := form_sessions_per_week form
|}.

(** The slot list that the manual schedule enters for a weekday. *)
Definition manual_entry (form : PlanForm) (d : string)
  : option (list Slot) :=
  let w := form_day form d in
  if w_add w then
    if String.eqb d "Sun" then Some []
    else Some [ {| slot_start := Some (time_strftime (w_t1 w));
                   slot_end := Some (time_strftime (w_t2 w));
                   slot_location := Some (w_loc w) |} ]
  else None.

(** The form as the page shows it first, for a season of one week. *)
Definition default_form : PlanForm := {|
  form_athlete_name := "Kylie"; form_age := 15; form_sex := "F";
  form_season_start := 739663; form_season_end := 739669;
  form_bike_km := 32;
  form_pb60 := 8.58; form_pb100 := 13.48; form_pb200 := 29.09;
  form_indoor_peak_1 := 739668; form_indoor_peak_2 := 739669;
  form_outdoor_peak := 739795;
  form_schedule_mode := "manual"; form_include_prefix := true;
  form_day := λ d,
    {| w_loc := default EmptyString (loc_defaults !! d);
       w_t1 := default {| hour := 0; minute := 0 |}
               (time_defaults !! d ≫= fst);
       w_t2 := default {| hour := 0; minute := 0 |}
               (time_defaults !! d ≫= snd);
       w_add := bool_decide (d ∈ ["Mon"; "Tue"; "Wed"; "Thu"; "Fri"]) |};
  form_sessions_per_week := 5
|}.

(** The form with the slider of the sessions per week set to [n]. *)
Definition set_sessions (form : PlanForm) (n : Z) : PlanForm := {|
  form_athlete_name := form_athlete_name form;
  form_age := form_age form;
  form_sex := form_sex form;
  form_season_start := form_season_start form;
  form_season_end := form_season_end form;
  form_bike_km := form_bike_km form;
  form_pb60 := form_pb60 form;
  form_pb100 := form_pb100 form;
  form_pb200 := form_pb200 form;
  form_indoor_peak_1 := form_indoor_peak_1 form;
  form_indoor_peak_2 := form_indoor_peak_2 form;
  form_outdoor_peak := form_outdoor_peak form;
  form_schedule_mode := form_schedule_mode form;
  form_include_prefix := form_include_prefix form;
  form_day := form_day form;
  form_sessions_per_week := n
|}.

(** The form as the page shows it first, switched to the automatic
    schedule. *)
Definition auto_form : PlanForm := {|
  form_athlete_name := "Kylie"; form_age := 15; form_sex := "F";
  form_season_start := 739663; form_season_end := 739669;
  form_bike_km := 32;
  form_pb60 := 8.58; form_pb100 := 13.48; form_pb200 := 29.09;
  form_indoor_peak_1 := 739668; form_indoor_peak_2 := 739669;
  form_outdoor_peak := 739795;
  form_schedule_mode := "auto"; form_include_prefix := true;
  form_day := form_day default_form;
  form_sessions_per_week := 5
|}.

(** The configuration with the key "schedule" set to [sc]. *)
Definition with_schedule (cfg : Config) (sc : Schedule) : Config := {|
  season_start := season_start cfg;
  season_end := season_end cfg;
  athlete_name := athlete_name cfg;
  age := age cfg;
  sex := sex cfg;
  pbs := pbs cfg;
  bike_km_per_day := bike_km_per_day cfg;
  peaks := peaks cfg;
  events := events cfg;
  schedule := Some sc
|}.

(** * Properties *)

(** ** The exception monad *)

Lemma bind_Ok {A B : Type} (m : result A) (f : A → result B) (b : B) :
  m ≫= f = Ok b ↔ ∃ a, m = Ok a ∧ f a = Ok b.
Proof.
  destruct m as [a|e]; simpl; split.
  - intros H; exists a; auto.
  - intros (a' & Ha & Hf). injection Ha as ->. exact Hf.
  - discriminate.
  - intros (a' & Ha & _). discriminate.
Qed.

Lemma or_raise_Ok {A : Type} (e : exn) (o : option A) (a : A) :
  or_raise e o = Ok a ↔ o = Some a.
Proof. destruct o; simpl; split; congruence. Qed.

(** Split a hypothesis [m ≫= f = Ok b] into its two steps. *)
Ltac bind_inv H :=
  let a := fresh "a" in
  let Ha := fresh "H" a in
  apply bind_Ok in H; destruct H as (a & Ha & H).

(** ** Dates *)

Lemma first_monday_spec start :
  start ≤ first_monday start < start + 7 ∧ weekday (first_monday start) = 0.
Proof.
  unfold first_monday, weekday.
  pose proof (Z.mod_pos_bound (start + 6) 7 ltac:(lia)).
  pose proof (Z.mod_pos_bound (- ((start + 6) mod 7)) 7 ltac:(lia)).
  split; [lia|].
  rewrite <- Z.add_assoc, (Z.add_comm _ 6), Z.add_assoc.
  rewrite Zplus_mod_idemp_r.
  rewrite <- (Zplus_mod_idemp_l (start + 6)).
  rewrite Z.add_opp_r, Z.sub_diag. reflexivity.
Qed.

Lemma weekday_0_iff d : weekday d = 0 ↔ ∃ k, d = 7 * k + 1.
Proof.
  unfold weekday. split.
  - intros H. exists ((d + 6) / 7 - 1).
    pose proof (Z.div_mod (d + 6) 7 ltac:(lia)). lia.
  - intros [k ->]. replace (7 * k + 1 + 6) with ((k + 1) * 7) by lia.
    apply Z_mod_mult.
Qed.

Lemma elem_of_date_range start end_ d :
  d ∈ date_range start end_ ↔ start ≤ d ≤ end_ ∧ weekday d = 0.
Proof.
  unfold date_range.
  destruct (first_monday_spec start) as [Hf Hw].
  set (first := first_monday start) in *. clearbody first.
  apply weekday_0_iff in Hw as [k0 ->].
  destruct (Z.leb_spec (7 * k0 + 1) end_) as [Hle|Hgt].
  - rewrite list_elem_of_fmap. setoid_rewrite elem_of_seqZ. split.
    + intros (k & -> & Hk).
      assert (7 * ((end_ - (7 * k0 + 1)) / 7) ≤ end_ - (7 * k0 + 1))
        by (apply Z.mul_div_le; lia).
      split; [lia|]. apply weekday_0_iff. exists (k0 + k). lia.
    + intros [Hd Hwd]. apply weekday_0_iff in Hwd as [k ->].
      exists (k - k0). split; [lia|].
      assert (k - k0 ≤ (end_ - (7 * k0 + 1)) / 7)
        by (apply Z.div_le_lower_bound; lia).
      lia.
  - rewrite elem_of_nil. split; [tauto|].
    intros [Hd Hwd]. apply weekday_0_iff in Hwd as [k ->]. lia.
Qed.

Lemma date_range_lookup start end_ (k : nat) d :
  date_range start end_ !! k = Some d →
  d = first_monday start + 7 * Z.of_nat k.
Proof.
  unfold date_range. destruct (first_monday start <=? end_); [|done].
  rewrite list_lookup_fmap. intros H.
  apply fmap_Some in H as (j & Hj & ->).
  apply lookup_seqZ in Hj as [-> _]. lia.
Qed.

(** ** Phases *)

Lemma add_days_Ok d k :
  MINORD ≤ d + k ≤ MAXORD → add_days d k = Ok (d + k).
Proof.
  intros [Hlo Hhi]. unfold add_days.
  apply Z.leb_le in Hlo, Hhi. by rewrite Hlo, Hhi.
Qed.

Lemma add_days_inv d k r :
  add_days d k = Ok r → r = d + k ∧ MINORD ≤ r ≤ MAXORD.
Proof.
  unfold add_days. destruct (MINORD <=? d + k) eqn:Hlo; [|discriminate].
  destruct (d + k <=? MAXORD) eqn:Hhi; [|discriminate].
  simpl. intros [= <-]. apply Z.leb_le in Hlo, Hhi. lia.
Qed.

Lemma sub_days_Ok d k :
  MINORD ≤ d - k ≤ MAXORD → sub_days d k = Ok (d - k).
Proof.
  intros H. unfold sub_days. rewrite add_days_Ok; [f_equal|]; lia.
Qed.


Lemma phases_cfg_Ok start end_ peak1 peak2 :
  MINORD + 84 ≤ peak1 ≤ MAXORD - 15 →
  MINORD + 49 ≤ peak2 ≤ MAXORD - 1 →
  phases_cfg start end_ peak1 peak2 = Ok (phase_table start end_ peak1 peak2).
Proof.
  intros H1 H2. unfold phases_cfg.
  rewrite !sub_days_Ok, !add_days_Ok by lia. reflexivity.
Qed.

Lemma phases_cfg_inv start end_ peak1 peak2 ps :
  phases_cfg start end_ peak1 peak2 = Ok ps →
  ps = phase_table start end_ peak1 peak2 ∧
  MINORD + 84 ≤ peak1 ≤ MAXORD - 15 ∧ MINORD + 49 ≤ peak2 ≤ MAXORD - 1.
Proof.
  unfold phases_cfg, sub_days. intros H.
  repeat (bind_inv H; match goal with Hx : add_days _ _ = Ok _ |- _ => apply add_days_inv in Hx; destruct Hx as [-> ?] end).
  injection H as <-. unfold phase_table. split; [repeat f_equal; lia | lia].
Qed.


Lemma phase_for_cases phases d :
  phase_for phases d = EmptyString ∧
    Forall (λ p, ¬ (p.1.2 ≤ d ≤ p.2)) phases
  ∨ ∃ pre name s e post,
      phases = pre ++ (name, s, e) :: post ∧
      Forall (λ p, ¬ (p.1.2 ≤ d ≤ p.2)) pre ∧
      s ≤ d ≤ e ∧ phase_for phases d = name.
Proof.
  induction phases as [|[[name s] e] rest IH]; simpl.
  - left. split; [reflexivity | constructor].
  - destruct (Z.leb_spec s d) as [Hs|Hs]; simpl.
    + destruct (Z.leb_spec d e) as [He|He].
      * right. exists [], name, s, e, rest. repeat split; auto; lia.
      * destruct IH as [[IH1 IH2] | (pre & n' & s' & e' & post & -> & Hpre & Hd & Hn)].
        -- left. split; [exact IH1|]. constructor; [simpl; lia | exact IH2].
        -- right. exists ((name, s, e) :: pre), n', s', e', post.
           repeat split; auto; try lia. constructor; [simpl; lia | exact Hpre].
    + destruct IH as [[IH1 IH2] | (pre & n' & s' & e' & post & -> & Hpre & Hd & Hn)].
      * left. split; [exact IH1|]. constructor; [simpl; lia | exact IH2].
      * right. exists ((name, s, e) :: pre), n', s', e', post.
        repeat split; auto; try lia. constructor; [simpl; lia | exact Hpre].
Qed.


Lemma phase_for_table_name start end_ peak1 peak2 d :
  phase_for (phase_table start end_ peak1 peak2) d = EmptyString
  ∨ phase_for (phase_table start end_ peak1 peak2) d ∈ phase_names.
Proof.
  destruct (phase_for_cases (phase_table start end_ peak1 peak2) d)
    as [[H _] | (pre & name & s & e & post & Heq & _ & _ & Hn)]; [by left|].
  right. rewrite Hn.
  assert (Hin : (name, s, e) ∈ phase_table start end_ peak1 peak2).
  { rewrite Heq. apply elem_of_app. right. left. }
  unfold phase_table in Hin. unfold phase_names, phase_table. simpl.
  repeat (apply elem_of_cons in Hin as [Hin | Hin];
          [injection Hin as -> _ _; repeat constructor|]).
  by apply elem_of_nil in Hin.
Qed.

Lemma phase_for_table_covered start end_ peak1 peak2 d :
  start ≤ d ≤ end_ →
  nonempty (phase_for (phase_table start end_ peak1 peak2) d) = true.
Proof.
  intros Hd. unfold phase_table, phase_for.
  repeat match goal with
  | |- context [(?a <=? ?b) && (?c <=? ?e)] =>
      destruct (Z.leb_spec a b); destruct (Z.leb_spec c e); cbn [andb];
      try reflexivity; try lia
  end.
Qed.

(** ** Rows *)

Lemma DAYS_cases (P : string → Prop) :
  P "Mon" → P "Tue" → P "Wed" → P "Thu" → P "Fri" → P "Sat" → P "Sun" →
  ∀ day, day ∈ DAYS → P day.
Proof.
  intros ? ? ? ? ? ? ? day Hday. unfold DAYS in Hday.
  repeat (apply elem_of_cons in Hday as [-> | Hday]; [assumption|]).
  by apply elem_of_nil in Hday.
Qed.

Lemma rotation_total day (r : nat) :
  day ∈ DAYS → (r < 4)%nat → ∃ t, rotation day r = Ok t.
Proof.
  intros Hday Hr. revert day Hday.
  apply DAYS_cases;
    (do 4 (destruct r as [|r]; [eexists; vm_compute; reflexivity|])); lia.
Qed.

Lemma day_cell_Ok sc r day c :
  day_cell sc r day = Ok c ↔
  ∃ base, rotation day r = Ok base ∧ c = with_prefix (cell_prefix sc day) base.
Proof.
  unfold day_cell. rewrite bind_Ok.
  split; intros (base & Hb & Hc); exists base; split; auto.
  - by injection Hc.
  - by subst c.
Qed.


Lemma make_row_inv cfg i w phase row :
  make_row cfg i w phase = Ok row →
  Week_of row = strftime w ∧ Phase row = phase ∧
  Focus row = focus_of DEFAULT_PHASES phase ∧
  Volume_modifier row = vol_mod_of cfg phase ∧
  ∀ day, day ∈ DAYS →
    ∃ c, row_cells row !! day = Some c ∧
         day_cell (default empty_schedule (schedule cfg)) (i mod 4) day = Ok c.
Proof.
  unfold make_row, DAYS. cbn [fill_day_cells]. intros H.
  bind_inv H. 
  set (sc := default empty_schedule (schedule cfg)) in *.
  set (r := (i mod 4)%nat) in *.
  destruct (day_cell sc r "Mon") as [c1|] eqn:E1; [|discriminate].
  destruct (day_cell sc r "Tue") as [c2|] eqn:E2; [|discriminate].
  destruct (day_cell sc r "Wed") as [c3|] eqn:E3; [|discriminate].
  destruct (day_cell sc r "Thu") as [c4|] eqn:E4; [|discriminate].
  destruct (day_cell sc r "Fri") as [c5|] eqn:E5; [|discriminate].
  destruct (day_cell sc r "Sat") as [c6|] eqn:E6; [|discriminate].
  destruct (day_cell sc r "Sun") as [c7|] eqn:E7; [|discriminate].
  injection Ha as <-.
  set (wk := strftime w) in *. set (f := focus_of DEFAULT_PHASES phase) in *.
  set (v := vol_mod_of cfg phase) in *. clearbody wk f v sc r.
  vm_compute in H. injection H as <-.
  do 4 (split; [reflexivity|]).
  apply DAYS_cases; eexists; (split; [vm_compute; reflexivity | assumption]).
Qed.

Lemma day_cells_lookup (c1 c2 c3 c4 c5 c6 c7 : string) :
  let m : gmap string string :=
    <["Sun":=c7]> (<["Sat":=c6]> (<["Fri":=c5]> (<["Thu":=c4]>
      (<["Wed":=c3]> (<["Tue":=c2]> (<["Mon":=c1]> ∅)))))) in
  m !! "Mon" = Some c1 ∧ m !! "Tue" = Some c2 ∧ m !! "Wed" = Some c3 ∧
  m !! "Thu" = Some c4 ∧ m !! "Fri" = Some c5 ∧ m !! "Sat" = Some c6 ∧
  m !! "Sun" = Some c7.
Proof. vm_compute. repeat split. Qed.

Lemma fill_day_cells_DAYS sc r c1 c2 c3 c4 c5 c6 c7 :
  day_cell sc r "Mon" = Ok c1 → day_cell sc r "Tue" = Ok c2 →
  day_cell sc r "Wed" = Ok c3 → day_cell sc r "Thu" = Ok c4 →
  day_cell sc r "Fri" = Ok c5 → day_cell sc r "Sat" = Ok c6 →
  day_cell sc r "Sun" = Ok c7 →
  fill_day_cells sc r DAYS ∅ =
  Ok (<["Sun":=c7]> (<["Sat":=c6]> (<["Fri":=c5]> (<["Thu":=c4]>
      (<["Wed":=c3]> (<["Tue":=c2]> (<["Mon":=c1]> ∅))))))).
Proof.
  intros H1 H2 H3 H4 H5 H6 H7. unfold DAYS. cbn [fill_day_cells].
  rewrite H1. cbn [mbind result_bind]. rewrite H2. cbn [mbind result_bind].
  rewrite H3. cbn [mbind result_bind]. rewrite H4. cbn [mbind result_bind].
  rewrite H5. cbn [mbind result_bind]. rewrite H6. cbn [mbind result_bind].
  rewrite H7. reflexivity.
Qed.

Lemma make_row_total cfg i w phase : ∃ row, make_row cfg i w phase = Ok row.
Proof.
  set (sc := default empty_schedule (schedule cfg)).
  assert (Hr : (i mod 4 < 4)%nat) by (apply Nat.mod_upper_bound; lia).
  assert (Hc : ∀ day, day ∈ DAYS → ∃ c, day_cell sc (i mod 4) day = Ok c).
  { intros day Hday. destruct (rotation_total day _ Hday Hr) as [t Ht].
    eexists. apply day_cell_Ok. eauto. }
  destruct (Hc "Mon") as [c1 H1]; [unfold DAYS; repeat constructor|].
  destruct (Hc "Tue") as [c2 H2]; [unfold DAYS; repeat constructor|].
  destruct (Hc "Wed") as [c3 H3]; [unfold DAYS; repeat constructor|].
  destruct (Hc "Thu") as [c4 H4]; [unfold DAYS; repeat constructor|].
  destruct (Hc "Fri") as [c5 H5]; [unfold DAYS; repeat constructor|].
  destruct (Hc "Sat") as [c6 H6]; [unfold DAYS; repeat constructor|].
  destruct (Hc "Sun") as [c7 H7]; [unfold DAYS; repeat constructor|].
  destruct (day_cells_lookup c1 c2 c3 c4 c5 c6 c7)
    as (L1 & L2 & L3 & L4 & L5 & L6 & L7).
  unfold make_row. fold sc.
  rewrite (fill_day_cells_DAYS sc _ _ _ _ _ _ _ _ H1 H2 H3 H4 H5 H6 H7).
  cbn [mbind result_bind].
  rewrite L1, L2, L3, L4, L5, L6, L7. cbn [or_raise mbind result_bind].
  eexists. reflexivity.
Qed.

(** ** The loop over the weeks *)

Lemma rows_from_skip cfg phases i w rest :
  phase_for phases w = EmptyString →
  rows_from cfg phases i (w :: rest) = rows_from cfg phases (S i) rest.
Proof. intros H. simpl. rewrite H. reflexivity. Qed.

Lemma rows_from_keep cfg phases i w rest :
  nonempty (phase_for phases w) = true →
  rows_from cfg phases i (w :: rest) =
  (row ← make_row cfg i w (phase_for phases w);
   rows ← rows_from cfg phases (S i) rest;
   mret (row :: rows)).
Proof. intros H. simpl. rewrite H. reflexivity. Qed.

Lemma nonempty_false s : nonempty s = false → s = EmptyString.
Proof. by destruct s. Qed.

Lemma rows_from_total cfg phases i weeks :
  ∃ rows, rows_from cfg phases i weeks = Ok rows.
Proof.
  revert i. induction weeks as [|w rest IH]; intros i.
  - by exists [].
  - destruct (nonempty (phase_for phases w)) eqn:Hne.
    + rewrite rows_from_keep by done.
      destruct (make_row_total cfg i w (phase_for phases w)) as [row ->].
      destruct (IH (S i)) as [rows ->]. by exists (row :: rows).
    + rewrite rows_from_skip by by apply nonempty_false. apply IH.
Qed.

Lemma rows_from_elem cfg phases i weeks rows row :
  rows_from cfg phases i weeks = Ok rows → row ∈ rows →
  ∃ (k : nat) w, weeks !! k = Some w ∧
    nonempty (phase_for phases w) = true ∧
    make_row cfg (i + k) w (phase_for phases w) = Ok row.
Proof.
  revert i rows. induction weeks as [|w rest IH]; intros i rows H Hin.
  - injection H as <-. by apply elem_of_nil in Hin.
  - destruct (nonempty (phase_for phases w)) eqn:Hne.
    + rewrite rows_from_keep in H by done.
      bind_inv H. bind_inv H. injection H as <-.
      apply elem_of_cons in Hin as [-> | Hin].
      * exists 0%nat, w. rewrite Nat.add_0_r. auto.
      * destruct (IH _ _ Ha0 Hin) as (k & w' & Hk & Hw & Hrow).
        exists (S k), w'. rewrite <- Nat.add_succ_comm. auto.
    + rewrite rows_from_skip in H by by apply nonempty_false.
      destruct (IH _ _ H Hin) as (k & w' & Hk & Hw & Hrow).
      exists (S k), w'. rewrite <- Nat.add_succ_comm. auto.
Qed.

Lemma rows_from_covered cfg phases i weeks rows :
  Forall (λ w, nonempty (phase_for phases w) = true) weeks →
  rows_from cfg phases i weeks = Ok rows →
  length rows = length weeks ∧
  ∀ (k : nat) w, weeks !! k = Some w →
    ∃ row, rows !! k = Some row ∧
      make_row cfg (i + k) w (phase_for phases w) = Ok row.
Proof.
  intros Hall. revert i rows.
  induction Hall as [|w rest Hw _ IH]; intros i rows H.
  - injection H as <-. split; [reflexivity|]. intros k w Hk. discriminate.
  - rewrite rows_from_keep in H by done.
    bind_inv H. bind_inv H. injection H as <-.
    destruct (IH _ _ Ha0) as [Hlen Hrows].
    split; [simpl; by rewrite Hlen|].
    intros [|k] w' Hk; simpl in Hk.
    + injection Hk as <-. exists a. rewrite Nat.add_0_r. auto.
    + destruct (Hrows k w' Hk) as (row & ? & ?). exists row.
      rewrite <- Nat.add_succ_comm. auto.
Qed.

Lemma rows_from_none cfg phases i weeks :
  Forall (λ w, phase_for phases w = EmptyString) weeks →
  rows_from cfg phases i weeks = Ok [].
Proof.
  intros Hall. revert i. induction Hall as [|w rest Hw _ IH]; intros i.
  - reflexivity.
  - rewrite rows_from_skip by done. apply IH.
Qed.

Lemma build_schedule_inv cfg rows :
  build_schedule cfg = Ok rows →
  ∃ start end_ peak1_str peak1 peak2,
    strptime (season_start cfg) = Ok start ∧
    strptime (season_end cfg) = Ok end_ ∧
    indoor_peak_dates (peaks cfg) !! 0%nat = Some peak1_str ∧
    strptime peak1_str = Ok peak1 ∧
    strptime (outdoor_peak_date (peaks cfg)) = Ok peak2 ∧
    phases_cfg start end_ peak1 peak2
      = Ok (phase_table start end_ peak1 peak2) ∧
    rows_from cfg (phase_table start end_ peak1 peak2) 0
      (date_range start end_) = Ok rows.
Proof.
  unfold build_schedule. intros H.
  bind_inv H. bind_inv H. bind_inv H. bind_inv H. bind_inv H. bind_inv H.
  apply or_raise_Ok in Ha1.
  pose proof (phases_cfg_inv _ _ _ _ _ Ha4) as [-> _].
  eauto 12.
Qed.

Lemma build_schedule_Ok cfg start end_ peak1_str peak1 peak2 :
  strptime (season_start cfg) = Ok start →
  strptime (season_end cfg) = Ok end_ →
  indoor_peak_dates (peaks cfg) !! 0%nat = Some peak1_str →
  strptime peak1_str = Ok peak1 →
  strptime (outdoor_peak_date (peaks cfg)) = Ok peak2 →
  MINORD + 84 ≤ peak1 ≤ MAXORD - 15 →
  MINORD + 49 ≤ peak2 ≤ MAXORD - 1 →
  build_schedule cfg =
  rows_from cfg (phase_table start end_ peak1 peak2) 0
    (date_range start end_).
Proof.
  intros Hs He Hp Hp1 Hp2 Hr1 Hr2. unfold build_schedule.
  rewrite Hs, He, Hp. cbn [mbind result_bind or_raise].
  rewrite Hp1, Hp2. cbn [mbind result_bind].
  rewrite phases_cfg_Ok by done. reflexivity.
Qed.

Lemma date_range_covered start end_ peak1 peak2 :
  Forall (λ w, nonempty (phase_for (phase_table start end_ peak1 peak2) w)
               = true) (date_range start end_).
Proof.
  apply Forall_forall. intros w Hw. apply elem_of_date_range in Hw as [Hw _].
  by apply phase_for_table_covered.
Qed.

(** ** The taper advisor and the rotation selector *)

Lemma eqb_neq_false (a b : string) : a ≠ b → String.eqb a b = false.
Proof. intros H. by apply String.eqb_neq. Qed.

(** Claim C8.  [taper_protocol] is a lookup with three branches: a
    priority other than "A" and "B", so any value outside A, B and C too,
    gets the protocol of "C"; the peak type reaches the result only
    through the Notes of the "A" branch; and for priority "A" with the
    peak type "Indoor 60/200" the volume change is "-40% to -60%" and
    the Notes contain "Indoor 60/200". *)
Theorem taper_protocol_branches :
  (∀ priority peak_type, priority ≠ "A" → priority ≠ "B" →
     taper_protocol priority peak_type = taper_protocol "C" peak_type) ∧
  (∀ priority pt1 pt2, priority ≠ "A" →
     taper_protocol priority pt1 = taper_protocol priority pt2) ∧
  (∀ pt1 pt2,
     let a1 := taper_protocol "A" pt1 in
     let a2 := taper_protocol "A" pt2 in
     Volume_change a1 = Volume_change a2 ∧ Intensity a1 = Intensity a2 ∧
     Key_sessions a1 = Key_sessions a2 ∧ Strength a1 = Strength a2 ∧
     Rest_days a1 = Rest_days a2) ∧
  (∀ peak_type,
     Notes (taper_protocol "A" peak_type) =
     "A-peak (" +:+ peak_type
       +:+ "): keep CNS fresh; no fatigue-dense work last 72h") ∧
  (∀ pt, taper_protocol "A" pt ≠ taper_protocol "B" pt ∧
         taper_protocol "B" pt ≠ taper_protocol "C" pt ∧
         taper_protocol "A" pt ≠ taper_protocol "C" pt) ∧
  Volume_change (taper_protocol "A" "Indoor 60/200") = "-40% to -60%" ∧
  str_in "Indoor 60/200" (Notes (taper_protocol "A" "Indoor 60/200")) = true.
Proof.
  split; [|split; [|split; [|split; [|split; [|split]]]]].
  - intros priority pt HA HB. unfold taper_protocol.
    rewrite (eqb_neq_false _ _ HA), (eqb_neq_false _ _ HB). reflexivity.
  - intros priority pt1 pt2 HA. unfold taper_protocol.
    rewrite (eqb_neq_false _ _ HA). reflexivity.
  - intros pt1 pt2. repeat split.
  - reflexivity.
  - intros pt. repeat split; intros H;
      apply (f_equal Volume_change) in H; discriminate H.
  - reflexivity.
  - vm_compute. reflexivity.
Qed.

(** C8 at the priority "D". *)
Lemma taper_protocol_branches_witness :
  "D" ≠ "A" ∧ "D" ≠ "B" ∧
  taper_protocol "D" "Outdoor 100/200" = taper_protocol "C" "Outdoor 100/200".
Proof.
  split; [discriminate|]. split; [discriminate|].
  apply (proj1 taper_protocol_branches); discriminate.
Defined.

Lemma rotations_lengths day :
  day ∈ DAYS → ∃ texts, ROTATIONS !! day = Some texts ∧ length texts = 4%nat.
Proof.
  revert day. apply DAYS_cases; eexists; (split; [vm_compute; reflexivity|reflexivity]).
Qed.

Lemma mod4_add4 (n : nat) : ((n + 4) mod 4 = n mod 4)%nat.
Proof.
  replace (n + 4)%nat with (n + 1 * 4)%nat by lia. apply Nat.Div0.mod_add.
Qed.

(** Claim C6.  Every weekday has exactly four rotation texts; the
    text for anchor index [n] is the one at position [n mod 4], it
    exists for every weekday, and so [select day n = select day (n + 4)];
    the row built for anchor index [i] carries, for each weekday, that
    text behind its prefix. *)
Theorem select_periodic :
  (∀ day, day ∈ DAYS →
     ∃ texts, ROTATIONS !! day = Some texts ∧ length texts = 4%nat) ∧
  (∀ day n texts, ROTATIONS !! day = Some texts →
     select day n = or_raise IndexError (texts !! (n mod 4)%nat)) ∧
  (∀ day n, day ∈ DAYS → ∃ text, select day n = Ok text) ∧
  (∀ day n, select day n = select day (n + 4)) ∧
  (∀ cfg i w phase row, make_row cfg i w phase = Ok row →
     ∀ day, day ∈ DAYS →
       ∃ text, select day i = Ok text ∧
         row_cells row !! day =
         Some (with_prefix
                 (cell_prefix (default empty_schedule (schedule cfg)) day)
                 text)).
Proof.
  split; [exact rotations_lengths|]. split; [|split; [|split]].
  - intros day n texts H. unfold select, rotation. rewrite H. reflexivity.
  - intros day n Hday. apply rotation_total; [done|].
    apply Nat.mod_upper_bound. lia.
  - intros day n. unfold select. by rewrite mod4_add4.
  - intros cfg i w phase row Hrow day Hday.
    destruct (make_row_inv _ _ _ _ _ Hrow) as (_ & _ & _ & _ & Hcells).
    destruct (Hcells day Hday) as (c & Hc & Hcell).
    apply day_cell_Ok in Hcell as (base & Hb & ->). eauto.
Qed.

(** C6 on Thursday, weeks 6 and 10. *)
Lemma select_periodic_witness :
  "Thu" ∈ DAYS ∧
  select "Thu" 6 = Ok "Key session: 150–200m @90–95% + starts" ∧
  select "Thu" 6 = select "Thu" 10.
Proof.
  split; [unfold DAYS; repeat constructor|].
  split; [vm_compute; reflexivity|].
  exact (proj1 (proj2 (proj2 (proj2 select_periodic))) "Thu" 6%nat).
Defined.

(** ** The automatic schedule and the phase table *)

Lemma templates_dom : dom templates = ({[4; 5; 6]} : gset Z).
Proof. vm_compute. reflexivity. Qed.

Lemma templates_lookup_None n :
  n ≠ 4 → n ≠ 5 → n ≠ 6 → templates !! n = None.
Proof.
  intros H4 H5 H6. apply not_elem_of_dom. rewrite templates_dom.
  rewrite !elem_of_union, !elem_of_singleton. tauto.
Qed.

(** The template table has no entry for three sessions, its keys are
    not 3, 4, 5 and 6. *)
Lemma templates_no_three_session_table :
  templates !! 3 = None ∧ dom templates ≠ ({[3; 4; 5; 6]} : gset Z).
Proof.
  split; [vm_compute; reflexivity|].
  intros H. assert (H3 : 3 ∈ dom templates).
  { rewrite H. rewrite !elem_of_union, !elem_of_singleton. tauto. }
  apply elem_of_dom in H3 as [t Ht]. vm_compute in Ht. discriminate Ht.
Qed.

(** The lookup of the automatic mode as the code performs it.  The
    template table has the keys 4, 5 and 6; every other count reads the
    table of 5.  A weekday with an entry of nonzero duration gets the
    prefix "(@ location, ~minutes min) — ", any other weekday the empty
    string; this is the prefix of the builder in the mode "auto".  Five
    sessions on "Thu" give "(@ Papendal/Track, ~105 min) — ". *)
Theorem time_prefix_auto_lookup :
  dom templates = ({[4; 5; 6]} : gset Z) ∧
  (∀ day n, n ≠ 4 → n ≠ 5 → n ≠ 6 →
     _time_prefix_auto day n = _time_prefix_auto day 5) ∧
  (∀ day n tbl t, templates !! n = Some tbl → tbl !! day = Some t →
     minutes t ≠ 0 →
     _time_prefix_auto day n =
     "(@ " +:+ location t +:+ ", ~" +:+ pretty (minutes t) +:+ " min) — ") ∧
  (∀ day n tbl, templates !! n = Some tbl →
     tbl !! day = None ∨ (∃ t, tbl !! day = Some t ∧ minutes t = 0) →
     _time_prefix_auto day n = EmptyString) ∧
  (∀ sc day, mode sc = Some "auto" → include_time_prefix sc ≠ Some false →
     cell_prefix sc day
     = _time_prefix_auto day (default 5 (sessions_per_week sc))) ∧
  _time_prefix_auto "Thu" 5 = "(@ Papendal/Track, ~105 min) — " ∧
  (∀ day, _time_prefix_auto day 7 = _time_prefix_auto day 5) ∧
  (∀ day, _time_prefix_auto day 3 = _time_prefix_auto day 5).
Proof.
  split; [exact templates_dom|].
  split; [|split; [|split; [|split; [|split; [|split]]]]].
  - intros day n H4 H5 H6. unfold _time_prefix_auto.
    rewrite (templates_lookup_None n) by done. reflexivity.
  - intros day n tbl t Hn Hday Hm. unfold _time_prefix_auto.
    rewrite Hn. cbn [from_option id]. rewrite Hday.
    apply Z.eqb_neq in Hm. rewrite Hm. reflexivity.
  - intros day n tbl Hn Hday. unfold _time_prefix_auto.
    rewrite Hn. cbn [from_option id].
    destruct Hday as [-> | (t & -> & Hm)]; [reflexivity|].
    rewrite Hm. reflexivity.
  - intros sc day Hmode Hinc. unfold cell_prefix. rewrite Hmode.
    cbn [from_option id].
    destruct (include_time_prefix sc) as [[|]|]; [reflexivity|done|reflexivity].
  - vm_compute. reflexivity.
  - intros day. reflexivity.
  - intros day. reflexivity.
Qed.

(** The lookup at nine sessions on Monday. *)
Lemma time_prefix_auto_lookup_witness :
  (9 ≠ 4 ∧ 9 ≠ 5 ∧ 9 ≠ 6) ∧
  _time_prefix_auto "Mon" 9 = _time_prefix_auto "Mon" 5 ∧
  _time_prefix_auto "Mon" 9 = "(@ Statina/Club, ~75 min) — ".
Proof.
  split; [repeat split; discriminate|].
  split; [|vm_compute; reflexivity].
  apply (proj1 (proj2 time_prefix_auto_lookup)); discriminate.
Defined.

(** Claim C5, at three sessions a week in the automatic mode.  The
    counts 4, 5 and 6 each have a table of their own with four, five
    and six training days, and the slider of the form offers the counts
    3 to 6; the table has no entry for 3, so that three sessions a week
    silently read the table of five: the five days Monday to Friday get
    a prefix, the same as with five sessions, where the claim has a
    table keyed by 3. *)
Theorem three_sessions_use_five_session_table :
  templates !! 3 = None ∧
  (∀ n, n ∈ [4; 5; 6] →
     ∃ tbl, templates !! n = Some tbl ∧ Z.of_nat (size (dom tbl)) = n) ∧
  (∀ day, _time_prefix_auto day 3 = _time_prefix_auto day 5) ∧
  List.filter (λ day, negb (String.eqb (_time_prefix_auto day 3) EmptyString))
    DAYS = ["Mon"; "Tue"; "Wed"; "Thu"; "Fri"] ∧
  (λ day, _time_prefix_auto day 3) <$> DAYS
  = ["(@ Statina/Club, ~75 min) — "; "(@ Track, ~60 min) — ";
     "(@ Home (core), ~60 min) — "; "(@ Papendal/Track, ~105 min) — ";
     "(@ Track, ~60 min) — "; EmptyString; EmptyString].
Proof.
  split; [exact (templates_lookup_None 3 ltac:(lia) ltac:(lia) ltac:(lia))|].
  split.
  - intros n Hn.
    repeat (apply elem_of_cons in Hn as [-> | Hn];
            [eexists; split; [reflexivity | vm_compute; reflexivity]|]).
    by apply elem_of_nil in Hn.
  - split; [intros day; reflexivity|].
    split; vm_compute; reflexivity.
Qed.

(** Claim C1.  The phase list of [build_schedule] has exactly nine
    phases, Phase 1 to Phase 9 in this order, with the day offsets of
    the table of the specification, and every phase starts on the day
    after the one before it ends.  The bounds on the peaks say that the
    offset dates stay inside the range of [datetime]. *)
Theorem phases_cfg_nine_phases start end_ peak1 peak2 :
  MINORD + 84 ≤ peak1 ≤ MAXORD - 15 →
  MINORD + 49 ≤ peak2 ≤ MAXORD - 1 →
  ∃ ps, phases_cfg start end_ peak1 peak2 = Ok ps ∧
    ps = [ ("Phase 1 - General Prep", start, peak1 - 84);
           ("Phase 2 - Specific Prep", peak1 - 83, peak1 - 35);
           ("Phase 3 - Pre-Competition (Indoor)", peak1 - 34, peak1 - 7);
           ("Phase 4 - Taper & Peak 1", peak1 - 6, peak1);
           ("Phase 5 - Transition/Recovery", peak1 + 1, peak1 + 14);
           ("Phase 6 - Outdoor Build", peak1 + 15, peak2 - 49);
           ("Phase 7 - Pre-Competition Outdoor", peak2 - 48, peak2 - 14);
           ("Phase 8 - Taper & Peak 2", peak2 - 13, peak2);
           ("Phase 9 - Post-season Reset", peak2 + 1, end_) ] ∧
    length ps = 9%nat ∧
    ∀ (i : nat) n1 s1 e1 n2 s2 e2,
      ps !! i = Some (n1, s1, e1) → ps !! S i = Some (n2, s2, e2) →
      e1 + 1 = s2.
Proof.
  intros H1 H2. eexists. split; [by apply phases_cfg_Ok|].
  split; [reflexivity|]. split; [reflexivity|].
  intros i n1 s1 e1 n2 s2 e2 Hi Hj. unfold phase_table in Hi, Hj.
  do 9 (destruct i as [|i]; [simplify_eq/=; lia|]).
  discriminate.
Qed.

(** C1 on the dates of the scenario. *)
Lemma phases_cfg_nine_phases_witness :
  (MINORD + 84 ≤ 739668 ≤ MAXORD - 15) ∧ (MINORD + 49 ≤ 739795 ≤ MAXORD - 1) ∧
  ∃ ps, phases_cfg 739495 739798 739668 739795 = Ok ps ∧ length ps = 9%nat.
Proof.
  assert (H1 : MINORD + 84 ≤ 739668 ≤ MAXORD - 15)
    by (unfold MINORD, MAXORD; lia).
  assert (H2 : MINORD + 49 ≤ 739795 ≤ MAXORD - 1)
    by (unfold MINORD, MAXORD; lia).
  split; [exact H1|]. split; [exact H2|].
  destruct (phases_cfg_nine_phases 739495 739798 739668 739795 H1 H2)
    as (ps & Hps & _ & Hlen & _).
  exists ps. split; [exact Hps | exact Hlen].
Defined.

(** ** The volume modifier *)

Lemma one_week_schedule : build_schedule one_week_cfg = Ok [one_week_row].
Proof. vm_compute. reflexivity. Qed.

Lemma phase_names_exclusive name :
  name ∈ phase_names →
  str_in "Taper" name = true →
  str_in "Transition" name = false ∧ str_in "Post-season" name = false.
Proof.
  unfold phase_names, phase_table. simpl. intros Hin.
  repeat (apply elem_of_cons in Hin as [-> | Hin];
          [vm_compute; intros H; (discriminate H || (split; reflexivity))|]).
  by apply elem_of_nil in Hin.
Qed.

Lemma build_schedule_row cfg rows row :
  build_schedule cfg = Ok rows → row ∈ rows →
  ∃ start end_ peak1 peak2 (k : nat) w,
    strptime (season_start cfg) = Ok start ∧
    strptime (season_end cfg) = Ok end_ ∧
    date_range start end_ !! k = Some w ∧
    Phase row = phase_for (phase_table start end_ peak1 peak2) w ∧
    nonempty (Phase row) = true ∧
    make_row cfg k w (Phase row) = Ok row.
Proof.
  intros H Hin.
  destruct (build_schedule_inv _ _ H)
    as (start & end_ & p1s & peak1 & peak2 & Hs & He & _ & _ & _ & _ & Hrows).
  destruct (rows_from_elem _ _ _ _ _ _ Hrows Hin) as (k & w & Hk & Hne & Hrow).
  simpl in Hrow.
  destruct (make_row_inv _ _ _ _ _ Hrow) as (_ & Hph & _).
  exists start, end_, peak1, peak2, k, w. rewrite Hph. auto 10.
Qed.

(** Claim C2.  On every emitted row the volume modifier is 0.5 when
    the phase name contains "Taper", 0.4 when it contains "Transition"
    or "Post-season", whatever the age and the commute distance, and
    otherwise [round(commute_factor * age_factor, 2)] with the factor
    0.9 from 30 km a day on, else 1.0, and the factor 1.0 from the age
    of 16 on, else 0.95. *)
Theorem volume_modifier_rule cfg rows row :
  build_schedule cfg = Ok rows → row ∈ rows →
  let commute_factor :=
    if number_ge (default (Int 0) (bike_km_per_day cfg)) 30
    then 0.9%float else 1.0%float in
  let age_factor :=
    if number_ge (default (Int 15) (age cfg)) 16
    then 1.0%float else 0.95%float in
  (str_in "Taper" (Phase row) = true →
     Volume_modifier row = 0.5%float) ∧
  (str_in "Transition" (Phase row) = true
   ∨ str_in "Post-season" (Phase row) = true →
     Volume_modifier row = 0.4%float) ∧
  (str_in "Taper" (Phase row) = false →
   str_in "Transition" (Phase row) = false →
   str_in "Post-season" (Phase row) = false →
     Volume_modifier row
     = PyFloat.round (commute_factor * age_factor)%float 2).
Proof.
  intros H Hin.
  destruct (build_schedule_row _ _ _ H Hin)
    as (start & end_ & peak1 & peak2 & k & w & _ & _ & _ & Hph & Hne & Hrow).
  destruct (make_row_inv _ _ _ _ _ Hrow) as (_ & _ & _ & Hvol & _).
  assert (Hname : Phase row ∈ phase_names).
  { destruct (phase_for_table_name start end_ peak1 peak2 w) as [He | Hn].
    - rewrite <- Hph in He. rewrite He in Hne. discriminate Hne.
    - by rewrite Hph. }
  pose proof (phase_names_exclusive _ Hname) as Hex.
  rewrite Hvol. unfold vol_mod_of, commute_factor, age_factor.
  destruct (str_in "Taper" (Phase row));
    destruct (str_in "Transition" (Phase row));
    destruct (str_in "Post-season" (Phase row)); cbn [orb];
    repeat split; try discriminate; try reflexivity;
    try (destruct (Hex eq_refl); discriminate);
    intros [?|?]; discriminate.
Qed.

(** C2 on the season of one week. *)
Lemma volume_modifier_rule_witness :
  build_schedule one_week_cfg = Ok [one_week_row] ∧
  one_week_row ∈ [one_week_row] ∧
  str_in "Taper" (Phase one_week_row) = true ∧
  Volume_modifier one_week_row = 0.5%float.
Proof.
  assert (H : build_schedule one_week_cfg = Ok [one_week_row])
    by (vm_compute; reflexivity).
  assert (Hin : one_week_row ∈ [one_week_row]) by constructor.
  split; [exact H|]. split; [exact Hin|].
  split; [vm_compute; reflexivity|].
  apply (proj1 (volume_modifier_rule _ _ _ H Hin)). vm_compute. reflexivity.
Defined.

(** ** The weekly anchors, the unread keys, the bare cells *)

(** Claim C7.  The weekly anchors are exactly the Mondays from the
    season start to the season end, both included, in increasing order;
    the builder emits one row for each of them, in this order, and so
    the week of every emitted row is a Monday of the season. *)
Theorem anchors_are_the_mondays cfg rows start end_ :
  build_schedule cfg = Ok rows →
  strptime (season_start cfg) = Ok start →
  strptime (season_end cfg) = Ok end_ →
  (∀ d, d ∈ date_range start end_ ↔ start ≤ d ≤ end_ ∧ weekday d = 0) ∧
  (∀ (j k : nat) a b, date_range start end_ !! j = Some a →
     date_range start end_ !! k = Some b → (j < k)%nat → a < b) ∧
  length rows = length (date_range start end_) ∧
  (∀ (k : nat) d, date_range start end_ !! k = Some d →
     ∃ row, rows !! k = Some row ∧ Week_of row = strftime d) ∧
  (∀ row, row ∈ rows →
     ∃ d, Week_of row = strftime d ∧ start ≤ d ≤ end_ ∧ weekday d = 0).
Proof.
  intros H Hs He.
  destruct (build_schedule_inv _ _ H)
    as (start' & end' & p1s & peak1 & peak2 & Hs' & He' & _ & _ & _ & _ & Hrows).
  rewrite Hs in Hs'. rewrite He in He'.
  injection Hs' as <-. injection He' as <-.
  destruct (rows_from_covered _ _ _ _ _
              (date_range_covered start end_ peak1 peak2) Hrows)
    as [Hlen Hlookup].
  split; [intros d; apply elem_of_date_range|].
  split; [|split; [exact Hlen|split]].
  - intros j k a b Hj Hk Hjk.
    apply date_range_lookup in Hj, Hk. lia.
  - intros k d Hk. destruct (Hlookup k d Hk) as (row & Hrow & Hmk).
    exists row. split; [exact Hrow|].
    by destruct (make_row_inv _ _ _ _ _ Hmk) as (-> & _).
  - intros row Hin.
    destruct (rows_from_elem _ _ _ _ _ _ Hrows Hin) as (k & w & Hk & _ & Hmk).
    exists w. destruct (make_row_inv _ _ _ _ _ Hmk) as (-> & _).
    split; [reflexivity|]. apply elem_of_date_range.
    apply list_elem_of_lookup. eauto.
Qed.

(** C7 on the season of one week. *)
Lemma anchors_are_the_mondays_witness :
  build_schedule one_week_cfg = Ok [one_week_row] ∧
  strptime (season_start one_week_cfg) = Ok 739663 ∧
  strptime (season_end one_week_cfg) = Ok 739669 ∧
  ∃ d, Week_of one_week_row = strftime d ∧ 739663 ≤ d ≤ 739669
       ∧ weekday d = 0.
Proof.
  assert (H : build_schedule one_week_cfg = Ok [one_week_row])
    by (vm_compute; reflexivity).
  assert (Hs : strptime (season_start one_week_cfg) = Ok 739663)
    by (vm_compute; reflexivity).
  assert (He : strptime (season_end one_week_cfg) = Ok 739669)
    by (vm_compute; reflexivity).
  split; [exact H|]. split; [exact Hs|]. split; [exact He|].
  apply (proj2 (proj2 (proj2 (proj2
           (anchors_are_the_mondays _ _ _ _ H Hs He))))).
  constructor.
Defined.


Lemma make_row_agree c1 c2 i w phase :
  bike_km_per_day c1 = bike_km_per_day c2 → age c1 = age c2 →
  schedule c1 = schedule c2 →
  make_row c1 i w phase = make_row c2 i w phase.
Proof.
  intros Hb Ha Hsc. unfold make_row, vol_mod_of, commute_factor, age_factor.
  rewrite Hb, Ha, Hsc. reflexivity.
Qed.

Lemma rows_from_agree c1 c2 phases i weeks :
  bike_km_per_day c1 = bike_km_per_day c2 → age c1 = age c2 →
  schedule c1 = schedule c2 →
  rows_from c1 phases i weeks = rows_from c2 phases i weeks.
Proof.
  intros Hb Ha Hsc. revert i.
  induction weeks as [|w rest IH]; intros i; simpl; [reflexivity|].
  rewrite (make_row_agree c1 c2) by done. rewrite IH. reflexivity.
Qed.

(** Claim C9.  Two configurations that agree on the season start and
    end, the first indoor peak date, the outdoor peak date, the commute
    distance, the age and the schedule settings get the same result,
    rows or exception, whatever their athlete name, sex, personal bests,
    events and further indoor peak dates are. *)
Theorem build_schedule_noninterference c1 c2 :
  reads_agree c1 c2 → build_schedule c1 = build_schedule c2.
Proof.
  intros (Hs & He & Hp1 & Hp2 & Hb & Ha & Hsc). unfold build_schedule.
  rewrite Hs, He, Hp1, Hp2.
  destruct (strptime (season_start c2)) as [start|]; [|reflexivity].
  destruct (strptime (season_end c2)) as [end_|]; [|reflexivity].
  cbn [mbind result_bind].
  destruct (or_raise IndexError (indoor_peak_dates (peaks c2) !! 0%nat))
    as [p1s|]; [|reflexivity].
  cbn [mbind result_bind].
  destruct (strptime p1s) as [peak1|]; [|reflexivity].
  destruct (strptime (outdoor_peak_date (peaks c2))) as [peak2|];
    [|reflexivity].
  cbn [mbind result_bind].
  destruct (phases_cfg start end_ peak1 peak2) as [phases|]; [|reflexivity].
  cbn [mbind result_bind]. by apply rows_from_agree.
Qed.


(** C9 on the scenario and on the scenario for another athlete. *)
Lemma build_schedule_noninterference_witness :
  reads_agree scenario_cfg other_athlete_cfg ∧
  athlete_name scenario_cfg ≠ athlete_name other_athlete_cfg ∧
  sex scenario_cfg ≠ sex other_athlete_cfg ∧
  pbs scenario_cfg ≠ pbs other_athlete_cfg ∧
  events scenario_cfg ≠ events other_athlete_cfg ∧
  indoor_peak_dates (peaks scenario_cfg) !! 1%nat
    ≠ indoor_peak_dates (peaks other_athlete_cfg) !! 1%nat ∧
  build_schedule scenario_cfg = build_schedule other_athlete_cfg.
Proof.
  assert (H : reads_agree scenario_cfg other_athlete_cfg)
    by (repeat split; reflexivity).
  split; [exact H|].
  split; [discriminate|]. split; [discriminate|].
  split; [intros E; apply (f_equal (λ m, m !! "100m")) in E;
          vm_compute in E; discriminate E|].
  split; [discriminate|]. split; [discriminate|].
  exact (build_schedule_noninterference _ _ H).
Defined.

Lemma cell_prefix_off sc day :
  include_time_prefix sc = Some false → cell_prefix sc day = EmptyString.
Proof. intros H. unfold cell_prefix. rewrite H. reflexivity. Qed.

Lemma row_cells_lookup row :
  row_cells row !! "Mon" = Some (Mon row) ∧
  row_cells row !! "Tue" = Some (Tue row) ∧
  row_cells row !! "Wed" = Some (Wed row) ∧
  row_cells row !! "Thu" = Some (Thu row) ∧
  row_cells row !! "Fri" = Some (Fri row) ∧
  row_cells row !! "Sat" = Some (Sat row) ∧
  row_cells row !! "Sun" = Some (Sun row).
Proof. destruct row. vm_compute. repeat split. Qed.

(** Claim C10.  With [include_time_prefix] false, every weekday cell
    of the row at position [k] is the bare rotation text of that
    weekday for the index [k], whatever the mode, the manual slots and
    the sessions per week are. *)
Theorem no_prefix_bare_rotation cfg sc rows :
  schedule cfg = Some sc → include_time_prefix sc = Some false →
  build_schedule cfg = Ok rows →
  ∀ (k : nat) row, rows !! k = Some row →
    select "Mon" k = Ok (Mon row) ∧ select "Tue" k = Ok (Tue row) ∧
    select "Wed" k = Ok (Wed row) ∧ select "Thu" k = Ok (Thu row) ∧
    select "Fri" k = Ok (Fri row) ∧ select "Sat" k = Ok (Sat row) ∧
    select "Sun" k = Ok (Sun row).
Proof.
  intros Hsc Hoff H k row Hk.
  destruct (build_schedule_inv _ _ H)
    as (start & end_ & p1s & peak1 & peak2 & _ & _ & _ & _ & _ & _ & Hrows).
  destruct (rows_from_covered _ _ _ _ _
              (date_range_covered start end_ peak1 peak2) Hrows)
    as [Hlen Hlookup].
  assert (Hlt : (k < length (date_range start end_))%nat).
  { rewrite <- Hlen. by apply lookup_lt_Some in Hk. }
  apply lookup_lt_is_Some in Hlt as [w Hw].
  destruct (Hlookup k w Hw) as (row' & Hk' & Hmk).
  rewrite Hk in Hk'. injection Hk' as <-. simpl in Hmk.
  destruct (make_row_inv _ _ _ _ _ Hmk) as (_ & _ & _ & _ & Hcells).
  rewrite Hsc in Hcells. cbn [from_option id] in Hcells.
  assert (Hday : ∀ day, day ∈ DAYS →
            ∃ c, row_cells row !! day = Some c ∧ select day k = Ok c).
  { intros day Hd. destruct (Hcells day Hd) as (c & Hc & Hcell).
    exists c. split; [exact Hc|].
    apply day_cell_Ok in Hcell as (base & Hb & ->).
    rewrite (cell_prefix_off _ _ Hoff). exact Hb. }
  repeat split.
  all: match goal with |- select ?d _ = _ =>
         let Hd := fresh "Hd" in
         assert (Hd : d ∈ DAYS) by (unfold DAYS; repeat constructor);
         destruct (Hday d Hd) as (c & Hc & ->);
         destruct (row_cells_lookup row)
           as (L1 & L2 & L3 & L4 & L5 & L6 & L7);
         congruence end.
Qed.

(** C10 on the season of one week. *)
Lemma no_prefix_bare_rotation_witness :
  schedule one_week_cfg
    = Some {| mode := Some "manual"; include_time_prefix := Some false;
              sessions_per_week := None; slots := None |} ∧
  build_schedule one_week_cfg = Ok [one_week_row] ∧
  select "Thu" 0 = Ok (Thu one_week_row).
Proof.
  assert (H : build_schedule one_week_cfg = Ok [one_week_row])
    by (vm_compute; reflexivity).
  split; [reflexivity|]. split; [exact H|].
  apply (no_prefix_bare_rotation one_week_cfg _ _ eq_refl eq_refl H 0%nat
           one_week_row eq_refl).
Defined.

(** ** Phase resolution *)

Lemma outside_false (s e d : Z) :
  ¬ (s ≤ d ≤ e) → (s <=? d) && (d <=? e) = false.
Proof.
  intros H. destruct (Z.leb_spec s d); [|reflexivity].
  destruct (Z.leb_spec d e); [lia | reflexivity].
Qed.

Lemma phase_for_first pre name s e post d :
  Forall (λ p, ¬ (p.1.2 ≤ d ≤ p.2)) pre → s ≤ d ≤ e →
  phase_for (pre ++ (name, s, e) :: post) d = name.
Proof.
  intros Hpre [Hs He]. induction Hpre as [|[[n' s'] e'] pre Hx _ IH]; simpl.
  - apply Z.leb_le in Hs, He. by rewrite Hs, He.
  - simpl in Hx. by rewrite (outside_false _ _ _ Hx).
Qed.









(** ** The scenario of the specification *)

Lemma round_scenario_base :
  PyFloat.round (0.9 * 0.95)%float 2 = 0.85%float.
Proof. vm_compute. reflexivity. Qed.

Lemma float_085_neq_086 : 0.85%float ≠ 0.86%float.
Proof.
  intros H. apply (f_equal Prim2SF) in H. vm_compute in H. discriminate H.
Qed.

Lemma scenario_weeks :
  date_range 739495 739798 = (λ k, 739495 + 7 * k) <$> seqZ 0 44.
Proof. vm_compute. reflexivity. Qed.

Lemma scenario_taper_week w :
  w ∈ date_range 739495 739798 → strftime w = "2026-02-16" → w = 739663.
Proof.
  rewrite scenario_weeks. intros Hw.
  apply list_elem_of_fmap in Hw as (k & -> & Hk).
  apply elem_of_seqZ in Hk.
  assert (Hcases : Exists (λ j, k = j) (seqZ 0 44)).
  { apply Exists_exists. exists k. split; [by apply elem_of_seqZ | reflexivity]. }
  vm_compute in Hcases.
  repeat (apply Exists_cons in Hcases as [-> | Hcases];
          [vm_compute; intros H; (discriminate H || reflexivity)|]).
  by apply Exists_nil in Hcases.
Qed.

(** Against claim C3 as stated: on the scenario the volume modifier of
    the first row is [round(0.9 * 0.95, 2)], and it is not 0.86. *)
Lemma scenario_first_row_not_086 :
  ∃ rows first,
    build_schedule scenario_cfg = Ok rows ∧ rows !! 0%nat = Some first ∧
    Phase first = "Phase 1 - General Prep" ∧
    Volume_modifier first = PyFloat.round (0.9 * 0.95)%float 2 ∧
    Volume_modifier first ≠ 0.86%float.
Proof.
  destruct (rows_from_total scenario_cfg
              (phase_table 739495 739798 739668 739795) 0
              (date_range 739495 739798)) as [rows Hrows].
  assert (H : build_schedule scenario_cfg = Ok rows).
  { rewrite <- Hrows.
    apply (build_schedule_Ok scenario_cfg 739495 739798 "2026-02-21"
             739668 739795); try (vm_compute; reflexivity);
      unfold MINORD, MAXORD; lia. }
  destruct (rows_from_covered _ _ _ _ _
              (date_range_covered 739495 739798 739668 739795) Hrows)
    as [_ Hlookup].
  destruct (Hlookup 0%nat 739495 eq_refl) as (first & Hfirst & Hmk).
  destruct (make_row_inv _ _ _ _ _ Hmk) as (_ & Hph & _ & Hvol & _).
  exists rows, first. split; [exact H|]. split; [exact Hfirst|].
  split; [rewrite Hph; vm_compute; reflexivity|].
  assert (Hv : Volume_modifier first = 0.85%float)
    by (rewrite Hvol; vm_compute; reflexivity).
  split; [by rewrite Hv, round_scenario_base|].
  rewrite Hv. exact float_085_neq_086.
Qed.

(** Claim C3, amended.  For the season 2025-09-01 to 2026-07-01 with
    the indoor peak on 2026-02-21, the outdoor peak on 2026-06-28, the
    age 15 and 32 km a day, the first row has the phase
    "Phase 1 - General Prep" and the volume modifier
    [round(0.9 * 0.95, 2)], which is 0.85: the product of the two
    binary64 factors lies below 0.855.  The row of the week 2026-02-16
    exists, has the phase "Phase 4 - Taper & Peak 1" and the volume
    modifier 0.5. *)
Theorem scenario_rows cfg :
  season_start cfg = "2025-09-01" → season_end cfg = "2026-07-01" →
  indoor_peak_dates (peaks cfg) !! 0%nat = Some "2026-02-21" →
  outdoor_peak_date (peaks cfg) = "2026-06-28" →
  age cfg = Some (Int 15) → bike_km_per_day cfg = Some (Int 32) →
  ∃ rows, build_schedule cfg = Ok rows ∧
    (∃ first, rows !! 0%nat = Some first ∧
       Phase first = "Phase 1 - General Prep" ∧
       Volume_modifier first = PyFloat.round (0.9 * 0.95)%float 2 ∧
       Volume_modifier first = 0.85%float) ∧
    (∃ row, row ∈ rows ∧ Week_of row = "2026-02-16") ∧
    (∀ row, row ∈ rows → Week_of row = "2026-02-16" →
       Phase row = "Phase 4 - Taper & Peak 1" ∧
       Volume_modifier row = 0.5%float).
Proof.
  intros Hs He Hp1 Hp2 Hage Hbike.
  destruct (rows_from_total cfg (phase_table 739495 739798 739668 739795) 0 (date_range 739495 739798))
    as [rows Hrows].
  assert (H : build_schedule cfg = Ok rows).
  { rewrite <- Hrows.
    apply (build_schedule_Ok cfg 739495 739798 "2026-02-21" 739668 739795);
      rewrite ?Hs, ?He, ?Hp2; try (vm_compute; reflexivity);
      try exact Hp1; unfold MINORD, MAXORD; lia. }
  destruct (rows_from_covered _ _ _ _ _
              (date_range_covered 739495 739798 739668 739795) Hrows)
    as [_ Hlookup].
  assert (Hbase : ∀ phase, str_in "Taper" phase = false →
            str_in "Transition" phase = false →
            str_in "Post-season" phase = false →
            vol_mod_of cfg phase = 0.85%float).
  { intros phase H1 H2 H3. unfold vol_mod_of, commute_factor, age_factor.
    rewrite H1, H2, H3, Hage, Hbike. vm_compute. reflexivity. }
  assert (Htaper : ∀ phase, str_in "Taper" phase = true →
            str_in "Transition" phase = false →
            str_in "Post-season" phase = false →
            vol_mod_of cfg phase = 0.5%float).
  { intros phase H1 H2 H3. unfold vol_mod_of.
    rewrite H1, H2, H3. reflexivity. }
  exists rows. split; [exact H|]. split; [|split].
  - destruct (Hlookup 0%nat 739495 eq_refl) as (first & Hfirst & Hmk).
    destruct (make_row_inv _ _ _ _ _ Hmk) as (_ & Hph & _ & Hvol & _).
    exists first. split; [exact Hfirst|].
    assert (Hname : phase_for (phase_table 739495 739798 739668 739795) 739495 = "Phase 1 - General Prep")
      by (vm_compute; reflexivity).
    rewrite Hname in Hph, Hvol.
    split; [exact Hph|].
    rewrite Hvol, round_scenario_base.
    split; apply Hbase; vm_compute; reflexivity.
  - destruct (Hlookup 24%nat 739663 eq_refl) as (row & Hrow & Hmk).
    destruct (make_row_inv _ _ _ _ _ Hmk) as (Hwk & _).
    exists row. split; [by apply list_elem_of_lookup; exists 24%nat|].
    rewrite Hwk. vm_compute. reflexivity.
  - intros row Hin Hweek.
    destruct (rows_from_elem _ _ _ _ _ _ Hrows Hin) as (k & w & Hk & _ & Hmk).
    destruct (make_row_inv _ _ _ _ _ Hmk) as (Hwk & Hph & _ & Hvol & _).
    rewrite Hwk in Hweek.
    assert (Hw : w = 739663).
    { apply scenario_taper_week; [|exact Hweek].
      apply list_elem_of_lookup. eauto. }
    subst w.
    assert (Hname : phase_for (phase_table 739495 739798 739668 739795) 739663 = "Phase 4 - Taper & Peak 1")
      by (vm_compute; reflexivity).
    rewrite Hname in Hph, Hvol.
    split; [exact Hph|].
    rewrite Hvol. apply Htaper; vm_compute; reflexivity.
Qed.

(** C3 on the scenario. *)
Lemma scenario_rows_witness :
  season_start scenario_cfg = "2025-09-01" ∧
  season_end scenario_cfg = "2026-07-01" ∧
  indoor_peak_dates (peaks scenario_cfg) !! 0%nat = Some "2026-02-21" ∧
  outdoor_peak_date (peaks scenario_cfg) = "2026-06-28" ∧
  age scenario_cfg = Some (Int 15) ∧
  bike_km_per_day scenario_cfg = Some (Int 32) ∧
  ∃ rows, build_schedule scenario_cfg = Ok rows ∧
    ∃ first, rows !! 0%nat = Some first ∧
      Volume_modifier first = 0.85%float.
Proof.
  do 6 (split; [reflexivity|]).
  destruct (scenario_rows scenario_cfg eq_refl eq_refl eq_refl eq_refl
              eq_refl eq_refl)
    as (rows & H & (first & Hfirst & _ & _ & Hv) & _).
  exists rows. split; [exact H|]. exists first. split; [exact Hfirst | exact Hv].
Defined.

(** * Further properties *)

(** ** The calendar: from the ordinal to the date and back *)

Lemma md_ok_all (leap : bool) (n : Z) :
  0 ≤ n < 365 + (if leap then 1 else 0) → md_ok leap n = true.
Proof.
  intros Hn.
  assert (H : forallb (md_ok true) (seqZ 0 366) = true
              ∧ forallb (md_ok false) (seqZ 0 365) = true)
    by (split; vm_compute; reflexivity).
  destruct H as [Ht Hf].
  destruct leap.
  - rewrite forallb_forall in Ht. apply Ht.
    apply list_elem_of_In, elem_of_seqZ. lia.
  - rewrite forallb_forall in Hf. apply Hf.
    apply list_elem_of_In, elem_of_seqZ. lia.
Qed.

Lemma ord2md_spec (leap : bool) (n m d : Z) :
  0 ≤ n < 365 + (if leap then 1 else 0) →
  ord2md leap n = (m, d) →
  1 ≤ m ≤ 12 ∧
  1 ≤ d ≤ table DAYS_IN_MONTH m + (if (m =? 2) && leap then 1 else 0) ∧
  table DAYS_BEFORE_MONTH m + (if (2 <? m) && leap then 1 else 0) + d = n + 1.
Proof.
  intros Hn Hmd. pose proof (md_ok_all leap n Hn) as H.
  unfold md_ok in H. rewrite Hmd in H.
  repeat (apply andb_prop in H as [H ?]).
  repeat match goal with
  | H : (_ <=? _) = true |- _ => apply Z.leb_le in H
  | H : (_ =? _) = true |- _ => apply Z.eqb_eq in H
  end.
  lia.
Qed.

Lemma is_leap_decomp a b c d :
  0 ≤ b ≤ 3 → 0 ≤ c ≤ 24 → 0 ≤ d ≤ 3 →
  is_leap (400 * a + 100 * b + 4 * c + d + 1)
  = (d =? 3) && (negb (c =? 24) || (b =? 3)).
Proof.
  intros Hb Hc Hd. unfold is_leap.
  set (y := 400 * a + 100 * b + 4 * c + d + 1).
  assert (H4 : y mod 4 = (d + 1) mod 4).
  { unfold y. replace (400 * a + 100 * b + 4 * c + d + 1)
      with (d + 1 + (100 * a + 25 * b + c) * 4) by lia.
    apply Z_mod_plus_full. }
  assert (H100 : y mod 100 = (4 * c + d + 1) mod 100).
  { unfold y. replace (400 * a + 100 * b + 4 * c + d + 1)
      with (4 * c + d + 1 + (4 * a + b) * 100) by lia.
    apply Z_mod_plus_full. }
  assert (H400 : y mod 400 = (100 * b + 4 * c + d + 1) mod 400).
  { unfold y. replace (400 * a + 100 * b + 4 * c + d + 1)
      with (100 * b + 4 * c + d + 1 + a * 400) by lia.
    apply Z_mod_plus_full. }
  rewrite H4, H100, H400. clearbody y. clear H4 H100 H400.
  destruct (Z.eqb_spec d 3) as [->|Hd3].
  - replace ((3 + 1) mod 4) with 0 by reflexivity. cbn [Z.eqb andb].
    destruct (Z.eqb_spec c 24) as [->|Hc24].
    + replace ((4 * 24 + 3 + 1) mod 100) with 0 by reflexivity.
      cbn [Z.eqb negb orb].
      destruct (Z.eqb_spec b 3) as [->|Hb3]; [reflexivity|].
      apply Z.eqb_neq. intros H.
      apply Z.mod_divide in H; [|lia]. destruct H as [k Hk]. lia.
    + assert ((4 * c + 3 + 1) mod 100 ≠ 0).
      { intros H. apply Z.mod_divide in H; [|lia]. destruct H as [k Hk]. lia. }
      apply Z.eqb_neq in H. rewrite H. reflexivity.
  - assert ((d + 1) mod 4 ≠ 0).
    { intros H. apply Z.mod_divide in H; [|lia]. destruct H as [k Hk]. lia. }
    apply Z.eqb_neq in H. rewrite H. reflexivity.
Qed.

Lemma days_before_year_decomp a b c d :
  0 ≤ b ≤ 3 → 0 ≤ c ≤ 24 → 0 ≤ d ≤ 3 →
  days_before_year (400 * a + 100 * b + 4 * c + d + 1)
  = DI400Y * a + DI100Y * b + DI4Y * c + 365 * d.
Proof.
  intros Hb Hc Hd. unfold days_before_year, DI400Y, DI100Y, DI4Y.
  cbv zeta.
  replace (400 * a + 100 * b + 4 * c + d + 1 - 1)
    with (400 * a + 100 * b + 4 * c + d) by lia.
  assert ((400 * a + 100 * b + 4 * c + d) / 4 = 100 * a + 25 * b + c).
  { symmetry. apply (Z.div_unique _ _ _ d); lia. }
  assert ((400 * a + 100 * b + 4 * c + d) / 100 = 4 * a + b).
  { symmetry. apply (Z.div_unique _ _ _ (4 * c + d)); lia. }
  assert ((400 * a + 100 * b + 4 * c + d) / 400 = a).
  { symmetry. apply (Z.div_unique _ _ _ (100 * b + 4 * c + d)); lia. }
  lia.
Qed.

Lemma ord2ymd_unfold n :
  ord2ymd n =
  let n0 := n - 1 in
  let n400 := n0 / DI400Y in
  let r1 := n0 mod DI400Y in
  let n100 := r1 / DI100Y in
  let r2 := r1 mod DI100Y in
  let n4 := r2 / DI4Y in
  let r3 := r2 mod DI4Y in
  let n1 := r3 / 365 in
  let r4 := r3 mod 365 in
  let year := n400 * 400 + 1 + n100 * 100 + n4 * 4 + n1 in
  if (n1 =? 4) || (n100 =? 4) then (year - 1, 12, 31)
  else
    let '(m, d) :=
      ord2md ((n1 =? 3) && (negb (n4 =? 24) || (n100 =? 3))) r4 in
    (year, m, d).
Proof.
  unfold ord2ymd, ord2md. cbv zeta.
  destruct ((_ =? 4) || (_ =? 4)); [reflexivity|].
  destruct (_ <? _); reflexivity.
Qed.

Lemma days_in_month_table y m :
  days_in_month y m
  = table DAYS_IN_MONTH m + (if (m =? 2) && is_leap y then 1 else 0).
Proof.
  unfold days_in_month.
  destruct (Z.eqb_spec m 2) as [->|]; [|cbn [andb]; lia].
  destruct (is_leap y); reflexivity.
Qed.


(** The date of day [r4] of the year [400 a + 100 b + 4 c + e + 1]. *)
Lemma ord2ymd_parts a b c e r4 :
  0 ≤ a ≤ 24 → 0 ≤ b ≤ 3 → 0 ≤ c ≤ 24 → 0 ≤ e ≤ 3 →
  let y := 400 * a + 100 * b + 4 * c + e + 1 in
  0 ≤ r4 < 365 + (if is_leap y then 1 else 0) →
  ∀ m d, ord2md (is_leap y) r4 = (m, d) →
  1 ≤ m ≤ 12 ∧ 1 ≤ d ≤ days_in_month y m ∧
  ymd2ord y m d = DI400Y * a + DI100Y * b + DI4Y * c + 365 * e + r4 + 1.
Proof.
  intros Ha Hb Hc He y Hr4 m d Hmd.
  destruct (ord2md_spec _ _ _ _ Hr4 Hmd) as (Hm & Hd & Hsum).
  unfold ymd2ord, days_before_month. rewrite days_in_month_table.
  unfold y at 2. rewrite days_before_year_decomp by lia.
  split; [exact Hm|]. split; [exact Hd|]. lia.
Qed.

Lemma ord2md_last : ord2md true 365 = (12, 31).
Proof. reflexivity. Qed.

(** [_ord2ymd] is the inverse of [_ymd2ord] on the ordinals of the
    calendar, and its result is a date of the calendar. *)
Lemma ord2ymd_spec n y m d :
  MINORD ≤ n ≤ MAXORD → ord2ymd n = (y, m, d) →
  1 ≤ y ≤ 9999 ∧ 1 ≤ m ≤ 12 ∧ 1 ≤ d ≤ days_in_month y m ∧
  ymd2ord y m d = n.
Proof.
  unfold MINORD, MAXORD. intros Hn. rewrite ord2ymd_unfold. cbv zeta.
  pose proof (Z.div_mod (n - 1) DI400Y ltac:(done)) as E1.
  pose proof (Z.mod_pos_bound (n - 1) DI400Y ltac:(done)) as B1.
  generalize dependent ((n - 1) / DI400Y).
  generalize dependent ((n - 1) mod DI400Y). intros r1 B1 a E1.
  pose proof (Z.div_mod r1 DI100Y ltac:(done)) as E2.
  pose proof (Z.mod_pos_bound r1 DI100Y ltac:(done)) as B2.
  generalize dependent (r1 / DI100Y).
  generalize dependent (r1 mod DI100Y). intros r2 B2 b E2.
  pose proof (Z.div_mod r2 DI4Y ltac:(done)) as E3.
  pose proof (Z.mod_pos_bound r2 DI4Y ltac:(done)) as B3.
  generalize dependent (r2 / DI4Y).
  generalize dependent (r2 mod DI4Y). intros r3 B3 c E3.
  pose proof (Z.div_mod r3 365 ltac:(done)) as E4.
  pose proof (Z.mod_pos_bound r3 365 ltac:(done)) as B4.
  generalize dependent (r3 / 365).
  generalize dependent (r3 mod 365). intros r4 B4 e E4.
  unfold DI400Y, DI100Y, DI4Y in E1, B1, E2, B2, E3, B3.
  assert (Ha : 0 ≤ a ≤ 24) by lia.
  assert (Hb : 0 ≤ b ≤ 4) by lia.
  assert (Hc : 0 ≤ c ≤ 24) by lia.
  assert (He : 0 ≤ e ≤ 4) by lia.
  destruct (Z.eqb_spec e 4) as [He4|He4]; cbn [orb].
  - (* the last day of a leap year that ends a cycle of four years *)
    intros [= <- <- <-]. subst e.
    assert (Hb3 : b ≤ 3) by lia. assert (Hc23 : c ≤ 23) by lia.
    pose proof (ord2ymd_parts a b c 3 365 ltac:(lia) ltac:(lia) ltac:(lia)
                  ltac:(lia)) as Hp.
    cbv zeta in Hp. rewrite is_leap_decomp in Hp by lia.
    replace (c =? 24) with false in Hp by (symmetry; apply Z.eqb_neq; lia).
    specialize (Hp ltac:(cbn; lia) 12 31 ord2md_last).
    replace (a * 400 + 1 + b * 100 + c * 4 + 4 - 1)
      with (400 * a + 100 * b + 4 * c + 3 + 1) by lia.
    unfold DI400Y, DI100Y, DI4Y in Hp. 
    destruct Hp as (H2 & H3 & H4). repeat split; try lia.
  - destruct (Z.eqb_spec b 4) as [Hb4|Hb4]; cbn [orb].
    + (* the last day of a cycle of 400 years *)
      intros [= <- <- <-]. subst b.
      assert (r2 = 0) by lia. assert (c = 0) by lia.
      assert (r3 = 0) by lia. assert (e = 0) by lia. subst.
      pose proof (ord2ymd_parts a 3 24 3 365 ltac:(lia) ltac:(lia) ltac:(lia)
                    ltac:(lia)) as Hp.
      cbv zeta in Hp. rewrite is_leap_decomp in Hp by lia.
      specialize (Hp ltac:(cbn; lia) 12 31 ord2md_last).
      replace (a * 400 + 1 + 4 * 100 + 0 * 4 + 0 - 1)
        with (400 * a + 100 * 3 + 4 * 24 + 3 + 1) by lia.
      unfold DI400Y, DI100Y, DI4Y in Hp.
      destruct Hp as (H2 & H3 & H4). repeat split; try lia.
    + assert (Hb3 : b ≤ 3) by lia. assert (He3 : e ≤ 3) by lia.
      pose proof (ord2ymd_parts a b c e r4 ltac:(lia) ltac:(lia) ltac:(lia)
                    ltac:(lia)) as Hp.
      cbv zeta in Hp. rewrite is_leap_decomp in Hp by lia.
      destruct (ord2md _ r4) as [m' d'] eqn:Hmd.
      intros [= <- <- <-].
      specialize (Hp ltac:(destruct ((e =? 3) && _); lia) m' d' eq_refl).
      replace (a * 400 + 1 + b * 100 + c * 4 + e)
        with (400 * a + 100 * b + 4 * c + e + 1) by lia.
      unfold DI400Y, DI100Y, DI4Y in Hp.
      destruct Hp as (H2 & H3 & H4). repeat split; try lia.
Qed.

(** ** Formatting and parsing a date *)

Lemma digit_char_spec a :
  0 ≤ a ≤ 9 → is_digit (digit_char a) = true ∧ digit_val (digit_char a) = a.
Proof.
  intros H.
  assert (Hc : a = 0 ∨ a = 1 ∨ a = 2 ∨ a = 3 ∨ a = 4 ∨ a = 5 ∨ a = 6
               ∨ a = 7 ∨ a = 8 ∨ a = 9) by lia.
  repeat (destruct Hc as [-> | Hc]; [split; reflexivity|]).
  subst a. split; reflexivity.
Qed.

Lemma match_Y_digits a b c d r :
  0 ≤ a ≤ 9 → 0 ≤ b ≤ 9 → 0 ≤ c ≤ 9 → 0 ≤ d ≤ 9 →
  match_Y (digit_char a :: digit_char b :: digit_char c :: digit_char d :: r)
  = Some (1000 * a + 100 * b + 10 * c + d, r).
Proof.
  intros Ha Hb Hc Hd. unfold match_Y.
  destruct (digit_char_spec a Ha) as [-> ->].
  destruct (digit_char_spec b Hb) as [-> ->].
  destruct (digit_char_spec c Hc) as [-> ->].
  destruct (digit_char_spec d Hd) as [-> ->].
  reflexivity.
Qed.

Lemma match_dash_cons r : match_dash ("-"%char :: r) = Some r.
Proof. reflexivity. Qed.

Lemma match_m_two_digits m r :
  1 ≤ m ≤ 12 →
  match_m (digit_char (m / 10 mod 10) :: digit_char (m mod 10) :: r)
  = Some (m, r).
Proof.
  intros H.
  assert (Hc : m = 1 ∨ m = 2 ∨ m = 3 ∨ m = 4 ∨ m = 5 ∨ m = 6 ∨ m = 7
               ∨ m = 8 ∨ m = 9 ∨ m = 10 ∨ m = 11 ∨ m = 12) by lia.
  repeat (destruct Hc as [-> | Hc]; [reflexivity|]).
  subst m. reflexivity.
Qed.

Lemma match_d_two_digits d :
  1 ≤ d ≤ 31 →
  match_d [digit_char (d / 10 mod 10); digit_char (d mod 10)] = Some (d, []).
Proof.
  intros H.
  assert (Hc : Z.to_nat d ∈ seq 1 31).
  { apply elem_of_seq. lia. }
  rewrite <- (Z2Nat.id d) by lia. clear H.
  revert Hc. generalize (Z.to_nat d). intros n Hn.
  cbn [seq] in Hn.
  repeat (apply elem_of_cons in Hn as [-> | Hn]; [reflexivity|]).
  by apply elem_of_nil in Hn.
Qed.

Lemma parse_ymd_format y m d :
  0 ≤ y ≤ 9999 → 1 ≤ m ≤ 12 → 1 ≤ d ≤ 31 →
  parse_ymd (four_digits y +:+ "-" +:+ two_digits m +:+ "-" +:+ two_digits d)
  = Some (y, m, d).
Proof.
  intros Hy Hm Hd. unfold parse_ymd, four_digits, two_digits.
  cbv [String.append list_ascii_of_string].
  rewrite match_Y_digits
    by (split; [apply Z.mod_pos_bound; lia
               | apply Z.lt_succ_r, Z.mod_pos_bound; lia]).
  cbn [mbind option_bind]. rewrite match_dash_cons. cbn [mbind option_bind].
  rewrite match_m_two_digits by done.
  cbn [mbind option_bind]. rewrite match_dash_cons. cbn [mbind option_bind].
  rewrite match_d_two_digits by done.
  cbn [mbind option_bind]. do 3 f_equal.
  pose proof (Z.div_mod y 1000 ltac:(lia)).
  pose proof (Z.mod_pos_bound y 1000 ltac:(lia)).
  pose proof (Z.div_mod y 100 ltac:(lia)).
  pose proof (Z.mod_pos_bound y 100 ltac:(lia)).
  pose proof (Z.div_mod y 10 ltac:(lia)).
  pose proof (Z.mod_pos_bound y 10 ltac:(lia)).
  pose proof (Z.div_mod (y / 1000) 10 ltac:(lia)).
  pose proof (Z.mod_pos_bound (y / 1000) 10 ltac:(lia)).
  pose proof (Z.div_mod (y / 100) 10 ltac:(lia)).
  pose proof (Z.mod_pos_bound (y / 100) 10 ltac:(lia)).
  pose proof (Z.div_mod (y / 10) 10 ltac:(lia)).
  pose proof (Z.mod_pos_bound (y / 10) 10 ltac:(lia)).
  lia.
Qed.

Lemma days_in_month_le_31 y m : 1 ≤ m ≤ 12 → days_in_month y m ≤ 31.
Proof.
  intros H. unfold days_in_month.
  destruct ((m =? 2) && is_leap y); [lia|].
  assert (Hc : m = 1 ∨ m = 2 ∨ m = 3 ∨ m = 4 ∨ m = 5 ∨ m = 6 ∨ m = 7
               ∨ m = 8 ∨ m = 9 ∨ m = 10 ∨ m = 11 ∨ m = 12) by lia.
  repeat (destruct Hc as [-> | Hc]; [vm_compute; discriminate|]).
  subst m. vm_compute. discriminate.
Qed.

(** A date written with [strftime("%Y-%m-%d")] is read back by
    [strptime] with the same format. *)
Lemma strptime_strftime d :
  MINORD ≤ d ≤ MAXORD → strptime (strftime d) = Ok d.
Proof.
  intros Hd. unfold strptime, strftime.
  destruct (ord2ymd d) as [[y m] dd] eqn:E.
  destruct (ord2ymd_spec d y m dd Hd E) as (Hy & Hm & Hdd & Hord).
  pose proof (days_in_month_le_31 y m Hm).
  rewrite parse_ymd_format by lia.
  destruct (Z.leb_spec 1 y); [|lia].
  destruct (Z.leb_spec dd (days_in_month y m)); [|lia].
  cbn [andb]. by rewrite Hord.
Qed.

Lemma strftime_inj d1 d2 :
  MINORD ≤ d1 ≤ MAXORD → MINORD ≤ d2 ≤ MAXORD →
  strftime d1 = strftime d2 → d1 = d2.
Proof.
  intros H1 H2 Heq.
  apply strptime_strftime in H1, H2. rewrite Heq in H1. congruence.
Qed.

(** ** The range of [strptime] *)

Lemma year_decomp y :
  1 ≤ y →
  ∃ a b c e, y = 400 * a + 100 * b + 4 * c + e + 1 ∧
    0 ≤ a ∧ 0 ≤ b ≤ 3 ∧ 0 ≤ c ≤ 24 ∧ 0 ≤ e ≤ 3.
Proof.
  intros Hy.
  exists ((y - 1) / 400), ((y - 1) mod 400 / 100),
    ((y - 1) mod 100 / 4), ((y - 1) mod 4).
  pose proof (Z.div_mod (y - 1) 400 ltac:(lia)).
  pose proof (Z.mod_pos_bound (y - 1) 400 ltac:(lia)).
  pose proof (Z.div_mod ((y - 1) mod 400) 100 ltac:(lia)).
  pose proof (Z.mod_pos_bound ((y - 1) mod 400) 100 ltac:(lia)).
  pose proof (Z.div_mod (y - 1) 100 ltac:(lia)).
  pose proof (Z.mod_pos_bound (y - 1) 100 ltac:(lia)).
  pose proof (Z.div_mod ((y - 1) mod 100) 4 ltac:(lia)).
  pose proof (Z.mod_pos_bound ((y - 1) mod 100) 4 ltac:(lia)).
  pose proof (Z.div_mod (y - 1) 4 ltac:(lia)).
  pose proof (Z.mod_pos_bound (y - 1) 4 ltac:(lia)).
  lia.
Qed.

Lemma month_days_le (leap : bool) m :
  1 ≤ m ≤ 12 →
  table DAYS_BEFORE_MONTH m + (if (2 <? m) && leap then 1 else 0)
  + (table DAYS_IN_MONTH m + (if (m =? 2) && leap then 1 else 0))
  ≤ 365 + (if leap then 1 else 0).
Proof.
  intros H.
  assert (Hc : m = 1 ∨ m = 2 ∨ m = 3 ∨ m = 4 ∨ m = 5 ∨ m = 6 ∨ m = 7
               ∨ m = 8 ∨ m = 9 ∨ m = 10 ∨ m = 11 ∨ m = 12) by lia.
  repeat (destruct Hc as [-> | Hc];
          [destruct leap; vm_compute; discriminate|]).
  subst m. destruct leap; vm_compute; discriminate.
Qed.

Lemma table_before_nonneg m : 1 ≤ m ≤ 12 → 0 ≤ table DAYS_BEFORE_MONTH m.
Proof.
  intros H.
  assert (Hc : m = 1 ∨ m = 2 ∨ m = 3 ∨ m = 4 ∨ m = 5 ∨ m = 6 ∨ m = 7
               ∨ m = 8 ∨ m = 9 ∨ m = 10 ∨ m = 11 ∨ m = 12) by lia.
  repeat (destruct Hc as [-> | Hc]; [vm_compute; discriminate|]).
  subst m. vm_compute; discriminate.
Qed.

Lemma ymd2ord_range y m d :
  1 ≤ y ≤ 9999 → 1 ≤ m ≤ 12 → 1 ≤ d ≤ days_in_month y m →
  MINORD ≤ ymd2ord y m d ≤ MAXORD.
Proof.
  intros Hy Hm Hd. rewrite days_in_month_table in Hd.
  pose proof (month_days_le (is_leap y) m Hm) as Hle.
  pose proof (table_before_nonneg m Hm) as Hnn.
  unfold ymd2ord, days_before_month, MINORD, MAXORD.
  destruct (year_decomp y ltac:(lia)) as (a & b & c & e & -> & Ha & Hb & Hc & He).
  rewrite days_before_year_decomp by lia.
  rewrite is_leap_decomp in * by lia.
  unfold DI400Y, DI100Y, DI4Y.
  destruct (Z.eqb_spec e 3) as [->|He3]; cbn [andb] in *.
  - destruct (negb (c =? 24) || (b =? 3)) eqn:E.
    + destruct ((2 <? m) && true), ((m =? 2) && true); lia.
    + destruct ((2 <? m) && false), ((m =? 2) && false); lia.
  - destruct ((2 <? m) && false), ((m =? 2) && false); lia.
Qed.

Lemma in_range_spec lo hi c :
  in_range lo hi c = true → lo ≤ digit_val c ≤ hi.
Proof.
  unfold in_range. intros H.
  apply andb_prop in H as [H H2]. apply andb_prop in H as [_ H1].
  apply Z.leb_le in H1, H2. lia.
Qed.

Lemma is_digit_spec c : is_digit c = true → 0 ≤ digit_val c ≤ 9.
Proof.
  unfold is_digit, digit_val. intros H.
  apply andb_prop in H as [H1 H2]. apply Z.leb_le in H1, H2. lia.
Qed.

Lemma match_Y_range s y r : match_Y s = Some (y, r) → 0 ≤ y ≤ 9999.
Proof.
  unfold match_Y. destruct s as [|a [|b [|c [|d s]]]]; try discriminate.
  destruct (is_digit a) eqn:Ea; [|discriminate].
  destruct (is_digit b) eqn:Eb; [|discriminate].
  destruct (is_digit c) eqn:Ec; [|discriminate].
  destruct (is_digit d) eqn:Ed; [|discriminate].
  apply is_digit_spec in Ea, Eb, Ec, Ed. cbn [andb]. intros [= <- _]. lia.
Qed.

Lemma match_m_range s m r : match_m s = Some (m, r) → 1 ≤ m ≤ 12.
Proof.
  unfold match_m. destruct s as [|a [|b s]]; try discriminate.
  - destruct (in_range 1 9 a) eqn:E; [|discriminate].
    apply in_range_spec in E. intros [= <- _]. lia.
  - destruct (is_char "1" a && in_range 0 2 b) eqn:E1.
    { apply andb_prop in E1 as [_ E1]. apply in_range_spec in E1.
      intros [= <- _]. lia. }
    destruct (is_char "0" a && in_range 1 9 b) eqn:E2.
    { apply andb_prop in E2 as [_ E2]. apply in_range_spec in E2.
      intros [= <- _]. lia. }
    destruct (in_range 1 9 a) eqn:E3; [|discriminate].
    apply in_range_spec in E3. intros [= <- _]. lia.
Qed.

Lemma strptime_range s d : strptime s = Ok d → MINORD ≤ d ≤ MAXORD.
Proof.
  unfold strptime, parse_ymd.
  destruct (match_Y _) as [[y r1]|] eqn:EY; [|discriminate].
  cbn [mbind option_bind].
  destruct (match_dash r1) as [r2|]; [|discriminate].
  cbn [mbind option_bind].
  destruct (match_m r2) as [[m r3]|] eqn:EM; [|discriminate].
  cbn [mbind option_bind].
  destruct (match_dash r3) as [r4|]; [|discriminate].
  cbn [mbind option_bind].
  destruct (match_d r4) as [[dd [|x r5]]|] eqn:ED; try discriminate.
  cbn [mbind option_bind].
  destruct (Z.leb_spec 1 y); [|discriminate].
  destruct (Z.leb_spec dd (days_in_month y m)); [|discriminate].
  cbn [andb]. intros [= <-].
  apply match_Y_range in EY. apply match_m_range in EM.
  assert (1 ≤ dd).
  { unfold match_d in ED. destruct r4 as [|a [|b s']]; try discriminate.
    - destruct (in_range 1 9 a) eqn:E; [|discriminate].
      apply in_range_spec in E. injection ED as <-. lia.
    - destruct (is_char "3" a && in_range 0 1 b) eqn:E1.
      { apply andb_prop in E1 as [_ E1]. apply in_range_spec in E1.
        injection ED as <- _. lia. }
      destruct (in_range 1 2 a && is_digit b) eqn:E2.
      { apply andb_prop in E2 as [E2 E2']. apply in_range_spec in E2.
        apply is_digit_spec in E2'. injection ED as <- _. lia. }
      destruct (is_char "0" a && in_range 1 9 b) eqn:E3.
      { apply andb_prop in E3 as [_ E3]. apply in_range_spec in E3.
        injection ED as <- _. lia. }
      destruct (in_range 1 9 a) eqn:E4.
      { apply in_range_spec in E4. injection ED as <- _. lia. }
      destruct (is_char " " a && in_range 1 9 b) eqn:E5; [|discriminate].
      apply andb_prop in E5 as [_ E5]. apply in_range_spec in E5.
      injection ED as <- _. lia. }
  apply ymd2ord_range; lia.
Qed.

(** ** The rows of a schedule, by position *)

Lemma build_schedule_rows cfg rows :
  build_schedule cfg = Ok rows →
  ∃ start end_ peak1_str peak1 peak2,
    strptime (season_start cfg) = Ok start ∧
    strptime (season_end cfg) = Ok end_ ∧
    indoor_peak_dates (peaks cfg) !! 0%nat = Some peak1_str ∧
    strptime peak1_str = Ok peak1 ∧
    strptime (outdoor_peak_date (peaks cfg)) = Ok peak2 ∧
    length rows = length (date_range start end_) ∧
    ∀ (k : nat) row, rows !! k = Some row →
      ∃ w, date_range start end_ !! k = Some w ∧
        make_row cfg k w (phase_for (phase_table start end_ peak1 peak2) w)
        = Ok row.
Proof.
  intros H.
  destruct (build_schedule_inv _ _ H)
    as (start & end_ & p1s & peak1 & peak2 & Hs & He & Hp & Hp1 & Hp2 & _
        & Hrows).
  destruct (rows_from_covered _ _ _ _ _
              (date_range_covered start end_ peak1 peak2) Hrows)
    as [Hlen Hlookup].
  exists start, end_, p1s, peak1, peak2. do 5 (split; [assumption|]).
  split; [exact Hlen|]. intros k row Hk.
  assert (Hlt : (k < length (date_range start end_))%nat).
  { rewrite <- Hlen. by apply lookup_lt_Some in Hk. }
  apply lookup_lt_is_Some in Hlt as [w Hw].
  destruct (Hlookup k w Hw) as (row' & Hk' & Hmk).
  rewrite Hk in Hk'. injection Hk' as <-. exists w. auto.
Qed.

Lemma date_range_lookup_inj start end_ (j k : nat) d :
  date_range start end_ !! j = Some d → date_range start end_ !! k = Some d →
  j = k.
Proof.
  intros Hj Hk. apply date_range_lookup in Hj, Hk. lia.
Qed.

Lemma date_range_length start end_ :
  length (date_range start end_)
  = if first_monday start <=? end_
    then Z.to_nat ((end_ - first_monday start) / 7 + 1) else 0%nat.
Proof.
  unfold date_range. destruct (first_monday start <=? end_); [|reflexivity].
  by rewrite length_fmap, length_seqZ.
Qed.

(** Property X3.  The week labels are dates in the format of the
    configuration: the label of the row at position [k] is read back by
    [strptime(_, "%Y-%m-%d")] as the [k]-th Monday of the season, and no
    two rows have the same label.  The season starts in a year of four
    digits, which [strftime] writes in full on every platform. *)
Theorem week_labels_parse_back cfg rows start end_ :
  build_schedule cfg = Ok rows →
  strptime (season_start cfg) = Ok start →
  strptime (season_end cfg) = Ok end_ →
  ymd2ord 1000 1 1 ≤ start →
  (∀ (k : nat) row, rows !! k = Some row →
     ∃ w, strptime (Week_of row) = Ok w ∧
          date_range start end_ !! k = Some w ∧
          start ≤ w ≤ end_ ∧ weekday w = 0) ∧
  NoDup (Week_of <$> rows).
Proof.
  intros H Hs He Hy.
  destruct (build_schedule_rows _ _ H)
    as (start' & end' & p1s & peak1 & peak2 & Hs' & He' & _ & _ & _ & Hlen
        & Hrow).
  rewrite Hs in Hs'. rewrite He in He'.
  injection Hs' as <-. injection He' as <-.
  pose proof (strptime_range _ _ Hs) as Rs.
  pose proof (strptime_range _ _ He) as Re.
  assert (Hpos : ∀ (k : nat) row, rows !! k = Some row →
            ∃ w, Week_of row = strftime w ∧
                 date_range start end_ !! k = Some w ∧
                 start ≤ w ≤ end_ ∧ weekday w = 0).
  { intros k row Hk. destruct (Hrow k row Hk) as (w & Hw & Hmk).
    exists w. destruct (make_row_inv _ _ _ _ _ Hmk) as (-> & _).
    split; [reflexivity|]. split; [exact Hw|].
    apply elem_of_date_range. apply list_elem_of_lookup. eauto. }
  split.
  - intros k row Hk. destruct (Hpos k row Hk) as (w & -> & Hw & Hin & Hwd).
    exists w. split; [apply strptime_strftime; lia | auto].
  - apply NoDup_alt. intros i j label Hi Hj.
    rewrite list_lookup_fmap in Hi, Hj.
    apply fmap_Some in Hi as (ri & Hi & ->).
    apply fmap_Some in Hj as (rj & Hj & Heq).
    destruct (Hpos i ri Hi) as (wi & Ei & Hwi & Hini & _).
    destruct (Hpos j rj Hj) as (wj & Ej & Hwj & Hinj & _).
    rewrite Ei, Ej in Heq. apply strftime_inj in Heq; [|lia|lia].
    subst wj. by apply (date_range_lookup_inj start end_ i j wi).
Qed.

(** X3 on the season of one week. *)
Lemma week_labels_parse_back_witness :
  build_schedule one_week_cfg = Ok [one_week_row] ∧
  ymd2ord 1000 1 1 ≤ 739663 ∧
  NoDup (Week_of <$> [one_week_row]).
Proof.
  assert (H : build_schedule one_week_cfg = Ok [one_week_row])
    by (vm_compute; reflexivity).
  assert (Hs : strptime (season_start one_week_cfg) = Ok 739663)
    by (vm_compute; reflexivity).
  assert (He : strptime (season_end one_week_cfg) = Ok 739669)
    by (vm_compute; reflexivity).
  assert (Hy : ymd2ord 1000 1 1 ≤ 739663) by (vm_compute; discriminate).
  split; [exact H|]. split; [exact Hy|].
  exact (proj2 (week_labels_parse_back _ _ _ _ H Hs He Hy)).
Defined.

(** Property X2.  The number of rows is the number of Mondays of the
    season: with [m] the first Monday on or after the season start,
    there are [(end - m) div 7 + 1] rows when [m] is not after the
    season end and none otherwise.  A season of [n] days has between
    [n div 7] and [(n + 6) div 7] rows, and a season that ends before
    it starts has no row. *)
Theorem week_count cfg rows start end_ :
  build_schedule cfg = Ok rows →
  strptime (season_start cfg) = Ok start →
  strptime (season_end cfg) = Ok end_ →
  Z.of_nat (length rows)
  = (if first_monday start <=? end_
     then (end_ - first_monday start) / 7 + 1 else 0) ∧
  (start ≤ end_ + 1 →
   (end_ - start + 1) / 7 ≤ Z.of_nat (length rows)
   ≤ (end_ - start + 1 + 6) / 7) ∧
  (end_ < start → rows = []).
Proof.
  intros H Hs He.
  destruct (build_schedule_rows _ _ H)
    as (start' & end' & p1s & peak1 & peak2 & Hs' & He' & _ & _ & _ & Hlen
        & _).
  rewrite Hs in Hs'. rewrite He in He'.
  injection Hs' as <-. injection He' as <-.
  rewrite date_range_length in Hlen.
  destruct (first_monday_spec start) as [Hf _].
  set (m := first_monday start) in *. clearbody m.
  destruct (Z.leb_spec m end_) as [Hle|Hgt].
  - assert (0 ≤ (end_ - m) / 7) by (apply Z.div_pos; lia).
    rewrite Hlen, Z2Nat.id by lia. split; [reflexivity|].
    split; [|lia]. intros _.
    pose proof (Z.div_mod (end_ - m) 7 ltac:(lia)).
    pose proof (Z.mod_pos_bound (end_ - m) 7 ltac:(lia)).
    pose proof (Z.div_mod (end_ - start + 1) 7 ltac:(lia)).
    pose proof (Z.mod_pos_bound (end_ - start + 1) 7 ltac:(lia)).
    pose proof (Z.div_mod (end_ - start + 1 + 6) 7 ltac:(lia)).
    pose proof (Z.mod_pos_bound (end_ - start + 1 + 6) 7 ltac:(lia)).
    lia.
  - rewrite Hlen. split; [reflexivity|].
    split; [|intros _; by apply length_zero_iff_nil].
    intros Hse.
    pose proof (Z.div_mod (end_ - start + 1) 7 ltac:(lia)).
    pose proof (Z.mod_pos_bound (end_ - start + 1) 7 ltac:(lia)).
    pose proof (Z.div_mod (end_ - start + 1 + 6) 7 ltac:(lia)).
    pose proof (Z.mod_pos_bound (end_ - start + 1 + 6) 7 ltac:(lia)).
    change (Z.of_nat 0) with 0. lia.
Qed.

(** X2 on the season of one week. *)
Lemma week_count_witness :
  build_schedule one_week_cfg = Ok [one_week_row] ∧
  Z.of_nat (length [one_week_row]) = (739669 - 739663) / 7 + 1.
Proof.
  assert (H : build_schedule one_week_cfg = Ok [one_week_row])
    by (vm_compute; reflexivity).
  assert (Hs : strptime (season_start one_week_cfg) = Ok 739663)
    by (vm_compute; reflexivity).
  assert (He : strptime (season_end one_week_cfg) = Ok 739669)
    by (vm_compute; reflexivity).
  split; [exact H|].
  exact (proj1 (week_count _ _ _ _ H Hs He)).
Defined.

(** ** The focus and the volume modifier of a row *)

Lemma build_schedule_phase_name cfg rows row :
  build_schedule cfg = Ok rows → row ∈ rows →
  Phase row ∈ phase_names ∧
  Focus row = focus_of DEFAULT_PHASES (Phase row) ∧
  Volume_modifier row = vol_mod_of cfg (Phase row).
Proof.
  intros H Hin.
  destruct (build_schedule_row _ _ _ H Hin)
    as (start & end_ & peak1 & peak2 & k & w & _ & _ & _ & Hph & Hne & Hrow).
  destruct (make_row_inv _ _ _ _ _ Hrow) as (_ & _ & Hfocus & Hvol & _).
  split; [|auto].
  destruct (phase_for_table_name start end_ peak1 peak2 w) as [He | Hn].
  - rewrite <- Hph in He. rewrite He in Hne. discriminate Hne.
  - by rewrite Hph.
Qed.

(** Property X6.  The phase and the focus of every row are a pair of
    [DEFAULT_PHASES]: the names of the phase list of the builder are
    those of the table, so the default of the lookup, the empty string,
    never appears in the Focus column. *)
Theorem focus_matches_phase cfg rows row :
  build_schedule cfg = Ok rows → row ∈ rows →
  (Phase row, Focus row) ∈ DEFAULT_PHASES ∧ Focus row ≠ EmptyString.
Proof.
  intros H Hin.
  destruct (build_schedule_phase_name _ _ _ H Hin) as (Hname & -> & _).
  revert Hname. generalize (Phase row). intros name Hname.
  unfold phase_names, phase_table in Hname. simpl in Hname.
  repeat (apply elem_of_cons in Hname as [-> | Hname];
          [split; [unfold DEFAULT_PHASES; cbn; repeat constructor
                  | discriminate]|]).
  by apply elem_of_nil in Hname.
Qed.

(** X6 on the season of one week. *)
Lemma focus_matches_phase_witness :
  build_schedule one_week_cfg = Ok [one_week_row] ∧
  (Phase one_week_row, Focus one_week_row) ∈ DEFAULT_PHASES.
Proof.
  assert (H : build_schedule one_week_cfg = Ok [one_week_row])
    by (vm_compute; reflexivity).
  split; [exact H|].
  apply (focus_matches_phase one_week_cfg [one_week_row] one_week_row H).
  constructor.
Defined.

Lemma round_base_values :
  PyFloat.round (0.9 * 1.0)%float 2 = 0.9%float ∧
  PyFloat.round (0.9 * 0.95)%float 2 = 0.85%float ∧
  PyFloat.round (1.0 * 1.0)%float 2 = 1.0%float ∧
  PyFloat.round (1.0 * 0.95)%float 2 = 0.95%float.
Proof. repeat split; vm_compute; reflexivity. Qed.

(** Property X7.  The volume modifier of a row is one of six numbers,
    0.4, 0.5, 0.85, 0.9, 0.95 and 1.0, whatever numbers, integers or
    floats, the configuration gives for the age and the commute
    distance; it lies between 0.4 and 1. *)
Theorem volume_modifier_values cfg rows row :
  build_schedule cfg = Ok rows → row ∈ rows →
  Volume_modifier row
    ∈ [0.4%float; 0.5%float; 0.85%float; 0.9%float; 0.95%float; 1.0%float]
  ∧ PrimFloat.leb 0.4 (Volume_modifier row) = true
  ∧ PrimFloat.leb (Volume_modifier row) 1 = true.
Proof.
  intros H Hin.
  destruct (build_schedule_phase_name _ _ _ H Hin) as (_ & _ & ->).
  destruct round_base_values as (R1 & R2 & R3 & R4).
  unfold vol_mod_of, commute_factor, age_factor.
  destruct (number_ge _ 30), (number_ge _ 16);
    rewrite ?R1, ?R2, ?R3, ?R4;
    destruct (str_in "Taper" _), (str_in "Transition" _),
      (str_in "Post-season" _); cbn [orb];
    (split; [repeat constructor | split; vm_compute; reflexivity]).
Qed.

(** X7 on the season of one week. *)
Lemma volume_modifier_values_witness :
  build_schedule one_week_cfg = Ok [one_week_row] ∧
  PrimFloat.leb 0.4 (Volume_modifier one_week_row) = true.
Proof.
  assert (H : build_schedule one_week_cfg = Ok [one_week_row])
    by (vm_compute; reflexivity).
  split; [exact H|].
  apply (volume_modifier_values one_week_cfg [one_week_row] one_week_row H).
  constructor.
Defined.

(** ** The weekday cells of a row *)

Lemma row_cell_at cfg rows (k : nat) row day :
  build_schedule cfg = Ok rows → rows !! k = Some row → day ∈ DAYS →
  ∃ text, select day k = Ok text ∧
    row_cells row !! day
    = Some (with_prefix
              (cell_prefix (default empty_schedule (schedule cfg)) day) text).
Proof.
  intros H Hk Hday.
  destruct (build_schedule_rows _ _ H)
    as (start & end_ & p1s & peak1 & peak2 & _ & _ & _ & _ & _ & _ & Hrow).
  destruct (Hrow k row Hk) as (w & _ & Hmk).
  destruct (make_row_inv _ _ _ _ _ Hmk) as (_ & _ & _ & _ & Hcells).
  destruct (Hcells day Hday) as (c & Hc & Hcell).
  apply day_cell_Ok in Hcell as (base & Hb & ->). eauto.
Qed.

Lemma row_cells_eq r1 r2 :
  (∀ day, day ∈ DAYS → row_cells r1 !! day = row_cells r2 !! day) →
  Mon r1 = Mon r2 ∧ Tue r1 = Tue r2 ∧ Wed r1 = Wed r2 ∧ Thu r1 = Thu r2 ∧
  Fri r1 = Fri r2 ∧ Sat r1 = Sat r2 ∧ Sun r1 = Sun r2.
Proof.
  intros Hall.
  destruct (row_cells_lookup r1) as (A1 & A2 & A3 & A4 & A5 & A6 & A7).
  destruct (row_cells_lookup r2) as (B1 & B2 & B3 & B4 & B5 & B6 & B7).
  repeat split.
  all: match goal with |- ?f ?a = ?f _ =>
         match goal with
         | Ha : row_cells a !! ?d = Some (f a) |- _ =>
             let Hd := fresh "Hd" in
             assert (Hd : d ∈ DAYS) by (unfold DAYS; repeat constructor);
             specialize (Hall d Hd); congruence
         end
       end.
Qed.

(** Property X8.  The weekday cells of a schedule repeat every four
    weeks: the rows at the positions [k] and [k + 4] have the same seven
    cells. *)
Theorem cells_repeat_every_four_weeks cfg rows (k : nat) r1 r2 :
  build_schedule cfg = Ok rows →
  rows !! k = Some r1 → rows !! (k + 4)%nat = Some r2 →
  Mon r1 = Mon r2 ∧ Tue r1 = Tue r2 ∧ Wed r1 = Wed r2 ∧ Thu r1 = Thu r2 ∧
  Fri r1 = Fri r2 ∧ Sat r1 = Sat r2 ∧ Sun r1 = Sun r2.
Proof.
  intros H H1 H2. apply row_cells_eq. intros day Hday.
  destruct (row_cell_at _ _ _ _ _ H H1 Hday) as (t1 & Ht1 & ->).
  destruct (row_cell_at _ _ _ _ _ H H2 Hday) as (t2 & Ht2 & ->).
  unfold select in *. rewrite mod4_add4 in Ht2. congruence.
Qed.

(** X8 on the first and the fifth week of
    the scenario. *)
Lemma cells_repeat_every_four_weeks_witness :
  ∃ rows r1 r2, build_schedule scenario_cfg = Ok rows ∧
    rows !! 0%nat = Some r1 ∧ rows !! 4%nat = Some r2 ∧ Thu r1 = Thu r2.
Proof.
  destruct (rows_from_total scenario_cfg
              (phase_table 739495 739798 739668 739795) 0
              (date_range 739495 739798)) as [rows Hrows].
  assert (H : build_schedule scenario_cfg = Ok rows).
  { rewrite <- Hrows.
    apply (build_schedule_Ok scenario_cfg 739495 739798 "2026-02-21"
             739668 739795); try (vm_compute; reflexivity);
      unfold MINORD, MAXORD; lia. }
  destruct (rows_from_covered _ _ _ _ _
              (date_range_covered 739495 739798 739668 739795) Hrows)
    as [_ Hlookup].
  destruct (Hlookup 0%nat 739495 eq_refl) as (r1 & H1 & _).
  destruct (Hlookup 4%nat 739523 eq_refl) as (r2 & H2 & _).
  exists rows, r1, r2. split; [exact H|]. split; [exact H1|].
  split; [exact H2|].
  apply (cells_repeat_every_four_weeks scenario_cfg rows 0 r1 r2 H H1 H2).
Defined.

(** Property X9.  With a schedule mode that is neither "manual" nor
    "auto", so also without a mode, where it is "none", and without a
    schedule at all, every weekday cell is the bare rotation text
    although the time prefix is switched on by default. *)
Theorem other_mode_bare_rotation cfg rows :
  build_schedule cfg = Ok rows →
  default "none" (mode (default empty_schedule (schedule cfg))) ≠ "manual" →
  default "none" (mode (default empty_schedule (schedule cfg))) ≠ "auto" →
  ∀ (k : nat) row, rows !! k = Some row →
    select "Mon" k = Ok (Mon row) ∧ select "Tue" k = Ok (Tue row) ∧
    select "Wed" k = Ok (Wed row) ∧ select "Thu" k = Ok (Thu row) ∧
    select "Fri" k = Ok (Fri row) ∧ select "Sat" k = Ok (Sat row) ∧
    select "Sun" k = Ok (Sun row).
Proof.
  intros H Hm Ha k row Hk.
  assert (Hday : ∀ day, day ∈ DAYS →
            ∃ c, row_cells row !! day = Some c ∧ select day k = Ok c).
  { intros day Hd.
    destruct (row_cell_at _ _ _ _ _ H Hk Hd) as (text & Ht & Hc).
    exists text. split; [|exact Ht]. rewrite Hc. f_equal.
    unfold cell_prefix.
    rewrite (eqb_neq_false _ _ Hm), (eqb_neq_false _ _ Ha).
    by destruct (default true _). }
  repeat split.
  all: match goal with |- select ?d _ = _ =>
         let Hd := fresh "Hd" in
         assert (Hd : d ∈ DAYS) by (unfold DAYS; repeat constructor);
         destruct (Hday d Hd) as (c & Hc & ->);
         destruct (row_cells_lookup row)
           as (L1 & L2 & L3 & L4 & L5 & L6 & L7);
         congruence end.
Qed.

(** X9 on a configuration without a schedule. *)
Lemma other_mode_bare_rotation_witness :
  ∃ rows row, build_schedule no_schedule_cfg = Ok rows ∧
    rows !! 0%nat = Some row ∧
    select "Thu" 0 = Ok (Thu row).
Proof.
  assert (H : build_schedule no_schedule_cfg = Ok [one_week_row])
    by (vm_compute; reflexivity).
  exists [one_week_row], one_week_row. split; [exact H|].
  split; [reflexivity|].
  apply (other_mode_bare_rotation no_schedule_cfg _ H); [discriminate..|].
  reflexivity.
Defined.

(** ** The manual schedule *)

Lemma append_nonempty a b : nonempty b = true → nonempty (a +:+ b) = true.
Proof. intros H. destruct a; [exact H | reflexivity]. Qed.

Lemma append_assoc (a b c : string) : (a +:+ b) +:+ c = a +:+ (b +:+ c).
Proof.
  induction a as [|x a IH]; [reflexivity|].
  cbv [append]. fold append. by rewrite IH.
Qed.

Lemma time_prefix_manual_join slots :
  _time_prefix_manual slots = join " + " (slot_text <$> slots).
Proof. reflexivity. Qed.

Lemma manual_cell sc day text :
  mode sc = Some "manual" → include_time_prefix sc ≠ Some false →
  with_prefix (cell_prefix sc day) text
  = match default [] (default ∅ (slots sc) !! day) with
    | [] => text
    | s :: rest => join " + " (slot_text <$> s :: rest) +:+ " — " +:+ text
    end.
Proof.
  intros Hmode Hon. unfold cell_prefix.
  rewrite Hmode. cbn [from_option id].
  replace (String.eqb "manual" "manual") with true by reflexivity.
  assert (Hinc : default true (include_time_prefix sc) = true).
  { destruct (include_time_prefix sc) as [[|]|]; [reflexivity| |reflexivity].
    by destruct Hon. }
  rewrite Hinc.
  destruct (default [] (default ∅ (slots sc) !! day)) as [|s rest];
    [reflexivity|].
  rewrite time_prefix_manual_join. unfold with_prefix.
  rewrite append_nonempty by reflexivity.
  by rewrite append_assoc.
Qed.

(** Property X10.  In the mode "manual", with the time prefix not
    switched off, the cell of a weekday that has no slot list, or an
    empty one, is the bare rotation text; the cell of a weekday with
    slots is the texts "start-end @ location" of its slots joined by
    " + ", then " — ", then the rotation text, where a key a slot
    lacks counts as the empty string. *)
Theorem manual_mode_cells cfg sc rows :
  schedule cfg = Some sc → mode sc = Some "manual" →
  include_time_prefix sc ≠ Some false →
  build_schedule cfg = Ok rows →
  ∀ (k : nat) row day, rows !! k = Some row → day ∈ DAYS →
    ∃ text, select day k = Ok text ∧
      row_cells row !! day
      = Some match default [] (default ∅ (slots sc) !! day) with
             | [] => text
             | s :: rest =>
                 join " + " (slot_text <$> s :: rest) +:+ " — " +:+ text
             end.
Proof.
  intros Hsc Hmode Hon H k row day Hk Hday.
  destruct (row_cell_at _ _ _ _ _ H Hk Hday) as (text & Ht & Hc).
  exists text. split; [exact Ht|]. rewrite Hc, Hsc. cbn [from_option id].
  by rewrite manual_cell.
Qed.

(** X10 on a week with two slots on Thursday. *)
Lemma manual_mode_cells_witness :
  ∃ rows row, build_schedule manual_cfg = Ok rows ∧
    rows !! 0%nat = Some row ∧
    row_cells row !! "Thu"
    = Some "16:30-18:15 @ Papendal + 20:00- @  — Key session: special endurance / race sim" ∧
    row_cells row !! "Sun" = Some "Rest / Competition".
Proof.
  destruct (build_schedule manual_cfg) as [rows|] eqn:H;
    [|vm_compute in H; discriminate H].
  destruct (rows !! 0%nat) as [row|] eqn:Hk;
    [|vm_compute in H; injection H as <-; discriminate Hk].
  exists rows, row. split; [reflexivity|]. split; [exact Hk|].
  assert (Hthu : "Thu" ∈ DAYS) by (unfold DAYS; repeat constructor).
  assert (Hsun : "Sun" ∈ DAYS) by (unfold DAYS; repeat constructor).
  assert (Hon : include_time_prefix
                  (default empty_schedule (schedule manual_cfg))
                ≠ Some false) by discriminate.
  destruct (manual_mode_cells manual_cfg _ rows eq_refl eq_refl Hon H
              0%nat row "Thu" Hk Hthu) as (t1 & Ht1 & ->).
  destruct (manual_mode_cells manual_cfg _ rows eq_refl eq_refl Hon H
              0%nat row "Sun" Hk Hsun) as (t2 & Ht2 & ->).
  vm_compute in Ht1. injection Ht1 as <-.
  vm_compute in Ht2. injection Ht2 as <-.
  split; vm_compute; reflexivity.
Defined.

(** ** The automatic schedule *)

(** Property X11.  The automatic mode puts a prefix on as many weekdays
    as there are sessions in the week for 4, 5 and 6 sessions, and on
    five weekdays, Monday to Friday, for every other number of sessions;
    Sunday never gets one. *)
Theorem auto_prefixed_days (n : Z) :
  Z.of_nat (length (List.filter (λ day, nonempty (_time_prefix_auto day n))
                      DAYS))
  = (if bool_decide (n ∈ [4; 5; 6]) then n else 5) ∧
  (bool_decide (n ∈ [4; 5; 6]) = false →
   List.filter (λ day, nonempty (_time_prefix_auto day n)) DAYS
   = ["Mon"; "Tue"; "Wed"; "Thu"; "Fri"]) ∧
  _time_prefix_auto "Sun" n = EmptyString.
Proof.
  destruct (decide (n = 4)) as [->|H4]; [vm_compute; (split; [reflexivity|split; [discriminate|reflexivity]])|].
  destruct (decide (n = 5)) as [->|H5]; [vm_compute; (split; [reflexivity|split; [discriminate|reflexivity]])|].
  destruct (decide (n = 6)) as [->|H6]; [vm_compute; (split; [reflexivity|split; [discriminate|reflexivity]])|].
  assert (Hn : bool_decide (n ∈ [4; 5; 6]) = false).
  { apply bool_decide_eq_false. rewrite !elem_of_cons, elem_of_nil. tauto. }
  rewrite Hn. unfold _time_prefix_auto.
  rewrite (templates_lookup_None n H4 H5 H6). cbn [from_option id].
  vm_compute. auto.
Qed.

(** X11 on three sessions a week. *)
Lemma auto_prefixed_days_witness :
  bool_decide (3 ∈ [4; 5; 6]) = false ∧
  List.filter (λ day, nonempty (_time_prefix_auto day 3)) DAYS
  = ["Mon"; "Tue"; "Wed"; "Thu"; "Fri"].
Proof.
  split; [reflexivity|].
  apply (proj1 (proj2 (auto_prefixed_days 3))). reflexivity.
Defined.

(** ** The outcome of the builder *)

Lemma strptime_Raise s e : strptime s = Raise e → e = ValueError.
Proof.
  unfold strptime. destruct (parse_ymd s) as [[[y m] d]|]; [|congruence].
  destruct (_ && _); congruence.
Qed.

Lemma add_days_cases d k :
  add_days d k = Ok (d + k) ∨ add_days d k = Raise OverflowError.
Proof. unfold add_days. destruct (_ && _); auto. Qed.

Lemma phases_cfg_Raise start end_ peak1 peak2 e :
  phases_cfg start end_ peak1 peak2 = Raise e → e = OverflowError.
Proof.
  unfold phases_cfg, sub_days.
  repeat match goal with
  | |- context [add_days ?d ?k ≫= _] =>
      destruct (add_days_cases d k) as [-> | ->]; cbn [mbind result_bind];
      [|congruence]
  end.
  discriminate.
Qed.

Lemma phases_cfg_cases start end_ peak1 peak2 :
  phases_cfg start end_ peak1 peak2 = Ok (phase_table start end_ peak1 peak2)
  ∧ peaks_in_range peak1 peak2 = true
  ∨ phases_cfg start end_ peak1 peak2 = Raise OverflowError
  ∧ peaks_in_range peak1 peak2 = false.
Proof.
  destruct (phases_cfg start end_ peak1 peak2) as [ps|e] eqn:E.
  - left. apply phases_cfg_inv in E as (-> & H1 & H2). split; [reflexivity|].
    unfold peaks_in_range.
    destruct (Z.leb_spec (MINORD + 84) peak1); [|lia].
    destruct (Z.leb_spec peak1 (MAXORD - 15)); [|lia].
    destruct (Z.leb_spec (MINORD + 49) peak2); [|lia].
    destruct (Z.leb_spec peak2 (MAXORD - 1)); [reflexivity|lia].
  - right. rewrite (phases_cfg_Raise _ _ _ _ _ E). split; [reflexivity|].
    unfold peaks_in_range.
    destruct (Z.leb_spec (MINORD + 84) peak1); [|reflexivity].
    destruct (Z.leb_spec peak1 (MAXORD - 15)); [|reflexivity].
    destruct (Z.leb_spec (MINORD + 49) peak2); [|reflexivity].
    destruct (Z.leb_spec peak2 (MAXORD - 1)); [|reflexivity].
    rewrite phases_cfg_Ok in E by lia. discriminate E.
Qed.

(** Property X1.  The outcome of [build_schedule], in the order of its
    steps: a season start, then a season end, that [strptime] rejects
    raises [ValueError]; with a season inside the range of the pandas
    timestamps, an empty list of indoor peak dates raises [IndexError],
    a first indoor peak date, then an outdoor peak date, that [strptime]
    rejects raises [ValueError], peak dates whose offsets leave the
    calendar raise [OverflowError], and otherwise the builder returns
    one row for each Monday of the season. *)
Theorem build_schedule_outcome cfg :
  (∀ e, strptime (season_start cfg) = Raise e →
     build_schedule cfg = Raise ValueError) ∧
  (∀ start e, strptime (season_start cfg) = Ok start →
     strptime (season_end cfg) = Raise e →
     build_schedule cfg = Raise ValueError) ∧
  (∀ start end_, strptime (season_start cfg) = Ok start →
     strptime (season_end cfg) = Ok end_ →
     timestamp_day start → timestamp_day end_ →
     match indoor_peak_dates (peaks cfg) with
     | [] => build_schedule cfg = Raise IndexError
     | peak1_str :: _ =>
         match strptime peak1_str,
               strptime (outdoor_peak_date (peaks cfg)) with
         | Raise _, _ => build_schedule cfg = Raise ValueError
         | Ok _, Raise _ => build_schedule cfg = Raise ValueError
         | Ok peak1, Ok peak2 =>
             if peaks_in_range peak1 peak2
             then ∃ rows, build_schedule cfg = Ok rows ∧
                    length rows = length (date_range start end_)
             else build_schedule cfg = Raise OverflowError
         end
     end).
Proof.
  split; [|split].
  - intros e He. unfold build_schedule. rewrite He.
    by rewrite (strptime_Raise _ _ He).
  - intros start e Hs He. unfold build_schedule. rewrite Hs, He.
    by rewrite (strptime_Raise _ _ He).
  - intros start end_ Hs He _ _. unfold build_schedule. rewrite Hs, He.
    cbn [mbind result_bind].
    destruct (indoor_peak_dates (peaks cfg)) as [|peak1_str rest];
      [reflexivity|].
    cbn [lookup list_lookup or_raise mbind result_bind].
    destruct (strptime peak1_str) as [peak1|e1] eqn:E1;
      [|by rewrite (strptime_Raise _ _ E1)].
    cbn [mbind result_bind].
    destruct (strptime (outdoor_peak_date (peaks cfg))) as [peak2|e2] eqn:E2;
      [|by rewrite (strptime_Raise _ _ E2)].
    cbn [mbind result_bind].
    destruct (phases_cfg_cases start end_ peak1 peak2) as [[-> ->] | [-> ->]];
      [|reflexivity].
    cbn [mbind result_bind].
    destruct (rows_from_total cfg (phase_table start end_ peak1 peak2) 0
                (date_range start end_)) as [rows Hrows].
    exists rows. split; [exact Hrows|].
    by destruct (rows_from_covered _ _ _ _ _
                   (date_range_covered start end_ peak1 peak2) Hrows).
Qed.

(** X1 on a season without an indoor peak
    date. *)
Lemma build_schedule_outcome_witness :
  strptime (season_start no_peak_cfg) = Ok 739663 ∧
  strptime (season_end no_peak_cfg) = Ok 739669 ∧
  timestamp_day 739663 ∧ timestamp_day 739669 ∧
  build_schedule no_peak_cfg = Raise IndexError.
Proof.
  assert (Hs : strptime (season_start no_peak_cfg) = Ok 739663)
    by (vm_compute; reflexivity).
  assert (He : strptime (season_end no_peak_cfg) = Ok 739669)
    by (vm_compute; reflexivity).
  assert (Ts : timestamp_day 739663) by (vm_compute; split; discriminate).
  assert (Te : timestamp_day 739669) by (vm_compute; split; discriminate).
  do 4 (split; [assumption|]).
  exact (proj2 (proj2 (build_schedule_outcome no_peak_cfg)) _ _ Hs He Ts Te).
Defined.

(** ** The order of the phases *)

Lemma phase_for_index phases d :
  nonempty (phase_for phases d) = true →
  ∃ (i : nat) s e, phases !! i = Some (phase_for phases d, s, e) ∧ s ≤ d ≤ e.
Proof.
  intros Hne.
  destruct (phase_for_cases phases d)
    as [[H _] | (pre & name & s & e & post & -> & _ & Hd & Hn)].
  - rewrite H in Hne. discriminate Hne.
  - exists (length pre), s, e. rewrite Hn. split; [|exact Hd].
    by rewrite list_lookup_middle.
Qed.

Lemma phase_table_lookup start end_ peak1 peak2 (i : nat) n s e :
  phase_table start end_ peak1 peak2 !! i = Some (n, s, e) →
  phase_names !! i = Some n.
Proof.
  intros H. do 9 (destruct i as [|i]; [by injection H as <- _ _|]).
  discriminate H.
Qed.

Lemma phase_names_index (a i : nat) n :
  phase_names !! a = Some n → phase_names !! i = Some n → a = i.
Proof.
  assert (Hnd : NoDup phase_names)
    by (apply (bool_decide_unpack (NoDup phase_names)); vm_compute; exact I).
  intros Ha Hi. exact (NoDup_lookup _ _ _ _ Hnd Ha Hi).
Qed.

Lemma phase_table_ordered start end_ peak1 peak2 (i j : nat)
    n s e n' s' e' d d' :
  peak1 + 63 ≤ peak2 →
  phase_table start end_ peak1 peak2 !! i = Some (n, s, e) →
  phase_table start end_ peak1 peak2 !! j = Some (n', s', e') →
  s ≤ d ≤ e → s' ≤ d' ≤ e' → d ≤ d' → (i ≤ j)%nat.
Proof.
  intros Hp Hi Hj Hd Hd' Hle.
  do 9 (destruct i as [|i];
        [injection Hi as _ <- <-;
         do 9 (destruct j as [|j]; [injection Hj as _ <- <-; lia|]);
         discriminate Hj|]).
  discriminate Hi.
Qed.

(** Property X4.  With the outdoor peak at least 63 days after the
    indoor peak, the ranges of the nine phases are pairwise disjoint, so
    a date lies in one phase at most, and the phases of the rows never
    go back: a later row has the same phase or a later one of the list. *)
Theorem phases_in_order cfg rows start end_ peak1_str peak1 peak2 :
  build_schedule cfg = Ok rows →
  strptime (season_start cfg) = Ok start →
  strptime (season_end cfg) = Ok end_ →
  indoor_peak_dates (peaks cfg) !! 0%nat = Some peak1_str →
  strptime peak1_str = Ok peak1 →
  strptime (outdoor_peak_date (peaks cfg)) = Ok peak2 →
  peak1 + 63 ≤ peak2 →
  (∀ (i j : nat) n s e n' s' e' d,
     phase_table start end_ peak1 peak2 !! i = Some (n, s, e) →
     phase_table start end_ peak1 peak2 !! j = Some (n', s', e') →
     s ≤ d ≤ e → s' ≤ d ≤ e' → i = j) ∧
  (∀ (j k a b : nat) rj rk,
     rows !! j = Some rj → rows !! k = Some rk → (j ≤ k)%nat →
     phase_names !! a = Some (Phase rj) →
     phase_names !! b = Some (Phase rk) → (a ≤ b)%nat).
Proof.
  intros H Hs He Hp Hp1 Hp2 Hpk.
  destruct (build_schedule_rows _ _ H)
    as (start' & end' & p1s' & peak1' & peak2' & Hs' & He' & Hp' & Hp1'
        & Hp2' & _ & Hrow).
  rewrite Hs in Hs'. rewrite He in He'. rewrite Hp in Hp'.
  injection Hs' as <-. injection He' as <-. injection Hp' as <-.
  rewrite Hp1 in Hp1'. rewrite Hp2 in Hp2'.
  injection Hp1' as <-. injection Hp2' as <-.
  split.
  - intros i j n s e n' s' e' d Hi Hj Hd Hd'.
    pose proof (phase_table_ordered _ _ _ _ _ _ _ _ _ _ _ _ d d
                  Hpk Hi Hj Hd Hd' ltac:(lia)).
    pose proof (phase_table_ordered _ _ _ _ _ _ _ _ _ _ _ _ d d
                  Hpk Hj Hi Hd' Hd ltac:(lia)).
    lia.
  - intros j k a b rj rk Hj Hk Hjk Ha Hb.
    destruct (Hrow j rj Hj) as (wj & Hwj & Hmj).
    destruct (Hrow k rk Hk) as (wk & Hwk & Hmk).
    destruct (make_row_inv _ _ _ _ _ Hmj) as (_ & Hphj & _).
    destruct (make_row_inv _ _ _ _ _ Hmk) as (_ & Hphk & _).
    assert (Hcov : ∀ w, w ∈ date_range start end_ →
              nonempty (phase_for (phase_table start end_ peak1 peak2) w)
              = true).
    { apply Forall_forall, date_range_covered. }
    destruct (phase_for_index _ wj (Hcov wj ltac:(by eapply list_elem_of_lookup_2)))
      as (i & s & e & Hi & Hd).
    destruct (phase_for_index _ wk (Hcov wk ltac:(by eapply list_elem_of_lookup_2)))
      as (i' & s' & e' & Hi' & Hd').
    rewrite <- Hphj in Hi. rewrite <- Hphk in Hi'.
    rewrite (phase_names_index a i _ Ha (phase_table_lookup _ _ _ _ _ _ _ _ Hi)).
    rewrite (phase_names_index b i' _ Hb
               (phase_table_lookup _ _ _ _ _ _ _ _ Hi')).
    apply (phase_table_ordered _ _ _ _ _ _ _ _ _ _ _ _ wj wk Hpk Hi Hi' Hd Hd').
    apply date_range_lookup in Hwj, Hwk. lia.
Qed.

(** X4 on the first two weeks of the scenario. *)
Lemma phases_in_order_witness :
  739668 + 63 ≤ 739795 ∧
  ∃ rows r0 r1, build_schedule scenario_cfg = Ok rows ∧
    rows !! 0%nat = Some r0 ∧ rows !! 24%nat = Some r1 ∧
    ∀ a b : nat, phase_names !! a = Some (Phase r0) →
      phase_names !! b = Some (Phase r1) → (a ≤ b)%nat.
Proof.
  assert (Hpk : 739668 + 63 ≤ 739795) by lia.
  split; [exact Hpk|].
  destruct (rows_from_total scenario_cfg
              (phase_table 739495 739798 739668 739795) 0
              (date_range 739495 739798)) as [rows Hrows].
  assert (H : build_schedule scenario_cfg = Ok rows).
  { rewrite <- Hrows.
    apply (build_schedule_Ok scenario_cfg 739495 739798 "2026-02-21"
             739668 739795); try (vm_compute; reflexivity);
      unfold MINORD, MAXORD; lia. }
  destruct (rows_from_covered _ _ _ _ _
              (date_range_covered 739495 739798 739668 739795) Hrows)
    as [_ Hlookup].
  destruct (Hlookup 0%nat 739495 eq_refl) as (r0 & H0 & _).
  destruct (Hlookup 24%nat 739663 eq_refl) as (r1 & H1 & _).
  exists rows, r0, r1. split; [exact H|]. split; [exact H0|].
  split; [exact H1|]. intros a b Ha Hb.
  assert (Hs : strptime (season_start scenario_cfg) = Ok 739495)
    by (vm_compute; reflexivity).
  assert (He : strptime (season_end scenario_cfg) = Ok 739798)
    by (vm_compute; reflexivity).
  assert (Hp1 : strptime "2026-02-21" = Ok 739668)
    by (vm_compute; reflexivity).
  assert (Hp2 : strptime (outdoor_peak_date (peaks scenario_cfg)) = Ok 739795)
    by (vm_compute; reflexivity).
  apply (proj2 (phases_in_order scenario_cfg rows _ _ _ _ _ H Hs He eq_refl
                  Hp1 Hp2 Hpk) 0%nat 24%nat a b r0 r1 H0 H1);
    [lia | exact Ha | exact Hb].
Defined.

(** ** The week of the indoor taper *)

Lemma phase_for_taper1 start end_ peak1 peak2 d :
  peak1 - 6 ≤ d ≤ peak1 →
  phase_for (phase_table start end_ peak1 peak2) d
  = "Phase 4 - Taper & Peak 1".
Proof.
  intros Hd. unfold phase_table.
  apply (phase_for_first
           [("Phase 1 - General Prep", start, peak1 - 84);
            ("Phase 2 - Specific Prep", peak1 - 83, peak1 - 35);
            ("Phase 3 - Pre-Competition (Indoor)", peak1 - 34, peak1 - 7)]);
    [|exact Hd].
  repeat constructor; simpl; lia.
Qed.

Lemma vol_mod_of_taper1 cfg :
  vol_mod_of cfg "Phase 4 - Taper & Peak 1" = 0.5%float.
Proof.
  unfold vol_mod_of.
  replace (str_in "Taper" "Phase 4 - Taper & Peak 1") with true
    by (vm_compute; reflexivity).
  replace (str_in "Transition" "Phase 4 - Taper & Peak 1") with false
    by (vm_compute; reflexivity).
  replace (str_in "Post-season" "Phase 4 - Taper & Peak 1") with false
    by (vm_compute; reflexivity).
  reflexivity.
Qed.

(** Property X5.  When the Monday on or before the first indoor peak
    lies in the season, exactly one row has the phase
    "Phase 4 - Taper & Peak 1": the row of this Monday, with the volume
    modifier 0.5. *)
Theorem one_indoor_taper_week cfg rows start end_ peak1_str peak1 :
  build_schedule cfg = Ok rows →
  strptime (season_start cfg) = Ok start →
  strptime (season_end cfg) = Ok end_ →
  indoor_peak_dates (peaks cfg) !! 0%nat = Some peak1_str →
  strptime peak1_str = Ok peak1 →
  start ≤ peak1 - weekday peak1 ≤ end_ →
  ∃ (k : nat) row, rows !! k = Some row ∧
    Phase row = "Phase 4 - Taper & Peak 1" ∧
    Week_of row = strftime (peak1 - weekday peak1) ∧
    Volume_modifier row = 0.5%float ∧
    ∀ (k' : nat) row', rows !! k' = Some row' →
      Phase row' = "Phase 4 - Taper & Peak 1" → k' = k.
Proof.
  intros H Hs He Hp Hp1 Hseason.
  destruct (build_schedule_rows _ _ H)
    as (start' & end' & p1s' & peak1' & peak2 & Hs' & He' & Hp' & Hp1'
        & _ & Hlen & Hrow).
  rewrite Hs in Hs'. rewrite He in He'. rewrite Hp in Hp'.
  injection Hs' as <-. injection He' as <-. injection Hp' as <-.
  rewrite Hp1 in Hp1'. injection Hp1' as <-.
  set (m := peak1 - weekday peak1) in *.
  assert (Hm : peak1 - 6 ≤ m ≤ peak1 ∧ weekday m = 0).
  { unfold m, weekday.
    pose proof (Z.div_mod (peak1 + 6) 7 ltac:(lia)) as E.
    pose proof (Z.mod_pos_bound (peak1 + 6) 7 ltac:(lia)) as B.
    split; [lia|].
    replace (peak1 - (peak1 + 6) mod 7 + 6) with ((peak1 + 6) / 7 * 7) by lia.
    apply Z_mod_mult. }
  destruct Hm as [Hm Hwd].
  assert (Hin : m ∈ date_range start end_).
  { apply elem_of_date_range. split; [lia | exact Hwd]. }
  apply list_elem_of_lookup in Hin as [k Hk].
  assert (Hlt : (k < length rows)%nat).
  { rewrite Hlen. by apply lookup_lt_Some in Hk. }
  apply lookup_lt_is_Some in Hlt as [row Hrk].
  destruct (Hrow k row Hrk) as (w & Hw & Hmk).
  rewrite Hk in Hw. injection Hw as <-.
  rewrite (phase_for_taper1 _ _ _ _ _ Hm) in Hmk.
  destruct (make_row_inv _ _ _ _ _ Hmk) as (Hwk & Hph & _ & Hvol & _).
  exists k, row. split; [exact Hrk|]. split; [exact Hph|].
  split; [exact Hwk|]. split; [by rewrite Hvol, vol_mod_of_taper1|].
  intros k' row' Hrk' Hph'.
  destruct (Hrow k' row' Hrk') as (w' & Hw' & Hmk').
  destruct (make_row_inv _ _ _ _ _ Hmk') as (_ & Hph'' & _).
  rewrite Hph' in Hph''.
  assert (Hne : nonempty (phase_for (phase_table start end_ peak1 peak2) w')
                = true) by (by rewrite <- Hph'').
  destruct (phase_for_index _ _ Hne) as (i & s & e & Hi & Hd).
  rewrite <- Hph'' in Hi.
  assert (Hrange : peak1 - 6 ≤ w' ≤ peak1).
  { do 9 (destruct i as [|i];
          [first [discriminate Hi | injection Hi as <- <-; lia]|]).
    discriminate Hi. }
  assert (Hwd' : weekday w' = 0).
  { apply (elem_of_date_range start end_).
    by eapply list_elem_of_lookup_2. }
  assert (Heq : w' = m).
  { apply weekday_0_iff in Hwd as [q Hq].
    apply weekday_0_iff in Hwd' as [q' Hq']. lia. }
  rewrite Heq in Hw'.
  by apply (date_range_lookup_inj start end_ k' k m).
Qed.

(** X5 on the season of one week. *)
Lemma one_indoor_taper_week_witness :
  build_schedule one_week_cfg = Ok [one_week_row] ∧
  739663 ≤ 739668 - weekday 739668 ≤ 739669 ∧
  ∃ (k : nat) row, [one_week_row] !! k = Some row ∧
    Phase row = "Phase 4 - Taper & Peak 1".
Proof.
  assert (H : build_schedule one_week_cfg = Ok [one_week_row])
    by (vm_compute; reflexivity).
  assert (Hs : strptime (season_start one_week_cfg) = Ok 739663)
    by (vm_compute; reflexivity).
  assert (He : strptime (season_end one_week_cfg) = Ok 739669)
    by (vm_compute; reflexivity).
  assert (Hp1 : strptime "2026-02-21" = Ok 739668)
    by (vm_compute; reflexivity).
  assert (Hseason : 739663 ≤ 739668 - weekday 739668 ≤ 739669)
    by (vm_compute; split; discriminate).
  split; [exact H|]. split; [exact Hseason|].
  destruct (one_indoor_taper_week one_week_cfg _ _ _ _ _ H Hs He eq_refl Hp1
              Hseason) as (k & row & Hk & Hph & _).
  exists k, row. split; [exact Hk | exact Hph].
Defined.

(** ** The race calendar *)

Lemma taper_protocol_cells_str priority peak_type :
  taper_protocol_cells (Str priority) (Str peak_type)
  = taper_protocol priority peak_type.
Proof. reflexivity. Qed.

Lemma getitem_Ok df r c : c ∈ columns df → getitem df r c = Ok (cell_of r c).
Proof. intros H. unfold getitem. by rewrite bool_decide_eq_true_2. Qed.

Lemma getitem_Raise df r c : c ∉ columns df → getitem df r c = Raise KeyError.
Proof. intros H. unfold getitem. by rewrite bool_decide_eq_false_2. Qed.

Lemma calendar_row_present df r :
  Forall (λ c, c ∈ columns df) required_columns →
  let p := taper_protocol_cells (cell_of r "Priority (A/B/C)")
             (series_get df r "Peak type" (Str EmptyString)) in
  calendar_row df r
  = Ok {| Date := cell_of r "Date"; Meet := cell_of r "Meet";
          Priority := cell_of r "Priority (A/B/C)";
          Events := cell_of r "Events";
          Taper_Volume := Volume_change p;
          Taper_Intensity := Intensity p;
          Taper_Key_sessions := Key_sessions p;
          Taper_Strength := Strength p;
          Taper_Rest_days := Rest_days p;
          Calendar_Notes := Notes p |}.
Proof.
  unfold required_columns. intros H.
  apply Forall_cons in H as [H1 H]. apply Forall_cons in H as [H2 H].
  apply Forall_cons in H as [H3 H]. apply Forall_cons in H as [H4 _].
  cbv zeta. unfold calendar_row.
  rewrite !(getitem_Ok df r _ H1), (getitem_Ok df r _ H2),
    (getitem_Ok df r _ H3), (getitem_Ok df r _ H4).
  reflexivity.
Qed.

Lemma calendar_row_absent df r :
  Exists (λ c, c ∉ columns df) required_columns →
  calendar_row df r = Raise KeyError.
Proof.
  unfold required_columns. intros H. unfold calendar_row, getitem.
  destruct (bool_decide ("Priority (A/B/C)" ∈ _)) eqn:E1; [|reflexivity].
  destruct (bool_decide ("Date" ∈ _)) eqn:E2; [|reflexivity].
  destruct (bool_decide ("Meet" ∈ _)) eqn:E3; [|reflexivity].
  destruct (bool_decide ("Events" ∈ _)) eqn:E4; [|reflexivity].
  apply bool_decide_eq_true_1 in E1, E2, E3, E4.
  exfalso. repeat (apply Exists_cons in H as [H | H]; [done|]).
  by apply Exists_nil in H.
Qed.

Lemma columns_cases df :
  Forall (λ c, c ∈ columns df) required_columns
  ∨ Exists (λ c, c ∉ columns df) required_columns.
Proof.
  destruct (decide (Forall (λ c, c ∈ columns df) required_columns))
    as [H | H]; [by left | right].
  by apply not_Forall_Exists in H; [|apply _].
Qed.

Lemma calendar_loop_present df rs :
  Forall (λ c, c ∈ columns df) required_columns →
  ∃ out, calendar_loop df rs = Ok out ∧ length out = length rs ∧
    ∀ (k : nat) r, rs !! k = Some r →
      ∃ o, out !! k = Some o ∧ calendar_row df r = Ok o.
Proof.
  intros H. induction rs as [|r rest IH].
  - exists []. split; [reflexivity|]. split; [reflexivity|].
    intros k r Hk. discriminate Hk.
  - destruct IH as (out & Hout & Hlen & Hrows).
    pose proof (calendar_row_present df r H) as Hr. cbv zeta in Hr.
    eexists (_ :: out). cbn [calendar_loop]. rewrite Hr, Hout.
    split; [reflexivity|]. split; [simpl; by rewrite Hlen|].
    intros [|k] r' Hk; simpl in Hk.
    + injection Hk as <-. eexists. split; [reflexivity | exact Hr].
    + apply Hrows, Hk.
Qed.

Lemma calendar_loop_absent df r rest :
  Exists (λ c, c ∉ columns df) required_columns →
  calendar_loop df (r :: rest) = Raise KeyError.
Proof.
  intros H. cbn [calendar_loop]. by rewrite (calendar_row_absent df r H).
Qed.

Lemma volume_change_cells priority peak_type :
  Volume_change (taper_protocol_cells priority peak_type) = "-40% to -60%"
  ↔ priority = Str "A".
Proof.
  unfold taper_protocol_cells.
  destruct priority as [s| |]; cbn [cell_eq_str];
    [|split; discriminate..].
  destruct (String.eqb_spec s "A") as [->|HA]; [done|].
  destruct (String.eqb s "B"); simpl; split;
    (discriminate || (intros [= ->]; done)).
Qed.

(** Property X12.  The expansion of the race calendar keeps the rows and
    their order: a frame with the columns Date, Meet, Priority (A/B/C)
    and Events gives one row for each of its rows, with the cells of
    these four columns copied, a gap as NaN, and the six taper columns
    of [taper_protocol] for the priority and the peak type of the row,
    the peak type being the empty string where the frame has no column
    "Peak type" and the cell, a gap as NaN, where it has one; on
    strings these are the columns of [taper_protocol] for strings.  The
    taper volume of a row is "-40% to -60%" exactly when its priority is
    the string "A". *)
Theorem calendar_rows_expand df_cal :
  Forall (λ c, c ∈ columns df_cal) required_columns →
  ∃ out, calendar_to_excel_rows df_cal = Ok out ∧
    length out = length (records df_cal) ∧
    ∀ (k : nat) r, records df_cal !! k = Some r →
      ∃ o, out !! k = Some o ∧
        Date o = cell_of r "Date" ∧ Meet o = cell_of r "Meet" ∧
        Priority o = cell_of r "Priority (A/B/C)" ∧
        Events o = cell_of r "Events" ∧
        let taper :=
          {| Volume_change := Taper_Volume o; Intensity := Taper_Intensity o;
             Key_sessions := Taper_Key_sessions o;
             Strength := Taper_Strength o; Rest_days := Taper_Rest_days o;
             Notes := Calendar_Notes o |} in
        let peak_type :=
          if bool_decide ("Peak type" ∈ columns df_cal)
          then cell_of r "Peak type" else Str EmptyString in
        taper = taper_protocol_cells (Priority o) peak_type ∧
        (∀ p t, Priority o = Str p → peak_type = Str t →
           taper = taper_protocol p t) ∧
        (Taper_Volume o = "-40% to -60%" ↔ Priority o = Str "A").
Proof.
  intros H. unfold calendar_to_excel_rows.
  destruct (calendar_loop_present df_cal (records df_cal) H)
    as (out & Hout & Hlen & Hrows).
  exists out. split; [exact Hout|]. split; [exact Hlen|].
  intros k r Hk. destruct (Hrows k r Hk) as (o & Ho & Hrow).
  exists o. split; [exact Ho|].
  pose proof (calendar_row_present df_cal r H) as Hr. cbv zeta in Hr.
  rewrite Hr in Hrow. injection Hrow as <-.
  cbn [Date Meet Priority Events Taper_Volume Taper_Intensity
       Taper_Key_sessions Taper_Strength Taper_Rest_days Calendar_Notes].
  do 4 (split; [reflexivity|]). unfold series_get.
  set (pt := if bool_decide _ then _ else _).
  assert (E : {| Volume_change :=
                   Volume_change
                     (taper_protocol_cells (cell_of r "Priority (A/B/C)") pt);
                 Intensity :=
                   Intensity
                     (taper_protocol_cells (cell_of r "Priority (A/B/C)") pt);
                 Key_sessions :=
                   Key_sessions
                     (taper_protocol_cells (cell_of r "Priority (A/B/C)") pt);
                 Strength :=
                   Strength
                     (taper_protocol_cells (cell_of r "Priority (A/B/C)") pt);
                 Rest_days :=
                   Rest_days
                     (taper_protocol_cells (cell_of r "Priority (A/B/C)") pt);
                 Notes :=
                   Notes
                     (taper_protocol_cells (cell_of r "Priority (A/B/C)") pt)
              |} = taper_protocol_cells (cell_of r "Priority (A/B/C)") pt)
    by by destruct (taper_protocol_cells _ _).
  split; [exact E|]. split.
  - intros p t Hp Ht. rewrite E, Hp, Ht. apply taper_protocol_cells_str.
  - apply volume_change_cells.
Qed.

(** X12 on two meets of the default calendar: the second one has no
    peak type and the priority "A", and its note has the text of NaN. *)
Lemma calendar_rows_expand_witness :
  Forall (λ c, c ∈ columns two_meets) required_columns ∧
  ∃ out o, calendar_to_excel_rows two_meets = Ok out ∧ length out = 2%nat ∧
    out !! 1%nat = Some o ∧ Date o = Str "2026-02-21" ∧
    Taper_Volume o = "-40% to -60%" ∧
    Calendar_Notes o
    = "A-peak (nan): keep CNS fresh; no fatigue-dense work last 72h".
Proof.
  assert (H : Forall (λ c, c ∈ columns two_meets) required_columns).
  { unfold required_columns.
    repeat constructor; apply bool_decide_unpack; vm_compute; exact I. }
  split; [exact H|].
  destruct (calendar_rows_expand two_meets H) as (out & Hout & Hlen & Hrows).
  destruct (Hrows 1%nat _ eq_refl)
    as (o & Ho & Hd & _ & Hp & _ & Ht & _ & Hv).
  exists out, o. split; [exact Hout|]. split; [exact Hlen|].
  split; [exact Ho|]. split; [exact Hd|].
  split; [apply Hv; exact Hp|].
  rewrite Hp in Ht. exact (f_equal Notes Ht).
Defined.

(** Property X13.  The expansion of the race calendar fails exactly when
    the frame has a row and lacks one of the columns Priority (A/B/C),
    Date, Meet and Events, and then with [KeyError]; a row without a
    value in a column of the frame raises nothing.  Without rows the
    expansion gives no rows, whatever the columns of the frame are. *)
Theorem calendar_rows_missing_column df_cal :
  (calendar_to_excel_rows df_cal = Raise KeyError ↔
   records df_cal ≠ [] ∧
   Exists (λ c, c ∉ columns df_cal) required_columns) ∧
  (∀ e, calendar_to_excel_rows df_cal = Raise e → e = KeyError) ∧
  (records df_cal = [] → calendar_to_excel_rows df_cal = Ok []).
Proof.
  unfold calendar_to_excel_rows.
  destruct (columns_cases df_cal) as [Hall | Hex].
  - destruct (calendar_loop_present df_cal (records df_cal) Hall)
      as (out & Hout & _).
    rewrite Hout. split; [|split].
    + split; [discriminate|]. intros [_ Hex]. exfalso.
      apply Exists_exists in Hex as (c & Hc & Hno).
      rewrite Forall_forall in Hall. by apply Hno, Hall.
    + discriminate.
    + intros E. rewrite E in Hout. symmetry. exact Hout.
  - destruct (records df_cal) as [|r rest].
    + split; [|split]; [|discriminate|reflexivity].
      split; [discriminate | by intros [? _]].
    + rewrite (calendar_loop_absent df_cal r rest Hex).
      split; [|split]; [|by intros e [= <-]|discriminate].
      split; [by split | reflexivity].
Qed.

(** X13 on a frame without the column of the events, which fails, and
    on a frame with the column and a row without events, which does
    not. *)
Lemma calendar_rows_missing_column_witness :
  (records meet_without_events ≠ [] ∧
   Exists (λ c, c ∉ columns meet_without_events) required_columns ∧
   calendar_to_excel_rows meet_without_events = Raise KeyError) ∧
  (records meet_with_gaps !! 1%nat
   = Some (list_to_map [("Date", Str "2026-05-24"); ("Meet", PyNone);
                        ("Priority (A/B/C)", PyNone)]) ∧
   Forall (λ c, c ∈ columns meet_with_gaps) required_columns ∧
   calendar_to_excel_rows meet_with_gaps ≠ Raise KeyError).
Proof.
  split.
  - assert (Hr : records meet_without_events ≠ []) by discriminate.
    assert (H : Exists (λ c, c ∉ columns meet_without_events)
                  required_columns).
    { unfold required_columns. right. right. right. left.
      apply (bool_decide_unpack ("Events" ∉ columns meet_without_events)).
      vm_compute. exact I. }
    split; [exact Hr|]. split; [exact H|].
    exact (proj2 (proj1 (calendar_rows_missing_column meet_without_events))
             (conj Hr H)).
  - split; [reflexivity|].
    assert (H : Forall (λ c, c ∈ columns meet_with_gaps) required_columns).
    { unfold required_columns.
      repeat constructor; apply bool_decide_unpack; vm_compute; exact I. }
    split; [exact H|]. intros Hraise.
    apply (proj1 (proj1 (calendar_rows_missing_column meet_with_gaps)))
      in Hraise as [_ Hex].
    apply Exists_exists in Hex as (c & Hc & Hno).
    rewrite Forall_forall in H. by apply Hno, H.
Defined.

(** ** The plan generator *)

Lemma manual_slots_step_Ok form d ms :
  d ∈ DAYS →
  manual_slots_step form d ms
  = Ok (match manual_entry form d with
        | Some l => <[d := l]> ms
        | None => ms
        end).
Proof.
  revert d. apply DAYS_cases; unfold manual_slots_step, manual_entry;
    vm_compute (loc_defaults !! _); vm_compute (time_defaults !! _);
    cbn [or_raise mbind result_bind];
    destruct (w_add (form_day form _)); reflexivity.
Qed.

Lemma fill_manual_slots_Ok form days ms :
  Forall (λ d, d ∈ DAYS) days →
  ∃ ms', fill_manual_slots form days ms = Ok ms' ∧
    ∀ d, ms' !! d
         = if bool_decide (d ∈ days)
           then from_option Some (ms !! d) (manual_entry form d)
           else ms !! d.
Proof.
  intros Hdays. revert ms.
  induction Hdays as [|d0 rest Hd0 _ IH]; intros ms.
  - exists ms. split; [reflexivity|]. intros d.
    rewrite bool_decide_eq_false_2; [reflexivity | apply not_elem_of_nil].
  - cbn [fill_manual_slots]. rewrite (manual_slots_step_Ok _ _ _ Hd0).
    cbn [mbind result_bind].
    destruct (IH (match manual_entry form d0 with
                  | Some l => <[d0 := l]> ms
                  | None => ms
                  end)) as (ms' & -> & Hlook).
    exists ms'. split; [reflexivity|]. intros d. rewrite Hlook.
    destruct (decide (d ∈ rest)) as [Hin|Hnin].
    + rewrite !bool_decide_eq_true_2 by (rewrite ?elem_of_cons; auto).
      destruct (manual_entry form d) as [l|] eqn:E; [reflexivity|].
      cbn [from_option].
      destruct (decide (d = d0)) as [->|Hne].
      * by rewrite E.
      * destruct (manual_entry form d0); [|reflexivity].
        by rewrite lookup_insert_ne.
    + rewrite (bool_decide_eq_false_2 (d ∈ rest)) by done.
      destruct (decide (d = d0)) as [->|Hne].
      * rewrite bool_decide_eq_true_2 by left.
        destruct (manual_entry form d0) as [l|]; [|reflexivity].
        by rewrite lookup_insert_eq.
      * rewrite bool_decide_eq_false_2
          by (rewrite elem_of_cons; intros [?|?]; done).
        destruct (manual_entry form d0); [|reflexivity].
        by rewrite lookup_insert_ne.
Qed.

Lemma DAYS_all : Forall (λ d, d ∈ DAYS) DAYS.
Proof. by apply Forall_forall. Qed.

Lemma plan_cfg_Ok form :
  ∃ ms, plan_cfg form
        = Ok (make_cfg form ms
                (if String.eqb (form_schedule_mode form) "manual"
                 then 5 else form_sessions_per_week form)) ∧
    ∀ d, d ∈ DAYS →
      default [] (ms !! d)
      = if String.eqb (form_schedule_mode form) "manual"
        then default [] (manual_entry form d) else [].
Proof.
  unfold plan_cfg.
  destruct (String.eqb (form_schedule_mode form) "manual").
  - destruct (fill_manual_slots_Ok form DAYS ∅ DAYS_all) as (ms & -> & Hms).
    exists ms. split; [reflexivity|]. intros d Hd. rewrite Hms.
    rewrite bool_decide_eq_true_2 by done. rewrite lookup_empty.
    by destruct (manual_entry form d).
  - exists ∅. split; [reflexivity|].
    intros d _. by rewrite lookup_empty.
Qed.

Lemma timestamp_day_range d :
  timestamp_day d → MINORD + 84 ≤ d ≤ MAXORD - 15.
Proof.
  unfold timestamp_day, MINORD, MAXORD.
  replace (ymd2ord 1678 1 1) with 612513 by (vm_compute; reflexivity).
  replace (ymd2ord 2261 12 31) with 825813 by (vm_compute; reflexivity).
  lia.
Qed.

(** Property X14.  For every state of the form whose season dates and
    peak dates are days of the pandas timestamps, pressing
    "Generate plan" gives a plan and no exception: the dates that the
    form writes into the configuration are read back by the builder,
    and the plan has one row for every Monday from the season start to
    the season end. *)
Theorem generate_plan_succeeds form :
  timestamp_day (form_season_start form) →
  timestamp_day (form_season_end form) →
  timestamp_day (form_indoor_peak_1 form) →
  timestamp_day (form_outdoor_peak form) →
  ∃ rows, generate_plan form = Ok rows ∧
    length rows
    = length (date_range (form_season_start form) (form_season_end form)).
Proof.
  intros Ts Te Tp1 Tp2.
  apply timestamp_day_range in Ts, Te, Tp1, Tp2.
  destruct (plan_cfg_Ok form) as (ms & Hcfg & _).
  unfold generate_plan. rewrite Hcfg. cbn [mbind result_bind].
  set (cfg := make_cfg form ms _).
  destruct (rows_from_total cfg
              (phase_table (form_season_start form) (form_season_end form)
                 (form_indoor_peak_1 form) (form_outdoor_peak form)) 0
              (date_range (form_season_start form) (form_season_end form)))
    as [rows Hrows].
  exists rows. split.
  - rewrite <- Hrows.
    apply (build_schedule_Ok cfg _ _
             (strftime (form_indoor_peak_1 form)));
      try (apply strptime_strftime; lia); try lia.
    reflexivity.
  - by destruct (rows_from_covered _ _ _ _ _
                   (date_range_covered _ _ _ _) Hrows).
Qed.

(** X14 on the form as the page shows it first,
    for a season of one week. *)
Lemma generate_plan_succeeds_witness :
  timestamp_day 739663 ∧ timestamp_day 739669 ∧ timestamp_day 739668 ∧
  timestamp_day 739795 ∧
  ∃ rows, generate_plan default_form = Ok rows ∧ length rows = 1%nat.
Proof.
  assert (Ts : timestamp_day 739663) by (vm_compute; split; discriminate).
  assert (Te : timestamp_day 739669) by (vm_compute; split; discriminate).
  assert (T1 : timestamp_day 739668) by (vm_compute; split; discriminate).
  assert (T2 : timestamp_day 739795) by (vm_compute; split; discriminate).
  do 4 (split; [assumption|]).
  destruct (generate_plan_succeeds default_form Ts Te T1 T2)
    as (rows & H & Hlen).
  exists rows. split; [exact H | exact Hlen].
Defined.

(** ** The schedule settings reach the plan through the prefixes *)

Lemma fill_day_cells_ext sc1 sc2 r days m :
  (∀ day, day ∈ days → cell_prefix sc1 day = cell_prefix sc2 day) →
  fill_day_cells sc1 r days m = fill_day_cells sc2 r days m.
Proof.
  revert m. induction days as [|day rest IH]; intros m Hext; [reflexivity|].
  cbn [fill_day_cells]. unfold day_cell. rewrite (Hext day) by left.
  destruct (rotation day r) as [base|e]; [|reflexivity].
  cbn [mbind result_bind mret result_ret]. apply IH.
  intros d Hd. apply Hext. by right.
Qed.

Lemma build_schedule_prefix_ext c1 c2 :
  season_start c1 = season_start c2 → season_end c1 = season_end c2 →
  peaks c1 = peaks c2 → bike_km_per_day c1 = bike_km_per_day c2 →
  age c1 = age c2 →
  (∀ day, day ∈ DAYS →
     cell_prefix (default empty_schedule (schedule c1)) day
     = cell_prefix (default empty_schedule (schedule c2)) day) →
  build_schedule c1 = build_schedule c2.
Proof.
  intros Hs He Hp Hb Ha Hext. unfold build_schedule.
  rewrite Hs, He, Hp.
  assert (Hrow : ∀ i w phase, make_row c1 i w phase = make_row c2 i w phase).
  { intros i w phase. unfold make_row, vol_mod_of, commute_factor, age_factor.
    rewrite Hb, Ha, (fill_day_cells_ext _ _ _ _ _ Hext). reflexivity. }
  assert (Hrows : ∀ phases weeks i,
            rows_from c1 phases i weeks = rows_from c2 phases i weeks).
  { intros phases weeks. induction weeks as [|w rest IH]; intros i;
      [reflexivity|].
    cbn [rows_from]. by rewrite Hrow, IH. }
  destruct (strptime (season_start c2)) as [start|]; [|reflexivity].
  destruct (strptime (season_end c2)) as [end_|]; [|reflexivity].
  cbn [mbind result_bind].
  destruct (or_raise IndexError _) as [p1s|]; [|reflexivity].
  cbn [mbind result_bind].
  destruct (strptime p1s) as [peak1|]; [|reflexivity].
  destruct (strptime (outdoor_peak_date (peaks c2))) as [peak2|];
    [|reflexivity].
  cbn [mbind result_bind].
  destruct (phases_cfg start end_ peak1 peak2) as [ps|]; [|reflexivity].
  apply Hrows.
Qed.

Lemma cell_prefix_slots_ext m inc spw ms1 ms2 day :
  default [] (ms1 !! day) = default [] (ms2 !! day) →
  cell_prefix {| mode := m; include_time_prefix := inc;
                 sessions_per_week := spw; slots := Some ms1 |} day
  = cell_prefix {| mode := m; include_time_prefix := inc;
                   sessions_per_week := spw; slots := Some ms2 |} day.
Proof.
  intros H. unfold cell_prefix. cbn [slots from_option id]. by rewrite H.
Qed.

(** Property X15.  The widgets of the Sunday, its location and its check
    box "Use Sun", have no effect on the plan: Sunday has no default
    time, so ticking the box enters an empty slot list, which the
    builder treats as no slot list. *)
Theorem sunday_widgets_ignored form w :
  generate_plan (set_day form "Sun" w) = generate_plan form.
Proof.
  destruct (plan_cfg_Ok (set_day form "Sun" w)) as (ms1 & H1 & L1).
  destruct (plan_cfg_Ok form) as (ms2 & H2 & L2).
  unfold generate_plan. rewrite H1, H2. cbn [mbind result_bind].
  apply build_schedule_prefix_ext; try reflexivity.
  intros day Hday. cbn [schedule make_cfg from_option id].
  cbn [form_schedule_mode form_include_prefix set_day].
  apply cell_prefix_slots_ext. rewrite (L1 day Hday), (L2 day Hday).
  cbn [form_schedule_mode set_day].
  destruct (String.eqb (form_schedule_mode form) "manual"); [|reflexivity].
  unfold manual_entry. cbn [form_day set_day].
  destruct (String.eqb_spec day "Sun") as [->|Hne].
  - replace (String.eqb "Sun" "Sun") with true by reflexivity.
    by destruct (w_add w), (w_add (form_day form "Sun")).
  - reflexivity.
Qed.

(** Property X16.  In the manual mode of the form, with the prefix box
    ticked, the cell of a weekday from Monday to Saturday whose box
    "Use" is ticked is "HH:MM-HH:MM @ location — " followed by the
    rotation text, with the two times and the location of its widgets;
    every other cell, and every Sunday cell, is the bare rotation text. *)
Theorem manual_form_cells form rows :
  form_schedule_mode form = "manual" → form_include_prefix form = true →
  generate_plan form = Ok rows →
  ∀ (k : nat) row day, rows !! k = Some row → day ∈ DAYS →
    ∃ text, select day k = Ok text ∧
      row_cells row !! day
      = Some (if w_add (form_day form day) && negb (String.eqb day "Sun")
              then time_strftime (w_t1 (form_day form day)) +:+ "-"
                   +:+ time_strftime (w_t2 (form_day form day)) +:+ " @ "
                   +:+ w_loc (form_day form day) +:+ " — " +:+ text
              else text).
Proof.
  intros Hmode Hinc H k row day Hk Hday.
  destruct (plan_cfg_Ok form) as (ms & Hcfg & Hms).
  unfold generate_plan in H. rewrite Hcfg in H. cbn [mbind result_bind] in H.
  destruct (row_cell_at _ _ _ _ _ H Hk Hday) as (text & Ht & Hc).
  exists text. split; [exact Ht|]. rewrite Hc. f_equal.
  cbn [schedule make_cfg from_option id].
  rewrite manual_cell;
    [|by cbn [mode]; rewrite Hmode
     |by cbn [include_time_prefix]; rewrite Hinc].
  cbn [slots from_option id]. rewrite (Hms day Hday), Hmode.
  replace (String.eqb "manual" "manual") with true by reflexivity.
  unfold manual_entry.
  destruct (w_add (form_day form day)); [|reflexivity].
  destruct (String.eqb day "Sun"); [reflexivity|].
  cbn [andb negb from_option id fmap list_fmap join]. unfold slot_text.
  cbn [slot_start slot_end slot_location from_option id].
  by rewrite !append_assoc.
Qed.

(** X16 on the form as the page shows it first. *)
Lemma manual_form_cells_witness :
  ∃ rows row, generate_plan default_form = Ok rows ∧
    rows !! 0%nat = Some row ∧
    row_cells row !! "Mon"
    = Some "20:00-21:15 @ Statina — Warm-up + drills; Starts/accelerations; Core" ∧
    row_cells row !! "Sat"
    = Some "Optional sprint (if fresh) or active recovery".
Proof.
  destruct (generate_plan default_form) as [rows|] eqn:H;
    [|vm_compute in H; discriminate H].
  destruct (rows !! 0%nat) as [row|] eqn:Hk;
    [|vm_compute in H; injection H as <-; discriminate Hk].
  exists rows, row. split; [reflexivity|]. split; [exact Hk|].
  assert (Hmon : "Mon" ∈ DAYS) by (unfold DAYS; repeat constructor).
  assert (Hsat : "Sat" ∈ DAYS) by (unfold DAYS; repeat constructor).
  destruct (manual_form_cells default_form rows eq_refl eq_refl H
              0%nat row "Mon" Hk Hmon) as (t1 & Ht1 & ->).
  destruct (manual_form_cells default_form rows eq_refl eq_refl H
              0%nat row "Sat" Hk Hsat) as (t2 & Ht2 & ->).
  vm_compute in Ht1. injection Ht1 as <-.
  vm_compute in Ht2. injection Ht2 as <-.
  split; vm_compute; reflexivity.
Defined.

(** ** The season is covered by the phases *)

(** Property X17.  The nine ranges of the phase list cover the season
    whatever the peak dates are, also peak dates in the wrong order or
    outside the season: every date from the season start to the season
    end has a phase, so the loop of the builder never meets the empty
    phase name and never skips a Monday of the season. *)
Theorem season_always_covered start end_ peak1 peak2 phases d :
  phases_cfg start end_ peak1 peak2 = Ok phases →
  start ≤ d ≤ end_ →
  phase_for phases d ∈ phase_names ∧
  ∃ (i : nat) s e, phases !! i = Some (phase_for phases d, s, e) ∧ s ≤ d ≤ e.
Proof.
  intros H Hd. apply phases_cfg_inv in H as (-> & _ & _).
  pose proof (phase_for_table_covered start end_ peak1 peak2 d Hd) as Hne.
  split; [|by apply phase_for_index].
  destruct (phase_for_table_name start end_ peak1 peak2 d) as [He | Hn];
    [|exact Hn].
  rewrite He in Hne. discriminate Hne.
Qed.

(** X17 on the scenario with the two peaks
    exchanged. *)
Lemma season_always_covered_witness :
  phases_cfg 739495 739798 739795 739668
  = Ok (phase_table 739495 739798 739795 739668) ∧
  739495 ≤ 739663 ≤ 739798 ∧
  phase_for (phase_table 739495 739798 739795 739668) 739663 ∈ phase_names.
Proof.
  assert (H : phases_cfg 739495 739798 739795 739668
              = Ok (phase_table 739495 739798 739795 739668))
    by (vm_compute; reflexivity).
  assert (Hd : 739495 ≤ 739663 ≤ 739798) by lia.
  split; [exact H|]. split; [exact Hd|].
  exact (proj1 (season_always_covered _ _ _ _ _ _ H Hd)).
Defined.

(** ** The slider of the sessions per week *)

Lemma time_prefix_auto_fallback day n :
  n ≠ 4 → n ≠ 5 → n ≠ 6 → _time_prefix_auto day n = _time_prefix_auto day 5.
Proof.
  intros H4 H5 H6. unfold _time_prefix_auto.
  by rewrite (templates_lookup_None n H4 H5 H6).
Qed.

(** Property X18.  A number of sessions per week other than 4, 5 and
    6, such as the 3 that the slider offers, gives the same plan as 5
    sessions per week, in the automatic mode as in the manual one. *)
Theorem sessions_fallback_plan form n :
  n ≠ 4 → n ≠ 5 → n ≠ 6 →
  generate_plan (set_sessions form n) = generate_plan (set_sessions form 5).
Proof.
  intros H4 H5 H6. unfold generate_plan, plan_cfg.
  cbn [form_schedule_mode form_sessions_per_week set_sessions].
  destruct (String.eqb (form_schedule_mode form) "manual") eqn:Em;
    [reflexivity|].
  cbn [mbind result_bind mret result_ret].
  apply build_schedule_prefix_ext; try reflexivity.
  intros day _. cbn [schedule make_cfg from_option id]. unfold cell_prefix.
  cbn [mode include_time_prefix sessions_per_week slots from_option id
       form_schedule_mode form_include_prefix set_sessions].
  rewrite Em.
  destruct (form_include_prefix form); [|reflexivity].
  destruct (String.eqb (form_schedule_mode form) "auto"); [|reflexivity].
  by apply time_prefix_auto_fallback.
Qed.

(** X18 on three sessions a week. *)
Lemma sessions_fallback_plan_witness :
  generate_plan (set_sessions auto_form 3)
  = generate_plan (set_sessions auto_form 5).
Proof.
  apply (sessions_fallback_plan auto_form 3); discriminate.
Defined.

(** ** The schedule settings that a mode does not read *)

(** Property X19.  The settings of the schedule that the mode does
    not use have no effect on the result of the builder: outside the
    mode "manual" the slots are not read, outside the mode "auto" the
    sessions per week are not read, and two slot tables give the same
    result when each of the seven weekdays has the same slot list in
    both, a missing entry counting as an empty list and entries under
    other keys not counting at all. *)
Theorem unused_schedule_settings cfg m inc n1 n2 sl1 sl2 :
  (default "none" m ≠ "manual" →
   build_schedule (with_schedule cfg
     {| mode := m; include_time_prefix := inc;
        sessions_per_week := n1; slots := sl1 |})
   = build_schedule (with_schedule cfg
     {| mode := m; include_time_prefix := inc;
        sessions_per_week := n1; slots := sl2 |})) ∧
  (default "none" m ≠ "auto" →
   build_schedule (with_schedule cfg
     {| mode := m; include_time_prefix := inc;
        sessions_per_week := n1; slots := sl1 |})
   = build_schedule (with_schedule cfg
     {| mode := m; include_time_prefix := inc;
        sessions_per_week := n2; slots := sl1 |})) ∧
  ((∀ day, day ∈ DAYS →
      default [] (default ∅ sl1 !! day) = default [] (default ∅ sl2 !! day)) →
   build_schedule (with_schedule cfg
     {| mode := m; include_time_prefix := inc;
        sessions_per_week := n1; slots := sl1 |})
   = build_schedule (with_schedule cfg
     {| mode := m; include_time_prefix := inc;
        sessions_per_week := n1; slots := sl2 |})).
Proof.
  split; [|split].
  - intros Hm. apply build_schedule_prefix_ext; try reflexivity.
    intros day _. cbn [schedule with_schedule from_option id].
    unfold cell_prefix. cbn [mode include_time_prefix sessions_per_week slots].
    by rewrite (eqb_neq_false _ _ Hm).
  - intros Ha. apply build_schedule_prefix_ext; try reflexivity.
    intros day _. cbn [schedule with_schedule from_option id].
    unfold cell_prefix. cbn [mode include_time_prefix sessions_per_week slots].
    by rewrite (eqb_neq_false _ _ Ha).
  - intros Hsl. apply build_schedule_prefix_ext; try reflexivity.
    intros day Hday. cbn [schedule with_schedule from_option id].
    unfold cell_prefix. cbn [mode include_time_prefix sessions_per_week slots].
    by rewrite (Hsl day Hday).
Qed.

(** X19 on the season of one week: without
    slots and with an empty slot list on Sunday. *)
Lemma unused_schedule_settings_witness :
  build_schedule (with_schedule one_week_cfg
    {| mode := Some "manual"; include_time_prefix := None;
       sessions_per_week := None; slots := None |})
  = build_schedule (with_schedule one_week_cfg
    {| mode := Some "manual"; include_time_prefix := None;
       sessions_per_week := None; slots := Some {["Sun" := []]} |}).
Proof.
  apply (proj2 (proj2 (unused_schedule_settings one_week_cfg (Some "manual")
                         None None None None (Some {["Sun" := []]})))).
  apply DAYS_cases; vm_compute; reflexivity.
Defined.
